(** * Input Router: the routing engine of [input_router.py]

    A shallow embedding of the routing path of the daemon
    ([InputRouter.route_event], the window refresh, the keyboard and mouse
    injectors, the mapping mutators and the receive loop), followed by the
    properties of the routing engine that the specification states. *)

From Stdlib Require Import ZArith NArith Lia Bool.
From Stdlib.Strings Require Import Byte.
From stdpp Require Import base option list strings gmap.

Local Open Scope Z_scope.

(** ** Windows API constants *)

Definition INPUT_KEYBOARD : Z := 1.
Definition INPUT_MOUSE : Z := 0.
Definition KEYEVENTF_SCANCODE : Z := 0x0008.
Definition MOUSEEVENTF_MOVE : Z := 0x0001.
Definition MOUSEEVENTF_LEFTDOWN : Z := 0x0002.
Definition MOUSEEVENTF_LEFTUP : Z := 0x0004.
Definition MOUSEEVENTF_RIGHTDOWN : Z := 0x0008.
Definition MOUSEEVENTF_RIGHTUP : Z := 0x0010.
Definition MOUSEEVENTF_MIDDLEDOWN : Z := 0x0020.
Definition MOUSEEVENTF_MIDDLEUP : Z := 0x0040.
Definition MOUSEEVENTF_ABSOLUTE : Z := 0x8000.

(** Raw Input button flags *)
Definition RI_MOUSE_LEFT_BUTTON_DOWN : Z := 0x0001.
Definition RI_MOUSE_LEFT_BUTTON_UP : Z := 0x0002.
Definition RI_MOUSE_RIGHT_BUTTON_DOWN : Z := 0x0004.
Definition RI_MOUSE_RIGHT_BUTTON_UP : Z := 0x0008.
Definition RI_MOUSE_MIDDLE_BUTTON_DOWN : Z := 0x0010.
Definition RI_MOUSE_MIDDLE_BUTTON_UP : Z := 0x0020.

(** Window messages used with PostMessage *)
Definition WM_KEYDOWN : Z := 0x0100.
Definition WM_KEYUP : Z := 0x0101.
Definition WM_CHAR : Z := 0x0102.

Definition MAPVK_VK_TO_VSC : Z := 0.
Definition MAPVK_VK_TO_CHAR : Z := 2.

(** ** C structures

    [wintypes.LONG] is a signed and [wintypes.DWORD], [wintypes.WORD] are
    unsigned fixed-width fields; storing a Python integer into a ctypes
    field keeps its low bits. *)

Definition LONG (z : Z) : Z := (z + 2 ^ 31) mod 2 ^ 32 - 2 ^ 31.
Definition DWORD (z : Z) : Z := z mod 2 ^ 32.

Record MOUSEINPUT := {
  mi_dx : Z;
  mi_dy : Z;
  mi_mouseData : Z;
  mi_dwFlags : Z;
  mi_time : Z
}.

Record KEYBDINPUT := {
  ki_wVk : Z;
  ki_wScan : Z;
  ki_dwFlags : Z;
  ki_time : Z
}.

(** [INPUT]: the [type] tag selects the member of [INPUT_UNION] in use. *)
Inductive INPUT :=
| INPUT_mi (mi : MOUSEINPUT)
| INPUT_ki (ki : KEYBDINPUT).

Definition INPUT_type (inp : INPUT) : Z :=
  match inp with
  | INPUT_mi _ => INPUT_MOUSE
  | INPUT_ki _ => INPUT_KEYBOARD
  end.

(** ** Sessions, events and the router's tables *)

(** A [subprocess.Popen] object, identified by the process it started. *)
Record Popen := { popen_pid : Z }.

Record UserSession := {
  user_id : string;
  process : option Popen;
  hwnd : option Z;
  project_dir : string;
  editor : string;
  pid : Z
}.

Definition set_hwnd (h : option Z) (s : UserSession) : UserSession :=
  {| user_id := user_id s; process := process s; hwnd := h;
     project_dir := project_dir s; editor := editor s; pid := pid s |}.

(** A decoded event: the value [event.get(key, default)] yields for each
    key [route_event] reads, so an absent key carries its default. *)
Record Event := {
  device_id : string;
  type : string;
  vkey : Z;
  dx : Z;
  dy : Z;
  buttons : Z;
  timestamp : Z
}.

Record InputRouter := {
  device_mappings : gmap string string;
  user_sessions : gmap string UserSession;
  running : bool
}.

Definition with_sessions (us : gmap string UserSession) (r : InputRouter) : InputRouter :=
  {| device_mappings := device_mappings r; user_sessions := us; running := running r |}.

Definition with_mappings (dm : gmap string string) (r : InputRouter) : InputRouter :=
  {| device_mappings := dm; user_sessions := user_sessions r; running := running r |}.

(** ** The environment

    What the operating system answers during one routing pass: the window
    queries of user32, the key translation table, the value [SendInput]
    returns, the exit status [Popen.poll] reports ([None] while the
    process runs), and whether the configuration file can be written. *)
Record Env := {
  IsWindow : Z -> bool;
  IsWindowVisible : Z -> bool;
  IsIconic : Z -> bool;
  EnumWindows : list Z;
  GetWindowThreadProcessId : Z -> Z;
  MapVirtualKeyW : Z -> Z -> Z;
  SendInput_result : INPUT -> Z;
  poll : Popen -> option Z;
  config_writable : bool
}.

(** ** Effects

    Calls that act on the operating system, log records, the accesses to
    the shared tables and to the router's lock, and the calls of
    [route_event] made by the receive loop, in program order. *)
Inductive os_call :=
| PostMessageW (h msg wparam lparam : Z)
| SendInput (inp : INPUT)
| SetForegroundWindow (h : Z)
| ShowWindow (h cmd : Z).

Inductive level := DEBUG | INFO | WARNING | ERROR.

Inductive access :=
| LockAcquire
| LockRelease
| MappingsRead
| MappingsWrite
| SessionsRead
| SessionsWrite.

Inductive effect :=
| Os (c : os_call)
| Log (l : level)
| Mem (a : access)
| Routed (event : Event).

Definition os_calls (tr : list effect) : list os_call :=
  omap (fun e => match e with Os c => Some c | _ => None end) tr.

Definition logs (tr : list effect) : list level :=
  omap (fun e => match e with Log l => Some l | _ => None end) tr.

Definition accesses (tr : list effect) : list access :=
  omap (fun e => match e with Mem a => Some a | _ => None end) tr.


(** ** A monad for methods: environment, object state, effects

    [St S A] is a computation over an object of type [S]: it reads the
    environment, may mutate the object, and appends to the effect trace.
    Router methods run over the [InputRouter]; code that works on one
    session object runs over that [UserSession]. *)

Definition St (S A : Type) : Type := Env -> S -> A * S * list effect.

Definition ret {S A} (a : A) : St S A := fun _ s => (a, s, []).

Definition bind {S A B} (m : St S A) (f : A -> St S B) : St S B := fun e s =>
  let x := m e s in
  let y := f x.1.1 e x.1.2 in
  (y.1.1, y.1.2, x.2 ++ y.2).

Declare Scope method_scope.
Delimit Scope method_scope with method.
Bind Scope method_scope with St.

Notation "x <- m ;; k" := (bind m (fun x => k))
  (at level 100, m at next level, right associativity) : method_scope.
Notation "m ;; k" := (bind m (fun _ => k))
  (at level 100, right associativity) : method_scope.

Local Open Scope method_scope.

Abbreviation M := (St InputRouter).

Definition emit {S} (e : effect) : St S unit := fun _ s => (tt, s, [e]).
Definition ask {S A} (q : Env -> A) : St S A := fun e s => (q e, s, []).
Definition gets {S A} (q : S -> A) : St S A := fun _ s => (q s, s, []).
Definition modify {S} (f : S -> S) : St S unit := fun _ s => (tt, f s, []).

Definition logger {S} (l : level) : St S unit := emit (Log l).
Definition call {S} (c : os_call) : St S unit := emit (Os c).

(** Result, final state and trace of a run. *)
Definition result_of {S A} (x : A * S * list effect) : A := x.1.1.
Definition state_of {S A} (x : A * S * list effect) : S := x.1.2.
Definition trace_of {S A} (x : A * S * list effect) : list effect := x.2.

(** [on_session user_id session body] runs [body] on the session object
    stored under [user_id] in [user_sessions] ([session] is the object
    [self.user_sessions.get(user_id)] returned): attribute assignments made
    by [body] are assignments to that shared object. *)
Definition on_session {A} (uid : string) (session : UserSession)
    (body : St UserSession A) : M A := fun e r =>
  let x := body e (default session (user_sessions r !! uid)) in
  (x.1.1, with_sessions (<[uid := x.1.2]> (user_sessions r)) r, x.2).

(** Python truth values of the objects the router tests. *)
Definition truthy_int (z : Z) : bool := negb (z =? 0).
Definition truthy_hwnd (h : option Z) : bool := from_option truthy_int false h.
Definition truthy_str (s : string) : bool := negb (bool_decide (s = EmptyString)).

(** A window handle handed to user32: [None] is passed as NULL. *)
Definition HWND (h : option Z) : Z := default 0 h.

(** A window handle received from user32 as a [wintypes.HWND] callback
    argument: the NULL handle arrives as [None]. *)
Definition HWND_value (h : Z) : option Z := if h =? 0 then None else Some h.

(** ** Window resolver *)

Definition _find_window_by_pid {S} (pid : Z) : St S (option Z) :=
  ask (fun e =>
    let result :=
      List.filter
        (fun hwnd => (GetWindowThreadProcessId e hwnd =? pid) && IsWindowVisible e hwnd)
        (EnumWindows e) in
    match result with
    | hwnd :: _ => HWND_value hwnd
    | [] => None
    end).

(** [session.process and session.process.poll() is None] *)
Definition process_running (e : Env) (session : UserSession) : bool :=
  match process session with
  | Some p => bool_decide (poll e p = None)
  | None => false
  end.

(** [session.process and session.process.poll() is not None] *)
Definition process_exited (e : Env) (session : UserSession) : bool :=
  match process session with
  | Some p => negb (bool_decide (poll e p = None))
  | None => false
  end.

Definition setattr_hwnd (h : option Z) : St UserSession unit :=
  modify (set_hwnd h);; emit (Mem SessionsWrite).

Definition _refresh_window_handle : St UserSession bool :=
  session <- gets (fun self : UserSession => self);;
  alive <- ask (fun e => process_running e session);;
  if alive then
    hwnd <- _find_window_by_pid (pid session);;
    if truthy_hwnd hwnd then
      setattr_hwnd hwnd;;
      ret true
    else ret false
  else ret false.

(** ** Input injector *)


Definition send_input {S} (inp : INPUT) : St S unit :=
  call (SendInput inp);;
  result <- ask (fun e => SendInput_result e inp);;
  if negb (result =? 1) then logger WARNING else ret tt.


Definition lparam_down (scan_code : Z) : Z :=
  Z.lor (Z.shiftl scan_code 16) 1.

Definition lparam_up (scan_code : Z) : Z :=
  Z.lor (Z.lor (Z.lor (Z.shiftl scan_code 16) 1) (Z.shiftl 1 30)) (Z.shiftl 1 31).

Definition inject_keyboard_to_window {S} (hwnd vkey : Z) : St S unit :=
  scan_code <- ask (fun e => MapVirtualKeyW e vkey MAPVK_VK_TO_VSC);;
  call (PostMessageW hwnd WM_KEYDOWN vkey (lparam_down scan_code));;
  char_code <- ask (fun e => MapVirtualKeyW e vkey MAPVK_VK_TO_CHAR);;
  (if 0 <? char_code then
     call (PostMessageW hwnd WM_CHAR char_code (lparam_down scan_code))
   else ret tt);;
  call (PostMessageW hwnd WM_KEYUP vkey (lparam_up scan_code)).

Definition inject_mouse_move {S} (dx dy : Z) (absolute : bool) : St S unit :=
  let dwFlags :=
    if absolute then Z.lor MOUSEEVENTF_MOVE MOUSEEVENTF_ABSOLUTE
    else MOUSEEVENTF_MOVE in
  send_input (INPUT_mi {|
    mi_dx := LONG dx;
    mi_dy := LONG dy;
    mi_mouseData := DWORD 0;
    mi_dwFlags := DWORD dwFlags;
    mi_time := DWORD 0 |}).

(** [if buttons & bit: flags |= flag] *)
Definition or_if (buttons bit flag flags : Z) : Z :=
  if truthy_int (Z.land buttons bit) then Z.lor flags flag else flags.

Definition button_flags (buttons : Z) : Z :=
  let flags := 0 in
  let flags := or_if buttons RI_MOUSE_LEFT_BUTTON_DOWN MOUSEEVENTF_LEFTDOWN flags in
  let flags := or_if buttons RI_MOUSE_LEFT_BUTTON_UP MOUSEEVENTF_LEFTUP flags in
  let flags := or_if buttons RI_MOUSE_RIGHT_BUTTON_DOWN MOUSEEVENTF_RIGHTDOWN flags in
  let flags := or_if buttons RI_MOUSE_RIGHT_BUTTON_UP MOUSEEVENTF_RIGHTUP flags in
  let flags := or_if buttons RI_MOUSE_MIDDLE_BUTTON_DOWN MOUSEEVENTF_MIDDLEDOWN flags in
  let flags := or_if buttons RI_MOUSE_MIDDLE_BUTTON_UP MOUSEEVENTF_MIDDLEUP flags in
  flags.

Definition inject_mouse_button {S} (buttons : Z) : St S unit :=
  let flags := button_flags buttons in
  if flags =? 0 then ret tt else
  send_input (INPUT_mi {|
    mi_dx := LONG 0;
    mi_dy := LONG 0;
    mi_mouseData := DWORD 0;
    mi_dwFlags := DWORD flags;
    mi_time := DWORD 0 |}).

(** The messages one key press posts to the window [h]: key down, the
    character when the key translates to one, key up. *)
Definition key_messages (e : Env) (h vkey : Z) : list os_call :=
  let scan_code := MapVirtualKeyW e vkey MAPVK_VK_TO_VSC in
  let char_code := MapVirtualKeyW e vkey MAPVK_VK_TO_CHAR in
  [PostMessageW h WM_KEYDOWN vkey (lparam_down scan_code)]
  ++ (if 0 <? char_code
      then [PostMessageW h WM_CHAR char_code (lparam_down scan_code)]
      else [])
  ++ [PostMessageW h WM_KEYUP vkey (lparam_up scan_code)].

(** The input structures of a relative motion and of a button event. *)
Definition motion_input (dx dy : Z) : INPUT :=
  INPUT_mi {|
    mi_dx := LONG dx;
    mi_dy := LONG dy;
    mi_mouseData := DWORD 0;
    mi_dwFlags := DWORD MOUSEEVENTF_MOVE;
    mi_time := DWORD 0 |}.

Definition button_input (flags : Z) : INPUT :=
  INPUT_mi {|
    mi_dx := LONG 0;
    mi_dy := LONG 0;
    mi_mouseData := DWORD 0;
    mi_dwFlags := DWORD flags;
    mi_time := DWORD 0 |}.

(** The calls one mouse event makes: at most one motion, at most one
    button event. *)
Definition mouse_inputs (dx dy buttons : Z) : list os_call :=
  (if negb (dx =? 0) || negb (dy =? 0) then [SendInput (motion_input dx dy)] else [])
  ++ (if negb (buttons =? 0) && negb (button_flags buttons =? 0)
      then [SendInput (button_input (button_flags buttons))]
      else []).

(** ** Device mapping table and session registry *)

(** The router's lock: [with self.lock: body]. *)
Definition with_lock {A} (body : M A) : M A :=
  emit (Mem LockAcquire);;
  a <- body;;
  emit (Mem LockRelease);;
  ret a.

(** [self.device_mappings.get(device_id)] *)
Definition mappings_get (device_id : string) : M (option string) :=
  emit (Mem MappingsRead);;
  gets (fun self => device_mappings self !! device_id).

(** [self.user_sessions.get(user_id)] *)
Definition sessions_get (user_id : string) : M (option UserSession) :=
  emit (Mem SessionsRead);;
  gets (fun self => user_sessions self !! user_id).

(** [_save_config] stores the mapping table into the configuration and
    writes the file; the outcome of the write decides the log record. The
    file is no part of the router's routing state. *)
Definition _save_config : M unit :=
  emit (Mem MappingsRead);;
  written <- ask config_writable;;
  if written then logger INFO else logger ERROR.

(** *** Methods, step by step

    A method as the interpreter runs it, alone or among other threads: a
    sequence of steps, between any two of which another thread may run.
    [Acquire] and [Release] enter and leave [with self.lock:]. An [Atomic]
    step is one statement that the interpreter completes without switching
    threads as far as the tables are concerned: a single dictionary
    operation, a logger call, or [_save_config], which only reads the
    mapping table. The step yields the code that follows it. *)
#[warnings="-register-all"]
Inductive code (A : Type) : Type :=
| Return (a : A)
| Acquire (k : code A)
| Release (k : code A)
| Atomic (step : M (code A)).

Arguments Return {A} a.
Arguments Acquire {A} k.
Arguments Release {A} k.
Arguments Atomic {A} step.

(** The method run with no other thread around. *)
Fixpoint alone {A} (k : code A) : M A :=
  match k with
  | Return a => ret a
  | Acquire k => emit (Mem LockAcquire);; alone k
  | Release k => emit (Mem LockRelease);; alone k
  | Atomic step => fun e self =>
      match step e self with
      | (k, self', tr) =>
          let x := alone k e self' in
          (result_of x, state_of x, tr ++ trace_of x)
      end
  end.

(** [self._save_config()], [self.logger.info(...)], end of the [with]
    block. *)
Definition after_write : code unit :=
  Atomic (_save_config;; ret (
  Atomic (logger INFO;; ret (
  Release (Return tt))))).

Definition add_device_mapping_code (device_id user_id : string) : code unit :=
  Acquire (
  Atomic (
    modify (fun self => with_mappings (<[device_id := user_id]> (device_mappings self)) self);;
    emit (Mem MappingsWrite);;
    ret after_write)).

Definition add_device_mapping (device_id user_id : string) : M unit :=
  alone (add_device_mapping_code device_id user_id).

Definition remove_device_mapping_code (device_id : string) : code unit :=
  Acquire (
  Atomic (
    emit (Mem MappingsRead);;
    present <- gets (fun self => bool_decide (is_Some (device_mappings self !! device_id)));;
    ret (if present then
           Atomic (
             modify (fun self => with_mappings (delete device_id (device_mappings self)) self);;
             emit (Mem MappingsWrite);;
             ret after_write)
         else Release (Return tt)))).

Definition remove_device_mapping (device_id : string) : M unit :=
  alone (remove_device_mapping_code device_id).

Definition attached : string := "attached".

Definition attach_to_window (user_id : string) (hwnd : Z) : M bool :=
  exists_ <- ask (fun e => IsWindow e hwnd);;
  if negb exists_ then
    logger ERROR;;
    ret false
  else
    let session := {|
      user_id := user_id;
      process := None;
      hwnd := Some hwnd;
      project_dir := EmptyString;
      editor := attached;
      pid := 0 |} in
    modify (fun self => with_sessions (<[user_id := session]> (user_sessions self)) self);;
    emit (Mem SessionsWrite);;
    logger INFO;;
    ret true.

(** ** Router / dispatcher *)

(** The return point taken by [route_event], under the names the
    specification gives the routing outcomes. [Discarded] is the fall
    through of an event whose type is neither keyboard nor mouse. *)
Inductive RoutingOutcome :=
| Delivered
| DroppedUnmappedDevice
| DroppedNoSession
| DroppedProcessDead
| DroppedWindowUnresolvable
| Discarded.

Definition keyboard : string := "keyboard".
Definition mouse : string := "mouse".

(** Lines 496-516: the kind-specific injection into [session.hwnd]. *)
Definition dispatch (event : Event) : St UserSession RoutingOutcome :=
  let event_type := type event in
  if bool_decide (event_type = keyboard) then
    let vkey := vkey event in
    session_hwnd <- gets hwnd;;
    inject_keyboard_to_window (HWND session_hwnd) vkey;;
    logger DEBUG;;
    ret Delivered
  else if bool_decide (event_type = mouse) then
    let dx := dx event in
    let dy := dy event in
    let buttons := buttons event in
    (if negb (dx =? 0) || negb (dy =? 0) then inject_mouse_move dx dy false else ret tt);;
    (if negb (buttons =? 0) then inject_mouse_button buttons else ret tt);;
    logger DEBUG;;
    ret Delivered
  else ret Discarded.

(** Lines 490-494: the liveness check of the handle, then the dispatch. *)
Definition check_window_then_dispatch (event : Event) : St UserSession RoutingOutcome :=
  session_hwnd <- gets hwnd;;
  live <- ask (fun e => IsWindow e (HWND session_hwnd));;
  if negb live then
    _refresh_window_handle;;
    session_hwnd <- gets hwnd;;
    if negb (truthy_hwnd session_hwnd) then ret DroppedWindowUnresolvable
    else dispatch event
  else dispatch event.

(** Lines 478-494: the checks made on the session object found for the
    user, ending in the dispatch. *)
Definition route_to_session (event : Event) : St UserSession RoutingOutcome :=
  session <- gets (fun self : UserSession => self);;
  exited <- ask (fun e => process_exited e session);;
  if exited then
    logger WARNING;;
    setattr_hwnd None;;
    ret DroppedProcessDead
  else
  session_hwnd <- gets hwnd;;
  if negb (truthy_hwnd session_hwnd) then
    refreshed <- _refresh_window_handle;;
    if negb refreshed then
      logger WARNING;;
      ret DroppedWindowUnresolvable
    else check_window_then_dispatch event
  else check_window_then_dispatch event.

Definition route_event (event : Event) : M RoutingOutcome :=
  let device_id := device_id event in
  user_id <- mappings_get device_id;;
  match user_id with
  | None =>
      logger DEBUG;;
      ret DroppedUnmappedDevice
  | Some user_id =>
    if negb (truthy_str user_id) then
      logger DEBUG;;
      ret DroppedUnmappedDevice
    else
    session <- sessions_get user_id;;
    match session with
    | None =>
        logger WARNING;;
        ret DroppedNoSession
    | Some session =>
        on_session user_id session (route_to_session event)
    end
  end.

(** ** The desktop the calls act on

    What the calls of the trace do to the windows, after the Win32
    contract: [PostMessageW] places a message in the queue of the window it
    names; [SetForegroundWindow] gives that window the input focus;
    [SendInput] inserts the input into the system input stream, which the
    system hands to the window that has the focus. *)
Record Desktop := {
  focus : Z;
  queue : Z -> list (Z * Z * Z);
  delivered_input : Z -> list INPUT
}.

Definition push {A} (h : Z) (x : A) (q : Z -> list A) : Z -> list A :=
  fun h' => if h' =? h then q h' ++ [x] else q h'.

Definition os_step (d : Desktop) (c : os_call) : Desktop :=
  match c with
  | PostMessageW h msg wparam lparam =>
      {| focus := focus d;
         queue := push h (msg, wparam, lparam) (queue d);
         delivered_input := delivered_input d |}
  | SendInput inp =>
      {| focus := focus d;
         queue := queue d;
         delivered_input := push (focus d) inp (delivered_input d) |}
  | SetForegroundWindow h =>
      {| focus := h; queue := queue d; delivered_input := delivered_input d |}
  | ShowWindow _ _ => d
  end.

Definition os_run (d : Desktop) (cs : list os_call) : Desktop :=
  foldl os_step d cs.

(** ** Receive loop and event stream parser *)

(** A Python [str]: its code points. *)
Definition pystr : Type := list N.

Definition NEWLINE : N := 10.

(** *** [bytes.decode('utf-8')]

    The strict decoder: a malformed, overlong, surrogate or out-of-range
    sequence, or one cut short by the end of the data, raises
    [UnicodeDecodeError] ([None]). *)

Definition continuation (b : N) : bool := ((0x80 <=? b) && (b <=? 0xBF))%N.

(** Bounds of the second byte after the lead byte [b0]. *)
Definition second_low (b0 : N) : N :=
  (if b0 =? 0xE0 then 0xA0 else if b0 =? 0xF0 then 0x90 else 0x80)%N.
Definition second_high (b0 : N) : N :=
  (if b0 =? 0xED then 0x9F else if b0 =? 0xF4 then 0x8F else 0xBF)%N.
Definition second (b0 b1 : N) : bool :=
  ((second_low b0 <=? b1) && (b1 <=? second_high b0))%N.

Fixpoint utf8_points (bs : list N) : option pystr :=
  match bs with
  | [] => Some []
  | b0 :: bs1 =>
    if (b0 <? 0x80)%N then cons b0 <$> utf8_points bs1
    else if ((0xC2 <=? b0) && (b0 <=? 0xDF))%N then
      match bs1 with
      | b1 :: bs2 =>
        if continuation b1
        then cons ((b0 - 0xC0) * 64 + (b1 - 0x80))%N <$> utf8_points bs2
        else None
      | _ => None
      end
    else if ((0xE0 <=? b0) && (b0 <=? 0xEF))%N then
      match bs1 with
      | b1 :: b2 :: bs3 =>
        if second b0 b1 && continuation b2
        then cons ((b0 - 0xE0) * 4096 + (b1 - 0x80) * 64 + (b2 - 0x80))%N
               <$> utf8_points bs3
        else None
      | _ => None
      end
    else if ((0xF0 <=? b0) && (b0 <=? 0xF4))%N then
      match bs1 with
      | b1 :: b2 :: b3 :: bs4 =>
        if second b0 b1 && continuation b2 && continuation b3
        then cons ((b0 - 0xF0) * 262144 + (b1 - 0x80) * 4096
                   + (b2 - 0x80) * 64 + (b3 - 0x80))%N
               <$> utf8_points bs4
        else None
      | _ => None
      end
    else None
  end.

Definition decode_utf8 (data : list byte) : option pystr :=
  utf8_points (Byte.to_N <$> data).

(** *** [str] operations of the loop *)

(** [str.isspace] of one character. *)
Definition isspace (c : N) : bool :=
  ((9 <=? c) && (c <=? 13) || (28 <=? c) && (c <=? 32)
   || (c =? 0x85) || (c =? 0xA0) || (c =? 0x1680)
   || (0x2000 <=? c) && (c <=? 0x200A)
   || (c =? 0x2028) || (c =? 0x2029) || (c =? 0x202F)
   || (c =? 0x205F) || (c =? 0x3000))%N.

(** The truth value of [line.strip()]: some character is not white space. *)
Definition strip_truthy (line : pystr) : bool :=
  existsb (fun c => negb (isspace c)) line.

(** [buffer.split('\n', 1)] when ['\n' in buffer], [None] when not. *)
Fixpoint split_newline (buffer : pystr) : option (pystr * pystr) :=
  match buffer with
  | [] => None
  | c :: rest =>
    if (c =? NEWLINE)%N then Some ([], rest)
    else
      match split_newline rest with
      | Some (line, rest') => Some (c :: line, rest')
      | None => None
      end
  end.

(** The text of complete lines: each line followed by its newline. *)
Definition lines_text (lines : list pystr) : pystr :=
  concat ((fun line => line ++ [NEWLINE]) <$> lines).

(** What [json.loads(line)] followed by the first [event.get] gives:
    [json.JSONDecodeError]; an object, read as an event; or a JSON value
    that is no object, on which [event.get] raises [AttributeError]. *)
Inductive loads_result :=
| JSONDecodeError
| LoadsObject (event : Event)
| LoadsOther.

(** One answer of [self.socket.recv(4096)]. *)
Inductive recv_result :=
| RecvData (data : list byte)
| RecvTimeout
| RecvError.

(** One turn of the receive loop: the state of the operating system while
    it runs, and what [recv] returns. *)
Record arrival := { os : Env; recv : recv_result }.

(** How the inner loop over complete lines ends. *)
Inductive lines_result :=
| Remaining (buffer : pystr)
| Raised
| OutOfFuel.

(** How [event_loop] ends: the server closed the connection, an exception
    reached the outer handler, [self.running] was false at the loop head;
    [AwaitingData buffer] is the loop blocked in [recv] when the stream
    given to the model ends. *)
Inductive loop_exit :=
| ServerDisconnected
| EventLoopError
| NotRunning
| AwaitingData (buffer : pystr)
| FuelExhausted.

Section Receive.

Variable json_loads : pystr -> loads_result.

(** [while '\n' in buffer: ...]; each turn removes one line, so
    [length buffer] turns are enough. *)
Fixpoint process_buffer (fuel : nat) (buffer : pystr) : M lines_result :=
  match split_newline buffer with
  | None => ret (Remaining buffer)
  | Some (line, buffer) =>
    match fuel with
    | O => ret OutOfFuel
    | S fuel =>
      if strip_truthy line then
        match json_loads line with
        | JSONDecodeError =>
            logger ERROR;;
            process_buffer fuel buffer
        | LoadsObject event =>
            emit (Routed event);;
            route_event event;;
            process_buffer fuel buffer
        | LoadsOther => ret Raised
        end
      else process_buffer fuel buffer
    end
  end.

Fixpoint event_loop_from (buffer : pystr) (stream : list arrival)
    (self : InputRouter) : loop_exit * InputRouter * list effect :=
  if negb (running self) then (NotRunning, self, []) else
  match stream with
  | [] => (AwaitingData buffer, self, [])
  | a :: stream =>
    match recv a with
    | RecvTimeout => event_loop_from buffer stream self
    | RecvError => (EventLoopError, self, if running self then [Log ERROR] else [])
    | RecvData data =>
      match data with
      | [] => (ServerDisconnected, self, [Log WARNING])
      | _ =>
        match decode_utf8 data with
        | None => (EventLoopError, self, if running self then [Log ERROR] else [])
        | Some text =>
          let buffer := buffer ++ text in
          let x := process_buffer (length buffer) buffer (os a) self in
          match result_of x with
          | Remaining buffer =>
              let y := event_loop_from buffer stream (state_of x) in
              (result_of y, state_of y, trace_of x ++ trace_of y)
          | Raised =>
              (EventLoopError, state_of x,
               trace_of x ++ (if running (state_of x) then [Log ERROR] else []))
          | OutOfFuel => (FuelExhausted, state_of x, trace_of x)
          end
        end
      end
    end
  end.

Definition event_loop : list arrival -> InputRouter -> loop_exit * InputRouter * list effect :=
  event_loop_from [].

End Receive.

(** ** The two execution contexts

    The control plane mutates the tables from its own thread while the
    receive loop routes events. *)

Inductive operation :=
| AddMapping (device_id user_id : string)
| RemoveMapping (device_id : string)
| AttachToWindow (user_id : string) (hwnd : Z)
| RouteEvent (event : Event).

Definition perform (op : operation) : M unit :=
  match op with
  | AddMapping device_id user_id => add_device_mapping device_id user_id
  | RemoveMapping device_id => remove_device_mapping device_id
  | AttachToWindow user_id hwnd => attach_to_window user_id hwnd;; ret tt
  | RouteEvent event => route_event event;; ret tt
  end.

(** The lock discipline on a trace of accesses: every read and write of
    the tables happens between an acquire and the release that follows. *)
Fixpoint lock_held_from (held : bool) (tr : list access) : bool :=
  match tr with
  | [] => true
  | LockAcquire :: tr => lock_held_from true tr
  | LockRelease :: tr => lock_held_from false tr
  | _ :: tr => held && lock_held_from held tr
  end.

Definition locked (tr : list effect) : bool := lock_held_from false (accesses tr).

(** *** Threads of the control plane *)

(** A call of the control plane that mutates the mapping table. *)
Inductive mutation :=
| AddDeviceMapping (device_id user_id : string)
| RemoveDeviceMapping (device_id : string).

Definition code_of (m : mutation) : code unit :=
  match m with
  | AddDeviceMapping device_id user_id => add_device_mapping_code device_id user_id
  | RemoveDeviceMapping device_id => remove_device_mapping_code device_id
  end.

(** *** Interleavings

    The router object shared by all threads, the thread that holds
    [self.lock], what is left to run of each control-plane thread, the
    effects of these threads in the order they happened, and what the
    lookups of the receive loop returned. *)
Record Interleaving := {
  shared : InputRouter;
  lock : option nat;
  threads : list (code unit);
  history : list (nat * effect);
  lookups : list (string * option string)
}.

(** Thread [i] runs its next step. [Lock.acquire] waits while the lock is
    held: the thread makes no progress. A finished thread stays as it
    is. *)
Definition advance (e : Env) (i : nat) (c : Interleaving) : Interleaving :=
  match threads c !! i with
  | Some (Acquire k) =>
      match lock c with
      | None =>
          {| shared := shared c; lock := Some i; threads := <[i := k]> (threads c);
             history := history c ++ [(i, Mem LockAcquire)]; lookups := lookups c |}
      | Some _ => c
      end
  | Some (Release k) =>
      {| shared := shared c; lock := None; threads := <[i := k]> (threads c);
         history := history c ++ [(i, Mem LockRelease)]; lookups := lookups c |}
  | Some (Atomic step) =>
      let x := step e (shared c) in
      {| shared := state_of x; lock := lock c; threads := <[i := result_of x]> (threads c);
         history := history c ++ ((fun eff => (i, eff)) <$> trace_of x);
         lookups := lookups c |}
  | Some (Return _) | None => c
  end.

(** What runs next: a step of a control-plane thread, or the lookup
    [self.device_mappings.get(device_id)] of [route_event] in the receive
    loop, which takes no lock. *)
Inductive turn :=
| Thread (i : nat)
| Lookup (device_id : string).

Definition take_turn (e : Env) (c : Interleaving) (t : turn) : Interleaving :=
  match t with
  | Thread i => advance e i c
  | Lookup device_id =>
      let x := mappings_get device_id e (shared c) in
      {| shared := state_of x; lock := lock c; threads := threads c;
         history := history c; lookups := lookups c ++ [(device_id, result_of x)] |}
  end.

Definition interleave (e : Env) (sched : list turn) (c : Interleaving) : Interleaving :=
  foldl (take_turn e) c sched.

(** One thread for each call, none started. *)
Definition spawn (calls : list mutation) (self : InputRouter) : Interleaving :=
  {| shared := self; lock := None; threads := code_of <$> calls;
     history := []; lookups := [] |}.

(** The lock discipline on a history: the lock is acquired only when it
    is free and released only by the thread that holds it, and a thread
    reads or writes the mapping table only while it holds the lock. The
    result is the holder at the end, or [None] when the discipline was
    broken. *)
Definition lock_step (state : option (option nat)) (ev : nat * effect)
    : option (option nat) :=
  match state with
  | None => None
  | Some holder =>
      match ev.2 with
      | Mem LockAcquire =>
          match holder with None => Some (Some ev.1) | Some _ => None end
      | Mem LockRelease =>
          if bool_decide (holder = Some ev.1) then Some None else None
      | Mem MappingsRead | Mem MappingsWrite =>
          if bool_decide (holder = Some ev.1) then Some holder else None
      | _ => Some holder
      end
  end.

Definition lock_discipline (h : list (nat * effect)) : option (option nat) :=
  foldl lock_step (Some None) h.

(** The threads that have released the lock, in the order they did. *)
Definition released (h : list (nat * effect)) : list nat :=
  omap (fun ev => match ev.2 with Mem LockRelease => Some ev.1 | _ => None end) h.

(** What a call does to the table when it runs alone, and the table after
    the calls of the threads [order], one after the other. *)
Definition effect_of (m : mutation) (t : gmap string string) : gmap string string :=
  match m with
  | AddDeviceMapping device_id user_id => <[device_id := user_id]> t
  | RemoveDeviceMapping device_id => delete device_id t
  end.

Definition table_after (calls : list mutation) (order : list nat)
    (t : gmap string string) : gmap string string :=
  foldl (fun t i => from_option (fun m => effect_of m t) t (calls !! i)) t order.

(** *** Program points

    Where a thread is in its method: not started, holding the lock before
    its write to the table, holding it after the write (or after finding
    nothing to remove), finished. *)
Inductive phase := Idle | Before | After | Done.

Inductive at_phase : mutation -> code unit -> phase -> Prop :=
| add_idle d u : at_phase (AddDeviceMapping d u) (add_device_mapping_code d u) Idle
| add_store d u :
    at_phase (AddDeviceMapping d u)
      (Atomic (
         modify (fun self => with_mappings (<[d := u]> (device_mappings self)) self);;
         emit (Mem MappingsWrite);;
         ret after_write)) Before
| remove_idle d : at_phase (RemoveDeviceMapping d) (remove_device_mapping_code d) Idle
| remove_check d :
    at_phase (RemoveDeviceMapping d)
      (Atomic (
         emit (Mem MappingsRead);;
         present <- gets (fun self => bool_decide (is_Some (device_mappings self !! d)));;
         ret (if present then
                Atomic (
                  modify (fun self => with_mappings (delete d (device_mappings self)) self);;
                  emit (Mem MappingsWrite);;
                  ret after_write)
              else Release (Return tt)))) Before
| remove_delete d :
    at_phase (RemoveDeviceMapping d)
      (Atomic (
         modify (fun self => with_mappings (delete d (device_mappings self)) self);;
         emit (Mem MappingsWrite);;
         ret after_write)) Before
| to_save m : at_phase m after_write After
| to_log m : at_phase m (Atomic (logger INFO;; ret (Release (Return tt)))) After
| to_release m : at_phase m (Release (Return tt)) After
| returned m : at_phase m (Return tt) Done.

Definition holding (ph : phase) : bool :=
  match ph with Before | After => true | _ => false end.

Definition pending (i : nat) (ph : phase) : list nat :=
  match ph with After => [i] | _ => [] end.

(** The invariant of every interleaving of [calls] started on [self]. *)
Definition consistent (calls : list mutation) (self : InputRouter) (c : Interleaving) : Prop :=
  length (threads c) = length calls
  /\ lock_discipline (history c) = Some (lock c)
  /\ NoDup (released (history c))
  /\ (forall i m, calls !! i = Some m ->
        exists k ph,
          threads c !! i = Some k
          /\ at_phase m k ph
          /\ (lock c = Some i <-> holding ph = true)
          /\ (i ∈ released (history c) <-> ph = Done)
          /\ (lock c = Some i ->
              shared c
              = with_mappings
                  (table_after calls (released (history c) ++ pending i ph)
                     (device_mappings self)) self))
  /\ (lock c = None ->
      shared c
      = with_mappings (table_after calls (released (history c)) (device_mappings self)) self)
  /\ (forall i, lock c = Some i -> is_Some (calls !! i)).

(** The accesses of two threads in the order they happen. *)
Inductive thread := ControlPlane | Receiver.

#[export] Instance thread_eq_dec : EqDecision thread.
Proof. solve_decision. Defined.

Definition by_thread (t : thread) (sched : list (thread * access)) : list access :=
  snd <$> List.filter (fun x => bool_decide (x.1 = t)) sched.

(** The lock is taken only when it is free and released by its holder. *)
Fixpoint lock_respected (holder : option thread) (sched : list (thread * access)) : bool :=
  match sched with
  | [] => true
  | (t, LockAcquire) :: sched =>
      match holder with
      | None => lock_respected (Some t) sched
      | Some _ => false
      end
  | (t, LockRelease) :: sched =>
      bool_decide (holder = Some t) && lock_respected None sched
  | _ :: sched => lock_respected holder sched
  end.

(** Some thread reads or writes a table while another thread holds the
    lock. *)
Fixpoint overlaps (holder : option thread) (sched : list (thread * access)) : bool :=
  match sched with
  | [] => false
  | (t, LockAcquire) :: sched => overlaps (Some t) sched
  | (_, LockRelease) :: sched => overlaps None sched
  | (t, _) :: sched =>
      match holder with
      | Some t' => negb (bool_decide (t = t')) || overlaps holder sched
      | None => overlaps holder sched
      end
  end.

(** The control plane adds a mapping while the receive loop routes a key:
    the lookups of the router fall between the write of the mapping and
    the release of the lock. *)
Definition lookup_inside_mutation : list (thread * access) :=
  [(ControlPlane, LockAcquire);
   (ControlPlane, MappingsWrite);
   (Receiver, MappingsRead);
   (Receiver, SessionsRead);
   (ControlPlane, MappingsRead);
   (ControlPlane, LockRelease)].

(** ** Scenarios

    The mapping [dev-1 -> alice] and [dev-2 -> bob]; alice's editor was
    launched by the router (process 42, window 4660); bob is attached to
    window 5000 of a process the router does not own. *)

Definition dev_1 : string := "dev-1".
Definition dev_2 : string := "dev-2".
Definition dev_9 : string := "dev-9".
Definition alice : string := "alice".
Definition bob : string := "bob".
Definition cursor : string := "cursor".

Definition alice_process : Popen := {| popen_pid := 42 |}.

Definition alice_session : UserSession := {|
  user_id := alice;
  process := Some alice_process;
  hwnd := Some 4660;
  project_dir := EmptyString;
  editor := cursor;
  pid := 42 |}.

Definition bob_session : UserSession := {|
  user_id := bob;
  process := None;
  hwnd := Some 5000;
  project_dir := EmptyString;
  editor := attached;
  pid := 0 |}.

Definition router : InputRouter := {|
  device_mappings := {[ dev_1 := alice; dev_2 := bob ]};
  user_sessions := {[ alice := alice_session; bob := bob_session ]};
  running := true |}.

(** The US keyboard translations of Enter (13) and A (65). *)
Definition us_keys (vkey map_type : Z) : Z :=
  if map_type =? MAPVK_VK_TO_VSC then
    (if vkey =? 13 then 28 else if vkey =? 65 then 30 else 0)
  else if map_type =? MAPVK_VK_TO_CHAR then
    (if vkey =? 13 then 13 else if vkey =? 65 then 65 else 0)
  else 0.

(** Both windows exist and both processes run. *)
Definition desktop_up : Env := {|
  IsWindow := fun h => (h =? 4660) || (h =? 5000);
  IsWindowVisible := fun h => (h =? 4660) || (h =? 5000);
  IsIconic := fun _ => false;
  EnumWindows := [5000; 4660];
  GetWindowThreadProcessId := fun h => if h =? 4660 then 42 else if h =? 5000 then 77 else 0;
  MapVirtualKeyW := us_keys;
  SendInput_result := fun _ => 1;
  poll := fun _ => None;
  config_writable := true |}.

(** Alice's launcher process has exited with status 0; her window is
    still there. *)
Definition launcher_exited : Env := {|
  IsWindow := IsWindow desktop_up;
  IsWindowVisible := IsWindowVisible desktop_up;
  IsIconic := IsIconic desktop_up;
  EnumWindows := EnumWindows desktop_up;
  GetWindowThreadProcessId := GetWindowThreadProcessId desktop_up;
  MapVirtualKeyW := us_keys;
  SendInput_result := fun _ => 1;
  poll := fun _ => Some 0;
  config_writable := true |}.

(** Every window has been closed; the processes still run. *)
Definition windows_closed : Env := {|
  IsWindow := fun _ => false;
  IsWindowVisible := fun _ => false;
  IsIconic := fun _ => false;
  EnumWindows := [];
  GetWindowThreadProcessId := fun _ => 0;
  MapVirtualKeyW := us_keys;
  SendInput_result := fun _ => 1;
  poll := fun _ => None;
  config_writable := true |}.

Definition key_event (device : string) (vk : Z) : Event := {|
  device_id := device; type := keyboard; vkey := vk;
  dx := 0; dy := 0; buttons := 0; timestamp := 100 |}.

Definition mouse_event (device : string) (x y b : Z) : Event := {|
  device_id := device; type := mouse; vkey := 0;
  dx := x; dy := y; buttons := b; timestamp := 100 |}.

Definition desktop0 : Desktop := {|
  focus := 5000;
  queue := fun _ => [];
  delivered_input := fun _ => [] |}.

(** *** Lines of the upstream stream *)

Definition text (s : string) : pystr :=
  (fun b => Byte.to_N b) <$> String.list_byte_of_string s.

Definition quotation_mark : string := String (Ascii.ascii_of_byte x22) EmptyString.

Definition quoted (s : string) : string := quotation_mark +:+ s +:+ quotation_mark.

(** The record the capture service writes for a key press of A on dev-1. *)
Definition key_line : string :=
  "{" +:+ quoted "device_id" +:+ ":" +:+ quoted "dev-1" +:+ ","
      +:+ quoted "type" +:+ ":" +:+ quoted "keyboard" +:+ ","
      +:+ quoted "vkey" +:+ ":65,"
      +:+ quoted "timestamp" +:+ ":100}".

Definition malformed_line : string := "{not json".

Definition number_line : string := "123".

(** What [json.loads] answers on the lines of the scenarios: the key
    record decodes to its object, [123] to a number, [{not json] raises;
    no other line occurs in them. *)
Definition scenario_loads (line : pystr) : loads_result :=
  if decide (line = text key_line) then LoadsObject (key_event dev_1 65)
  else if decide (line = text number_line) then LoadsOther
  else JSONDecodeError.

Definition line_bytes (s : string) : list byte := String.list_byte_of_string s ++ [x0a].



(** A chunk whose first line is a JSON number, followed by the key record. *)
Definition number_then_key : list byte :=
  line_bytes number_line ++ line_bytes key_line.

Definition one_chunk (data : list byte) : list arrival :=
  [{| os := desktop_up; recv := RecvData data |}].

(** Three calls of the control plane, and an interleaving of their steps
    with lookups of the receive loop: the second lookup falls between the
    write of the first call and its release of the lock, and the third
    thread asks for the lock while the first holds it. *)
Definition three_calls : list mutation :=
  [AddDeviceMapping dev_9 alice; RemoveDeviceMapping dev_1; AddDeviceMapping dev_9 bob].

Definition lookups_between_steps : list turn :=
  [Lookup dev_9;
   Thread 0; Thread 0; Lookup dev_9; Thread 2; Thread 1; Lookup dev_1;
   Thread 0; Thread 0; Thread 0;
   Thread 1; Thread 1; Thread 2; Thread 1; Lookup dev_1; Thread 1; Thread 1; Thread 1;
   Thread 2; Thread 2; Lookup dev_9; Thread 2; Thread 2; Thread 2].

(** *** Further scenarios *)

Definition carol : string := "carol".

(** Alice's session before her window was found. *)
Definition router_without_handle : InputRouter :=
  with_sessions (<[alice := set_hwnd None alice_session]> (user_sessions router)) router.

(** dev-9 is mapped to carol, who has no session. *)
Definition router_dangling : InputRouter :=
  with_mappings (<[dev_9 := carol]> (device_mappings router)) router.

(** dev-9 is mapped to the empty user id. *)
Definition router_empty_user : InputRouter :=
  with_mappings (<[dev_9 := EmptyString]> (device_mappings router)) router.

Definition other_event (device : string) : Event := {|
  device_id := device; type := "gamepad"; vkey := 0;
  dx := 1; dy := 1; buttons := 1; timestamp := 100 |}.



(** The desktop of [desktop_up] with a configuration file that cannot be
    written. *)
Definition read_only_config : Env := {|
  IsWindow := IsWindow desktop_up;
  IsWindowVisible := IsWindowVisible desktop_up;
  IsIconic := IsIconic desktop_up;
  EnumWindows := EnumWindows desktop_up;
  GetWindowThreadProcessId := GetWindowThreadProcessId desktop_up;
  MapVirtualKeyW := MapVirtualKeyW desktop_up;
  SendInput_result := SendInput_result desktop_up;
  poll := poll desktop_up;
  config_writable := false |}.

(** [keeps_registry self self']: [self'] has the mapping table and the stop
    flag of [self] and the same sessions, apart from their window
    handles. *)
Definition keeps_registry (self self' : InputRouter) : Prop :=
  device_mappings self' = device_mappings self
  /\ running self' = running self
  /\ forall k,
       match user_sessions self !! k with
       | Some session => exists h, user_sessions self' !! k = Some (set_hwnd h session)
       | None => user_sessions self' !! k = None
       end.

(** * Properties *)

(** ** Running methods *)

Ltac run :=
  cbv beta delta
    [bind ret emit ask gets modify logger call with_lock
     mappings_get sessions_get setattr_hwnd send_input
     result_of state_of trace_of];
  cbn [fst snd app negb].

Lemma with_sessions_id (self : InputRouter) (uid : string) (session : UserSession) :
  user_sessions self !! uid = Some session ->
  with_sessions (<[uid := session]> (user_sessions self)) self = self.
Proof.
  intros Hs. unfold with_sessions. rewrite insert_id by done. by destruct self.
Qed.

Lemma truthy_hwnd_Some (h : option Z) :
  truthy_hwnd h = true <-> exists z, h = Some z /\ z <> 0.
Proof.
  destruct h as [z|]; cbn; unfold truthy_int.
  - rewrite negb_true_iff, Z.eqb_neq. split.
    + intros Hz. by exists z.
    + intros (z' & [= <-] & Hz). exact Hz.
  - split; [discriminate | intros (z & [=] & _)].
Qed.

Lemma on_session_run {A} (e : Env) (self : InputRouter) (uid : string)
    (session : UserSession) (body : St UserSession A) :
  user_sessions self !! uid = Some session ->
  on_session uid session body e self
  = let x := body e session in
    (result_of x,
     with_sessions (<[uid := state_of x]> (user_sessions self)) self,
     trace_of x).
Proof. intros Hs. unfold on_session. by rewrite Hs. Qed.

(** The two mapping methods, run alone: the body of each runs between the
    acquire and the release of the lock. *)
Lemma add_device_mapping_unfold (e : Env) (self : InputRouter) (d u : string) :
  add_device_mapping d u e self
  = with_lock (
      modify (fun self => with_mappings (<[d := u]> (device_mappings self)) self);;
      emit (Mem MappingsWrite);;
      _save_config;;
      logger INFO) e self.
Proof.
  cbv [add_device_mapping add_device_mapping_code after_write alone].
  unfold _save_config, with_lock. run.
  unfold result_of, state_of, trace_of. cbn [fst snd app].
  by destruct (config_writable e).
Qed.

Lemma remove_device_mapping_unfold (e : Env) (self : InputRouter) (d : string) :
  remove_device_mapping d e self
  = with_lock (
      emit (Mem MappingsRead);;
      present <- gets (fun self => bool_decide (is_Some (device_mappings self !! d)));;
      if present then
        modify (fun self => with_mappings (delete d (device_mappings self)) self);;
        emit (Mem MappingsWrite);;
        _save_config;;
        logger INFO
      else ret tt) e self.
Proof.
  cbv [remove_device_mapping remove_device_mapping_code alone].
  unfold with_lock. run.
  unfold result_of, state_of, trace_of. cbn [fst snd app].
  case_bool_decide; cbv [after_write alone]; unfold _save_config; run;
    unfold result_of, state_of, trace_of; cbn [fst snd app]; [|done].
  by destruct (config_writable e).
Qed.

(** ** The return points of [route_event] *)

Lemma route_event_unmapped (e : Env) (self : InputRouter) (event : Event) :
  device_mappings self !! device_id event = None ->
  route_event event e self
  = (DroppedUnmappedDevice, self, [Mem MappingsRead; Log DEBUG]).
Proof. intros H. unfold route_event. run. by rewrite H. Qed.

Lemma route_event_no_session (e : Env) (self : InputRouter) (event : Event) (uid : string) :
  device_mappings self !! device_id event = Some uid ->
  uid <> EmptyString ->
  user_sessions self !! uid = None ->
  route_event event e self
  = (DroppedNoSession, self, [Mem MappingsRead; Mem SessionsRead; Log WARNING]).
Proof.
  intros Hd Hu Hs. unfold route_event, truthy_str. run. rewrite Hd.
  rewrite bool_decide_eq_false_2 by done. cbn. by rewrite Hs.
Qed.

Lemma route_event_session (e : Env) (self : InputRouter) (event : Event)
    (uid : string) (session : UserSession) :
  device_mappings self !! device_id event = Some uid ->
  uid <> EmptyString ->
  user_sessions self !! uid = Some session ->
  route_event event e self
  = let x := route_to_session event e session in
    (result_of x,
     with_sessions (<[uid := state_of x]> (user_sessions self)) self,
     [Mem MappingsRead; Mem SessionsRead] ++ trace_of x).
Proof.
  intros Hd Hu Hs. unfold route_event, truthy_str. run. rewrite Hd.
  rewrite bool_decide_eq_false_2 by done. cbn [negb]. rewrite Hs.
  by rewrite (on_session_run _ _ _ _ _ Hs).
Qed.

Lemma route_event_empty_user (e : Env) (self : InputRouter) (event : Event) :
  device_mappings self !! device_id event = Some EmptyString ->
  route_event event e self
  = (DroppedUnmappedDevice, self, [Mem MappingsRead; Log DEBUG]).
Proof. intros H. unfold route_event. run. by rewrite H. Qed.

(** ** Window refresh *)

Lemma os_calls_app (t1 t2 : list effect) :
  os_calls (t1 ++ t2) = os_calls t1 ++ os_calls t2.
Proof. apply omap_app. Qed.

(** A refresh either fails and leaves the session as it is, or succeeds and
    stores the first visible window of the running process. *)
Lemma _refresh_window_handle_cases (e : Env) (session : UserSession) :
  (_refresh_window_handle e session = (false, session, [])
   /\ (process_running e session = false
       \/ truthy_hwnd (result_of (_find_window_by_pid (S := UserSession) (pid session) e session)) = false))
  \/ (exists h, h <> 0
      /\ process_running e session = true
      /\ result_of (_find_window_by_pid (S := UserSession) (pid session) e session) = Some h
      /\ _refresh_window_handle e session
         = (true, set_hwnd (Some h) session, [Mem SessionsWrite])).
Proof.
  unfold _refresh_window_handle. run.
  destruct (process_running e session) eqn:Hrun; [|left; auto].
  destruct (truthy_hwnd (_find_window_by_pid (pid session) e session).1.1) eqn:Hh.
  - right. apply truthy_hwnd_Some in Hh as (h & Hh & Hne).
    exists h. rewrite Hh. auto.
  - left. auto.
Qed.

Lemma _refresh_window_handle_attached (e : Env) (session : UserSession) :
  process session = None ->
  _refresh_window_handle e session = (false, session, []).
Proof.
  intros Hp. unfold _refresh_window_handle. run.
  unfold process_running. by rewrite Hp.
Qed.

(** ** Dispatch *)

Lemma inject_keyboard_to_window_run {S} (e : Env) (s : S) (h vk : Z) :
  inject_keyboard_to_window h vk e s
  = (tt, s,
     [Os (PostMessageW h WM_KEYDOWN vk (lparam_down (MapVirtualKeyW e vk MAPVK_VK_TO_VSC)))]
     ++ (if 0 <? MapVirtualKeyW e vk MAPVK_VK_TO_CHAR
         then [Os (PostMessageW h WM_CHAR (MapVirtualKeyW e vk MAPVK_VK_TO_CHAR)
                     (lparam_down (MapVirtualKeyW e vk MAPVK_VK_TO_VSC)))]
         else [])
     ++ [Os (PostMessageW h WM_KEYUP vk (lparam_up (MapVirtualKeyW e vk MAPVK_VK_TO_VSC)))]).
Proof.
  unfold inject_keyboard_to_window. run.
  by destruct (0 <? MapVirtualKeyW e vk MAPVK_VK_TO_CHAR).
Qed.

Lemma send_input_run {S} (e : Env) (s : S) (inp : INPUT) :
  send_input inp e s
  = (tt, s, Os (SendInput inp) :: (if SendInput_result e inp =? 1 then [] else [Log WARNING])).
Proof.
  unfold send_input. run. by destruct (SendInput_result e inp =? 1).
Qed.

Lemma dispatch_state (e : Env) (session : UserSession) (event : Event) :
  state_of (dispatch event e session) = session.
Proof.
  unfold dispatch, inject_mouse_move, inject_mouse_button.
  repeat case_bool_decide; run.
  - by rewrite inject_keyboard_to_window_run.
  - by repeat match goal with |- context [if ?b then _ else _] => destruct b end.
  - done.
Qed.

(** ** The checks of [route_event] on the session *)

Lemma check_window_live (e : Env) (session : UserSession) (event : Event) :
  IsWindow e (HWND (hwnd session)) = true ->
  check_window_then_dispatch event e session = dispatch event e session.
Proof.
  intros Hlive. unfold check_window_then_dispatch. run. rewrite Hlive. run.
  by destruct (dispatch event e session) as [[? ?] ?].
Qed.

(** The handle is there but the window is gone, and the refresh finds no
    window: the handle stays as it is, the test [not session.hwnd] does not
    hold, and the event is dispatched to that handle. *)
Lemma check_window_stale (e : Env) (session : UserSession) (event : Event) :
  truthy_hwnd (hwnd session) = true ->
  IsWindow e (HWND (hwnd session)) = false ->
  _refresh_window_handle e session = (false, session, []) ->
  check_window_then_dispatch event e session = dispatch event e session.
Proof.
  intros Hh Hgone Hfail. unfold check_window_then_dispatch. run.
  rewrite Hgone. run. rewrite Hfail. run. rewrite Hh. run.
  by destruct (dispatch event e session) as [[? ?] ?].
Qed.

Lemma check_window_refreshed (e : Env) (session : UserSession) (event : Event) (h : Z) :
  h <> 0 ->
  IsWindow e (HWND (hwnd session)) = false ->
  _refresh_window_handle e session = (true, set_hwnd (Some h) session, [Mem SessionsWrite]) ->
  check_window_then_dispatch event e session
  = let y := dispatch event e (set_hwnd (Some h) session) in
    (result_of y, state_of y, Mem SessionsWrite :: trace_of y).
Proof.
  intros Hh Hgone Hok. unfold check_window_then_dispatch. run.
  rewrite Hgone. run. rewrite Hok. run. cbn [set_hwnd hwnd truthy_hwnd from_option].
  unfold truthy_int. destruct (Z.eqb_spec h 0) as [|_]; [done|]. run.
  by destruct (dispatch event e _) as [[? ?] ?].
Qed.

(** Every path through the checks either drops the event without a call
    to the operating system, or reaches the dispatch on the session as the
    checks left it, having made no such call before. *)
Lemma check_window_shape (e : Env) (session : UserSession) (event : Event) :
  truthy_hwnd (hwnd session) = true ->
  exists session' pre,
    os_calls pre = []
    /\ truthy_hwnd (hwnd session') = true
    /\ check_window_then_dispatch event e session
       = (result_of (dispatch event e session'), session',
          pre ++ trace_of (dispatch event e session')).
Proof.
  intros Hh.
  destruct (IsWindow e (HWND (hwnd session))) eqn:Hlive.
  - exists session, []. rewrite check_window_live by done.
    pose proof (dispatch_state e session event) as Hst.
    destruct (dispatch event e session) as [[? ?] ?]. cbn in *. by subst.
  - destruct (_refresh_window_handle_cases e session)
      as [[Hfail _]|(h & Hne & _ & _ & Hok)].
    + exists session, []. rewrite check_window_stale by done.
      pose proof (dispatch_state e session event) as Hst.
      destruct (dispatch event e session) as [[? ?] ?]. cbn in *. by subst.
    + exists (set_hwnd (Some h) session), [Mem SessionsWrite].
      rewrite (check_window_refreshed _ _ _ h) by done.
      pose proof (dispatch_state e (set_hwnd (Some h) session) event) as Hst.
      split; [done|]. split.
      { apply truthy_hwnd_Some. by exists h. }
      destruct (dispatch event e _) as [[? ?] ?]. cbn in *. by subst.
Qed.

Lemma route_to_session_exited (e : Env) (session : UserSession) (event : Event) :
  process_exited e session = true ->
  route_to_session event e session
  = (DroppedProcessDead, set_hwnd None session, [Log WARNING; Mem SessionsWrite]).
Proof. intros Hx. unfold route_to_session. run. by rewrite Hx. Qed.

Lemma route_to_session_handle (e : Env) (session : UserSession) (event : Event) :
  process_exited e session = false ->
  truthy_hwnd (hwnd session) = true ->
  route_to_session event e session = check_window_then_dispatch event e session.
Proof.
  intros Hx Hh. unfold route_to_session. run. rewrite Hx. run. rewrite Hh. run.
  by destruct (check_window_then_dispatch event e session) as [[? ?] ?].
Qed.

Lemma route_to_session_unresolvable (e : Env) (session : UserSession) (event : Event) :
  process_exited e session = false ->
  truthy_hwnd (hwnd session) = false ->
  _refresh_window_handle e session = (false, session, []) ->
  route_to_session event e session
  = (DroppedWindowUnresolvable, session, [Log WARNING]).
Proof.
  intros Hx Hh Hfail. unfold route_to_session. run. rewrite Hx. run.
  rewrite Hh. run. by rewrite Hfail.
Qed.

Lemma route_to_session_resolved (e : Env) (session : UserSession) (event : Event) (h : Z) :
  process_exited e session = false ->
  truthy_hwnd (hwnd session) = false ->
  _refresh_window_handle e session = (true, set_hwnd (Some h) session, [Mem SessionsWrite]) ->
  route_to_session event e session
  = let y := check_window_then_dispatch event e (set_hwnd (Some h) session) in
    (result_of y, state_of y, Mem SessionsWrite :: trace_of y).
Proof.
  intros Hx Hh Hok. unfold route_to_session. run. rewrite Hx. run.
  rewrite Hh. run. rewrite Hok. run.
  by destruct (check_window_then_dispatch event e _) as [[? ?] ?].
Qed.

(** The outcomes of the checks and what precedes the dispatch. *)
Lemma route_to_session_shape (e : Env) (session : UserSession) (event : Event) :
  (os_calls (trace_of (route_to_session event e session)) = []
   /\ (result_of (route_to_session event e session) = DroppedProcessDead
       \/ result_of (route_to_session event e session) = DroppedWindowUnresolvable))
  \/ (exists session' pre,
        os_calls pre = []
        /\ truthy_hwnd (hwnd session') = true
        /\ route_to_session event e session
           = (result_of (dispatch event e session'), session',
              pre ++ trace_of (dispatch event e session'))).
Proof.
  destruct (process_exited e session) eqn:Hx.
  { left. rewrite route_to_session_exited by done. auto. }
  destruct (truthy_hwnd (hwnd session)) eqn:Hh.
  { right. rewrite route_to_session_handle by done. by apply check_window_shape. }
  destruct (_refresh_window_handle_cases e session)
    as [[Hfail _]|(h & Hne & _ & _ & Hok)].
  { left. rewrite route_to_session_unresolvable by done. auto. }
  right. rewrite (route_to_session_resolved _ _ _ h) by done.
  destruct (check_window_shape e (set_hwnd (Some h) session) event)
    as (session' & pre & Hpre & Hh' & Heq).
  { apply truthy_hwnd_Some. by exists h. }
  exists session', (Mem SessionsWrite :: pre). rewrite Heq. cbn. auto.
Qed.

(** ** What a routed event injects *)

Lemma os_calls_send_input {S} (e : Env) (s : S) (inp : INPUT) :
  os_calls (trace_of (send_input inp e s)) = [SendInput inp].
Proof.
  rewrite send_input_run. cbn. by destruct (SendInput_result e inp =? 1).
Qed.

Lemma dispatch_keyboard (e : Env) (session : UserSession) (event : Event) :
  type event = keyboard ->
  result_of (dispatch event e session) = Delivered
  /\ os_calls (trace_of (dispatch event e session))
     = key_messages e (HWND (hwnd session)) (vkey event).
Proof.
  intros Hk. unfold dispatch. rewrite bool_decide_eq_true_2 by done. run.
  rewrite inject_keyboard_to_window_run. cbn [fst snd].
  split; [done|]. unfold key_messages.
  rewrite !os_calls_app. cbn.
  by destruct (0 <? MapVirtualKeyW e (vkey event) MAPVK_VK_TO_CHAR).
Qed.

Lemma dispatch_mouse (e : Env) (session : UserSession) (event : Event) :
  type event = mouse ->
  result_of (dispatch event e session) = Delivered
  /\ os_calls (trace_of (dispatch event e session))
     = mouse_inputs (dx event) (dy event) (buttons event).
Proof.
  intros Hm. unfold dispatch.
  rewrite bool_decide_eq_false_2 by (rewrite Hm; discriminate).
  rewrite bool_decide_eq_true_2 by done.
  unfold mouse_inputs, inject_mouse_move, inject_mouse_button, motion_input, button_input.
  destruct (negb (dx event =? 0) || negb (dy event =? 0));
    destruct (negb (buttons event =? 0)); cbn [andb];
    try destruct (button_flags (buttons event) =? 0); run;
    rewrite ?send_input_run; cbn [fst snd];
    repeat match goal with
      | |- context [SendInput_result ?e ?i =? 1] => destruct (SendInput_result e i =? 1)
      end; done.
Qed.

Lemma dispatch_other (e : Env) (session : UserSession) (event : Event) :
  type event <> keyboard -> type event <> mouse ->
  dispatch event e session = (Discarded, session, []).
Proof.
  intros Hk Hm. unfold dispatch.
  by rewrite !bool_decide_eq_false_2 by done.
Qed.

(** Every pass of [route_event] either drops the event and makes no call to
    the operating system, or dispatches it to the session of the device's
    user, as the checks left that session. *)
Lemma route_event_shape (e : Env) (self : InputRouter) (event : Event) :
  (os_calls (trace_of (route_event event e self)) = []
   /\ result_of (route_event event e self) <> Delivered)
  \/ (exists uid session pre,
        device_mappings self !! device_id event = Some uid
        /\ user_sessions (state_of (route_event event e self)) !! uid = Some session
        /\ truthy_hwnd (hwnd session) = true
        /\ os_calls pre = []
        /\ result_of (route_event event e self) = result_of (dispatch event e session)
        /\ trace_of (route_event event e self) = pre ++ trace_of (dispatch event e session)).
Proof.
  destruct (device_mappings self !! device_id event) as [uid|] eqn:Hd.
  2:{ left. by rewrite route_event_unmapped. }
  destruct (decide (uid = EmptyString)) as [->|Hu].
  { left. by rewrite route_event_empty_user. }
  destruct (user_sessions self !! uid) as [session|] eqn:Hs.
  2:{ left. by rewrite (route_event_no_session _ _ _ uid). }
  rewrite (route_event_session _ _ _ uid session) by done. cbn zeta.
  destruct (route_to_session_shape e session event)
    as [[Hnone Hres]|(session' & pre & Hpre & Hh & Heq)].
  - left. unfold trace_of, result_of in *. cbn [fst snd].
    rewrite os_calls_app, Hnone. split; [done|]. by destruct Hres as [-> | ->].
  - right. exists uid, session', ([Mem MappingsRead; Mem SessionsRead] ++ pre).
    rewrite Heq. unfold trace_of, result_of, state_of. cbn [fst snd].
    split; [done|]. split; [cbn; by rewrite lookup_insert_eq|].
    split; [done|]. split; [by rewrite os_calls_app, Hpre|].
    split; [done|]. by rewrite <- app_assoc.
Qed.

(** ** Keyboard delivery *)

Lemma key_messages_posted (e : Env) (h vk : Z) (c : os_call) :
  c ∈ key_messages e h vk -> exists msg wparam lparam, c = PostMessageW h msg wparam lparam.
Proof.
  unfold key_messages. rewrite !elem_of_app.
  destruct (0 <? MapVirtualKeyW e vk MAPVK_VK_TO_CHAR);
    rewrite ?list_elem_of_singleton, ?elem_of_nil; intros [->|[H| ->]];
    try contradiction; subst; eauto.
Qed.

(** Posting to one window moves no focus, injects no system input, and
    leaves the queues of all other windows as they were. *)
Lemma os_run_posts (cs : list os_call) (h : Z) (d : Desktop) :
  (forall c, c ∈ cs -> exists msg wparam lparam, c = PostMessageW h msg wparam lparam) ->
  focus (os_run d cs) = focus d
  /\ (forall w, delivered_input (os_run d cs) w = delivered_input d w)
  /\ (forall w, w <> h -> queue (os_run d cs) w = queue d w).
Proof.
  revert d. induction cs as [|c cs IH]; intros d Hall; [done|].
  destruct (Hall c) as (msg & wparam & lparam & ->); [by left|].
  destruct (IH (os_step d (PostMessageW h msg wparam lparam))) as (Hf & Hi & Hq).
  { intros c Hc. apply Hall. by right. }
  unfold os_run in *. cbn [foldl].
  rewrite Hf. split; [done|]. split.
  - intros w. by rewrite Hi.
  - intros w Hw. rewrite Hq by done. cbn. unfold push.
    by destruct (Z.eqb_spec w h).
Qed.

(** C1. Routing a keyboard event acts on the operating system only by
    posting messages to the window handle of the session mapped to the
    event's device: the trace holds no synthetic input and no foreground
    change, so the input focus stays where it was, no input enters the
    system input stream, and the message queue of every other window is
    left as it was. *)
Theorem keyboard_routing_is_window_scoped
    (e : Env) (self : InputRouter) (event : Event) (d : Desktop) :
  type event = keyboard ->
  (forall c, c ∈ os_calls (trace_of (route_event event e self)) ->
     exists uid session msg wparam lparam,
       device_mappings self !! device_id event = Some uid
       /\ user_sessions (state_of (route_event event e self)) !! uid = Some session
       /\ c = PostMessageW (HWND (hwnd session)) msg wparam lparam)
  /\ focus (os_run d (os_calls (trace_of (route_event event e self)))) = focus d
  /\ (forall w,
        delivered_input (os_run d (os_calls (trace_of (route_event event e self)))) w
        = delivered_input d w)
  /\ (forall uid session w,
        device_mappings self !! device_id event = Some uid ->
        user_sessions (state_of (route_event event e self)) !! uid = Some session ->
        w <> HWND (hwnd session) ->
        queue (os_run d (os_calls (trace_of (route_event event e self)))) w = queue d w).
Proof.
  intros Hk.
  destruct (route_event_shape e self event)
    as [[Hnone _]|(uid & session & pre & Hd & Hs & _ & Hpre & _ & Htr)].
  { rewrite Hnone. split; [by intros c Hc%elem_of_nil|]. done. }
  destruct (dispatch_keyboard e session event Hk) as [_ Hcalls].
  rewrite Htr, os_calls_app, Hpre, Hcalls. cbn [app].
  pose proof (key_messages_posted e (HWND (hwnd session)) (vkey event)) as Hposted.
  destruct (os_run_posts _ _ d Hposted) as (Hf & Hi & Hq).
  split; [|split; [done|split; [done|]]].
  - intros c (msg & wparam & lparam & ->)%Hposted.
    by exists uid, session, msg, wparam, lparam.
  - intros uid' session' w Hd' Hs' Hw.
    rewrite Hd in Hd'. injection Hd' as <-.
    rewrite Hs in Hs'. injection Hs' as <-. by apply Hq.
Qed.

Lemma keyboard_routing_is_window_scoped_witness :
  type (key_event dev_1 13) = keyboard
  /\ os_calls (trace_of (route_event (key_event dev_1 13) desktop_up router))
     = [PostMessageW 4660 WM_KEYDOWN 13 0x1C0001;
        PostMessageW 4660 WM_CHAR 13 0x1C0001;
        PostMessageW 4660 WM_KEYUP 13 0xC01C0001]
  /\ focus (os_run desktop0
              (os_calls (trace_of (route_event (key_event dev_1 13) desktop_up router))))
     = 5000.
Proof.
  split; [reflexivity|]. split; [vm_compute; reflexivity|].
  apply (keyboard_routing_is_window_scoped desktop_up router (key_event dev_1 13) desktop0).
  reflexivity.
Defined.

(** ** The event parameter of the key messages *)

Lemma testbit_1 n : 0 <= n -> Z.testbit 1 n = (n =? 0).
Proof.
  intros Hn. change 1 with (2 ^ 0). rewrite Z.pow2_bits_eqb by lia. apply Z.eqb_sym.
Qed.

Lemma testbit_lparam_down sc n :
  0 <= n -> Z.testbit (lparam_down sc) n = Z.testbit sc (n - 16) || (n =? 0).
Proof.
  intros Hn. unfold lparam_down.
  rewrite Z.lor_spec, Z.shiftl_spec, testbit_1 by lia. reflexivity.
Qed.

Lemma testbit_lparam_up sc n :
  0 <= n ->
  Z.testbit (lparam_up sc) n
  = Z.testbit sc (n - 16) || (n =? 0) || (n =? 30) || (n =? 31).
Proof.
  intros Hn. unfold lparam_up.
  change (Z.shiftl 1 30) with (2 ^ 30). change (Z.shiftl 1 31) with (2 ^ 31).
  rewrite !Z.lor_spec, Z.shiftl_spec, testbit_1, !Z.pow2_bits_eqb by lia.
  by rewrite (Z.eqb_sym 30), (Z.eqb_sym 31).
Qed.

Lemma testbit_byte_high sc n : 0 <= sc < 256 -> 8 <= n -> Z.testbit sc n = false.
Proof.
  intros Hsc Hn. destruct (Z.eq_dec sc 0) as [->|Hz]; [apply Z.bits_0|].
  apply Z.bits_above_log2; [lia|].
  assert (Z.log2 sc < 8); [|lia]. apply Z.log2_lt_pow2; lia.
Qed.

Lemma lparam_down_fields sc :
  0 <= sc < 256 ->
  Z.land (lparam_down sc) 0xFFFF = 1
  /\ Z.land (Z.shiftr (lparam_down sc) 16) 0xFF = sc
  /\ Z.testbit (lparam_down sc) 30 = false
  /\ Z.testbit (lparam_down sc) 31 = false.
Proof.
  intros Hsc. repeat split.
  - apply Z.bits_inj'. intros n Hn.
    change 0xFFFF with (Z.ones 16).
    rewrite Z.land_spec, testbit_lparam_down, Z.testbit_ones_nonneg, testbit_1 by lia.
    destruct (Z.ltb_spec n 16).
    + rewrite Z.testbit_neg_r by lia. cbn. apply andb_true_r.
    + rewrite andb_false_r. symmetry. apply Z.eqb_neq. lia.
  - apply Z.bits_inj'. intros n Hn.
    change 0xFF with (Z.ones 8).
    rewrite Z.land_spec, Z.shiftr_spec, testbit_lparam_down, Z.testbit_ones_nonneg by lia.
    replace (n + 16 - 16) with n by lia.
    replace (n + 16 =? 0) with false by (symmetry; apply Z.eqb_neq; lia).
    rewrite orb_false_r.
    destruct (Z.ltb_spec n 8).
    + apply andb_true_r.
    + rewrite andb_false_r. symmetry. by apply testbit_byte_high.
  - rewrite testbit_lparam_down by lia. cbn. rewrite orb_false_r.
    by apply testbit_byte_high.
  - rewrite testbit_lparam_down by lia. cbn. rewrite orb_false_r.
    by apply testbit_byte_high.
Qed.

Lemma lparam_up_fields sc :
  0 <= sc < 256 ->
  Z.land (lparam_up sc) 0xFFFF = 1
  /\ Z.land (Z.shiftr (lparam_up sc) 16) 0xFF = sc
  /\ Z.testbit (lparam_up sc) 30 = true
  /\ Z.testbit (lparam_up sc) 31 = true.
Proof.
  intros Hsc. repeat split.
  - apply Z.bits_inj'. intros n Hn.
    change 0xFFFF with (Z.ones 16).
    rewrite Z.land_spec, testbit_lparam_up, Z.testbit_ones_nonneg, testbit_1 by lia.
    destruct (Z.ltb_spec n 16).
    + rewrite Z.testbit_neg_r by lia.
      replace (n =? 30) with false by (symmetry; apply Z.eqb_neq; lia).
      replace (n =? 31) with false by (symmetry; apply Z.eqb_neq; lia).
      cbn. by rewrite !orb_false_r, andb_true_r.
    + rewrite andb_false_r. symmetry. apply Z.eqb_neq. lia.
  - apply Z.bits_inj'. intros n Hn.
    change 0xFF with (Z.ones 8).
    rewrite Z.land_spec, Z.shiftr_spec, testbit_lparam_up, Z.testbit_ones_nonneg by lia.
    replace (n + 16 - 16) with n by lia.
    replace (n + 16 =? 0) with false by (symmetry; apply Z.eqb_neq; lia).
    destruct (Z.ltb_spec n 8).
    + replace (n + 16 =? 30) with false by (symmetry; apply Z.eqb_neq; lia).
      replace (n + 16 =? 31) with false by (symmetry; apply Z.eqb_neq; lia).
      by rewrite !orb_false_r, andb_true_r.
    + rewrite andb_false_r. symmetry. by apply testbit_byte_high.
  - rewrite testbit_lparam_up by lia. cbn. by rewrite orb_true_r.
  - rewrite testbit_lparam_up by lia. cbn. by rewrite orb_true_r.
Qed.


(** C3. A keyboard event that is delivered posts, to the handle of the
    session, exactly one key-down message, then the character message
    exactly when the virtual key translates to a character, then exactly
    one key-up message. With a byte-sized scan code, each event parameter
    holds the repeat count 1 in bits 0-15 and the scan code in bits 16-23;
    bits 30 and 31 are clear in the key-down parameter and set in the
    key-up parameter. *)
Theorem key_press_notifications (e : Env) (self : InputRouter) (event : Event) :
  type event = keyboard ->
  result_of (route_event event e self) = Delivered ->
  0 <= MapVirtualKeyW e (vkey event) MAPVK_VK_TO_VSC < 256 ->
  exists uid session h,
    device_mappings self !! device_id event = Some uid
    /\ user_sessions (state_of (route_event event e self)) !! uid = Some session
    /\ hwnd session = Some h
    /\ let scan_code := MapVirtualKeyW e (vkey event) MAPVK_VK_TO_VSC in
       let char_code := MapVirtualKeyW e (vkey event) MAPVK_VK_TO_CHAR in
       let down := lparam_down scan_code in
       let up := lparam_up scan_code in
       os_calls (trace_of (route_event event e self))
       = [PostMessageW h WM_KEYDOWN (vkey event) down]
         ++ (if 0 <? char_code then [PostMessageW h WM_CHAR char_code down] else [])
         ++ [PostMessageW h WM_KEYUP (vkey event) up]
       /\ (Z.land down 0xFFFF = 1
           /\ Z.land (Z.shiftr down 16) 0xFF = scan_code
           /\ Z.testbit down 30 = false
           /\ Z.testbit down 31 = false)
       /\ (Z.land up 0xFFFF = 1
           /\ Z.land (Z.shiftr up 16) 0xFF = scan_code
           /\ Z.testbit up 30 = true
           /\ Z.testbit up 31 = true).
Proof.
  intros Hk Hres Hsc.
  destruct (route_event_shape e self event)
    as [[_ Hn]|(uid & session & pre & Hd & Hs & Hh & Hpre & _ & Htr)]; [done|].
  apply truthy_hwnd_Some in Hh as (h & Hh & _).
  destruct (dispatch_keyboard e session event Hk) as [_ Hcalls].
  exists uid, session, h. repeat (split; [done|]). cbn zeta.
  split; [|split; [by apply lparam_down_fields | by apply lparam_up_fields]].
  rewrite Htr, os_calls_app, Hpre, Hcalls, Hh. reflexivity.
Qed.

Lemma key_press_notifications_witness :
  type (key_event dev_1 13) = keyboard
  /\ result_of (route_event (key_event dev_1 13) desktop_up router) = Delivered
  /\ 0 <= MapVirtualKeyW desktop_up (vkey (key_event dev_1 13)) MAPVK_VK_TO_VSC < 256
  /\ exists uid session h,
       user_sessions (state_of (route_event (key_event dev_1 13) desktop_up router)) !! uid
       = Some session
       /\ hwnd session = Some h.
Proof.
  split; [reflexivity|]. split; [vm_compute; reflexivity|].
  split; [vm_compute; split; [discriminate|reflexivity]|].
  destruct (key_press_notifications desktop_up router (key_event dev_1 13))
    as (uid & session & h & _ & Hs & Hh & _).
  - reflexivity.
  - vm_compute; reflexivity.
  - vm_compute; split; [discriminate|reflexivity].
  - exists uid, session, h. split; assumption.
Defined.

(** ** Mouse delivery *)

Lemma truthy_land_pow2 (x k : Z) :
  0 <= k -> truthy_int (Z.land x (2 ^ k)) = Z.testbit x k.
Proof.
  intros Hk. unfold truthy_int.
  destruct (Z.testbit x k) eqn:Hb.
  - apply negb_true_iff, Z.eqb_neq. intros H0.
    assert (Z.testbit (Z.land x (2 ^ k)) k = false) as Hc by (rewrite H0; apply Z.bits_0).
    rewrite Z.land_spec, Hb, Z.pow2_bits_true in Hc by lia. done.
  - apply negb_false_iff, Z.eqb_eq, Z.bits_inj'. intros n Hn.
    rewrite Z.land_spec, Z.bits_0, Z.pow2_bits_eqb by lia.
    destruct (Z.eqb_spec k n) as [<-|]; [by rewrite Hb | apply andb_false_r].
Qed.

Lemma testbit_or_if (b k f n : Z) :
  0 <= k -> 0 <= n ->
  Z.testbit (or_if b (2 ^ k) (2 ^ (k + 1)) f) n
  = Z.testbit f n || (Z.testbit b k && (n =? k + 1)).
Proof.
  intros Hk Hn. unfold or_if. rewrite truthy_land_pow2 by done.
  destruct (Z.testbit b k); cbn.
  - rewrite Z.lor_spec, Z.pow2_bits_eqb by lia. by rewrite (Z.eqb_sym n).
  - by rewrite orb_false_r.
Qed.

Lemma testbit_button_flags (buttons n : Z) :
  0 <= n ->
  Z.testbit (button_flags buttons) n
  = (Z.testbit buttons 0 && (n =? 1)) || (Z.testbit buttons 1 && (n =? 2))
    || (Z.testbit buttons 2 && (n =? 3)) || (Z.testbit buttons 3 && (n =? 4))
    || (Z.testbit buttons 4 && (n =? 5)) || (Z.testbit buttons 5 && (n =? 6)).
Proof.
  intros Hn.
  assert (button_flags buttons
          = or_if buttons (2 ^ 5) (2 ^ (5 + 1))
              (or_if buttons (2 ^ 4) (2 ^ (4 + 1))
                 (or_if buttons (2 ^ 3) (2 ^ (3 + 1))
                    (or_if buttons (2 ^ 2) (2 ^ (2 + 1))
                       (or_if buttons (2 ^ 1) (2 ^ (1 + 1))
                          (or_if buttons (2 ^ 0) (2 ^ (0 + 1)) 0)))))) as ->
    by reflexivity.
  do 6 (rewrite testbit_or_if by lia). by rewrite Z.bits_0.
Qed.

(** The six raw button bits, moved up by one position. *)
Lemma button_flags_shift (buttons : Z) :
  button_flags buttons = Z.shiftl (Z.land buttons 63) 1.
Proof.
  apply Z.bits_inj'. intros n Hn. rewrite testbit_button_flags by done.
  rewrite Z.shiftl_spec by done.
  destruct (Z.eq_dec n 0) as [->|H0].
  { rewrite (Z.testbit_neg_r (Z.land buttons 63) (0 - 1)) by lia. cbn. by rewrite !andb_false_r. }
  change 63 with (Z.ones 6).
  rewrite Z.land_spec, Z.testbit_ones_nonneg by lia.
  destruct (Z.eq_dec n 1) as [->|H1]; [cbn; by rewrite !andb_false_r, !orb_false_r, !andb_true_r|].
  destruct (Z.eq_dec n 2) as [->|H2]; [cbn; by rewrite !andb_false_r, !orb_false_r, !andb_true_r|].
  destruct (Z.eq_dec n 3) as [->|H3]; [cbn; by rewrite !andb_false_r, !orb_false_r, !andb_true_r|].
  destruct (Z.eq_dec n 4) as [->|H4]; [cbn; by rewrite !andb_false_r, !orb_false_r, !andb_true_r|].
  destruct (Z.eq_dec n 5) as [->|H5]; [cbn; by rewrite !andb_false_r, !orb_false_r, !andb_true_r|].
  destruct (Z.eq_dec n 6) as [->|H6]; [cbn; by rewrite !andb_false_r, !orb_false_r, !andb_true_r|].
  replace (n - 1 <? 6) with false by (symmetry; apply Z.ltb_ge; lia).
  repeat match goal with
    | |- context [n =? ?k] => replace (n =? k) with false by (symmetry; apply Z.eqb_neq; lia)
    end.
  by rewrite !andb_false_r.
Qed.

Lemma button_flags_range (buttons : Z) : 0 <= button_flags buttons < 128.
Proof.
  rewrite button_flags_shift, Z.shiftl_mul_pow2 by lia.
  change 63 with (Z.ones 6). rewrite Z.land_ones by lia.
  pose proof (Z.mod_pos_bound buttons (2 ^ 6)). lia.
Qed.

Lemma flag_follows_bit (buttons k : Z) :
  0 <= k < 6 ->
  truthy_int (Z.land (button_flags buttons) (2 ^ (k + 1)))
  = truthy_int (Z.land buttons (2 ^ k)).
Proof.
  intros Hk. rewrite !truthy_land_pow2 by lia.
  rewrite button_flags_shift, Z.shiftl_spec by lia.
  replace (k + 1 - 1) with k by lia.
  change 63 with (Z.ones 6).
  rewrite Z.land_spec, Z.testbit_ones_nonneg by lia.
  replace (k <? 6) with true by (symmetry; apply Z.ltb_lt; lia).
  apply andb_true_r.
Qed.

Lemma LONG_small (z : Z) : - 2 ^ 31 <= z < 2 ^ 31 -> LONG z = z.
Proof. intros Hz. unfold LONG. rewrite Z.mod_small by lia. lia. Qed.

Lemma DWORD_small (z : Z) : 0 <= z < 2 ^ 32 -> DWORD z = z.
Proof. intros Hz. unfold DWORD. by rewrite Z.mod_small. Qed.

(** What a LONG field holds: the 32-bit signed value congruent to the
    integer stored, which is that integer exactly when it is in range. *)
Lemma LONG_stored (z : Z) :
  - 2 ^ 31 <= LONG z < 2 ^ 31
  /\ (LONG z - z) mod 2 ^ 32 = 0
  /\ (LONG z = z <-> - 2 ^ 31 <= z < 2 ^ 31).
Proof.
  unfold LONG.
  pose proof (Z.mod_pos_bound (z + 2 ^ 31) (2 ^ 32) ltac:(lia)) as Hb.
  pose proof (Z.div_mod (z + 2 ^ 31) (2 ^ 32) ltac:(lia)) as Hd.
  split; [lia|]. split.
  - replace ((z + 2 ^ 31) mod 2 ^ 32 - 2 ^ 31 - z)
      with (- ((z + 2 ^ 31) / 2 ^ 32) * 2 ^ 32) by lia.
    apply Z.mod_mul. lia.
  - split; [lia|]. intros Hz. rewrite Z.mod_small by lia. lia.
Qed.

Lemma mouse_inputs_idle : mouse_inputs 0 0 0 = [].
Proof. reflexivity. Qed.

Lemma mouse_inputs_motion (x y : Z) :
  x <> 0 \/ y <> 0 -> mouse_inputs x y 0 = [SendInput (motion_input x y)].
Proof.
  intros Hxy. unfold mouse_inputs. cbn [Z.eqb negb andb app].
  replace (negb (x =? 0) || negb (y =? 0)) with true; [done|].
  symmetry. apply orb_true_iff. rewrite !negb_true_iff, !Z.eqb_neq. done.
Qed.

(** C4, the claim at a motion of 2^31: the input that is injected carries
    -2^31, not the [dx] of the event. *)
Lemma motion_beyond_32_bits_is_wrapped :
  type (mouse_event dev_1 (2 ^ 31) (-3) 0) = mouse
  /\ result_of (route_event (mouse_event dev_1 (2 ^ 31) (-3) 0) desktop_up router)
     = Delivered
  /\ os_calls (trace_of (route_event (mouse_event dev_1 (2 ^ 31) (-3) 0) desktop_up router))
     = [SendInput (INPUT_mi {| mi_dx := - 2 ^ 31; mi_dy := -3; mi_mouseData := 0;
                               mi_dwFlags := MOUSEEVENTF_MOVE; mi_time := 0 |})]
  /\ dx (mouse_event dev_1 (2 ^ 31) (-3) 0) <> - 2 ^ 31.
Proof. vm_compute. repeat split; discriminate. Qed.

(** C4, amended. A mouse event that reaches the dispatch of a mapped,
    resolved session injects at most one motion and at most one button
    input. Each of the six raw button bits sets its own synthetic-input
    flag, and all flags of the event travel in one input structure. An
    event with no motion and no buttons injects nothing. An event with
    motion and no buttons injects exactly one motion input and no button
    input. The motion input carries [dx] and [dy] as its LONG fields hold
    them: the 32-bit signed values congruent to them modulo 2^32, which
    are [dx] and [dy] themselves exactly when these are 32-bit signed
    values. *)
Theorem mouse_event_injection (e : Env) (self : InputRouter) (event : Event) :
  type event = mouse ->
  result_of (route_event event e self) = Delivered ->
  (truthy_int (Z.land (button_flags (buttons event)) MOUSEEVENTF_LEFTDOWN)
     = truthy_int (Z.land (buttons event) RI_MOUSE_LEFT_BUTTON_DOWN)
   /\ truthy_int (Z.land (button_flags (buttons event)) MOUSEEVENTF_LEFTUP)
     = truthy_int (Z.land (buttons event) RI_MOUSE_LEFT_BUTTON_UP)
   /\ truthy_int (Z.land (button_flags (buttons event)) MOUSEEVENTF_RIGHTDOWN)
     = truthy_int (Z.land (buttons event) RI_MOUSE_RIGHT_BUTTON_DOWN)
   /\ truthy_int (Z.land (button_flags (buttons event)) MOUSEEVENTF_RIGHTUP)
     = truthy_int (Z.land (buttons event) RI_MOUSE_RIGHT_BUTTON_UP)
   /\ truthy_int (Z.land (button_flags (buttons event)) MOUSEEVENTF_MIDDLEDOWN)
     = truthy_int (Z.land (buttons event) RI_MOUSE_MIDDLE_BUTTON_DOWN)
   /\ truthy_int (Z.land (button_flags (buttons event)) MOUSEEVENTF_MIDDLEUP)
     = truthy_int (Z.land (buttons event) RI_MOUSE_MIDDLE_BUTTON_UP))
  /\ os_calls (trace_of (route_event event e self))
     = (if negb (dx event =? 0) || negb (dy event =? 0)
        then [SendInput (motion_input (dx event) (dy event))] else [])
       ++ (if negb (button_flags (buttons event) =? 0)
           then [SendInput (INPUT_mi {|
                   mi_dx := 0; mi_dy := 0; mi_mouseData := 0;
                   mi_dwFlags := button_flags (buttons event); mi_time := 0 |})]
           else [])
  /\ (dx event = 0 -> dy event = 0 -> buttons event = 0 ->
      os_calls (trace_of (route_event event e self)) = [])
  /\ (dx event <> 0 \/ dy event <> 0 -> buttons event = 0 ->
      os_calls (trace_of (route_event event e self))
      = [SendInput (motion_input (dx event) (dy event))])
  /\ (exists x y,
        motion_input (dx event) (dy event)
        = INPUT_mi {| mi_dx := x; mi_dy := y; mi_mouseData := 0;
                      mi_dwFlags := MOUSEEVENTF_MOVE; mi_time := 0 |}
        /\ - 2 ^ 31 <= x < 2 ^ 31 /\ (x - dx event) mod 2 ^ 32 = 0
        /\ - 2 ^ 31 <= y < 2 ^ 31 /\ (y - dy event) mod 2 ^ 32 = 0
        /\ (x = dx event <-> - 2 ^ 31 <= dx event < 2 ^ 31)
        /\ (y = dy event <-> - 2 ^ 31 <= dy event < 2 ^ 31)).
Proof.
  intros Hm Hres.
  destruct (route_event_shape e self event)
    as [[_ Hn]|(uid & session & pre & _ & _ & _ & Hpre & _ & Htr)]; [done|].
  destruct (dispatch_mouse e session event Hm) as [_ Hcalls].
  assert (os_calls (trace_of (route_event event e self))
          = mouse_inputs (dx event) (dy event) (buttons event)) as Hall.
  { by rewrite Htr, os_calls_app, Hpre, Hcalls. }
  split.
  { repeat split.
    - apply (flag_follows_bit (buttons event) 0); lia.
    - apply (flag_follows_bit (buttons event) 1); lia.
    - apply (flag_follows_bit (buttons event) 2); lia.
    - apply (flag_follows_bit (buttons event) 3); lia.
    - apply (flag_follows_bit (buttons event) 4); lia.
    - apply (flag_follows_bit (buttons event) 5); lia. }
  split.
  { rewrite Hall. unfold mouse_inputs, button_input. f_equal.
    pose proof (button_flags_range (buttons event)) as Hr.
    destruct (Z.eqb_spec (buttons event) 0) as [H0|H0].
    - rewrite H0. reflexivity.
    - cbn [negb andb]. destruct (Z.eqb_spec (button_flags (buttons event)) 0); [done|].
      cbn [negb]. by rewrite (DWORD_small (button_flags (buttons event))) by lia. }
  split.
  { intros Hx Hy Hb. rewrite Hall, Hx, Hy, Hb. apply mouse_inputs_idle. }
  split.
  { intros Hxy Hb. rewrite Hall, Hb. by apply mouse_inputs_motion. }
  exists (LONG (dx event)), (LONG (dy event)).
  destruct (LONG_stored (dx event)) as (Hxr & Hxc & Hxf).
  destruct (LONG_stored (dy event)) as (Hyr & Hyc & Hyf).
  split; [reflexivity|]. done.
Qed.

Lemma mouse_event_injection_witness :
  type (mouse_event dev_1 5 (-3) 0) = mouse
  /\ result_of (route_event (mouse_event dev_1 5 (-3) 0) desktop_up router) = Delivered
  /\ os_calls (trace_of (route_event (mouse_event dev_1 5 (-3) 0) desktop_up router))
     = [SendInput (motion_input 5 (-3))]
  /\ motion_input 5 (-3)
     = INPUT_mi {| mi_dx := 5; mi_dy := -3; mi_mouseData := 0;
                   mi_dwFlags := MOUSEEVENTF_MOVE; mi_time := 0 |}.
Proof.
  split; [reflexivity|]. split; [vm_compute; reflexivity|].
  destruct (mouse_event_injection desktop_up router (mouse_event dev_1 5 (-3) 0))
    as (_ & _ & _ & Hmotion & x & y & Hxy & _ & _ & _ & _ & Hx & Hy).
  - reflexivity.
  - vm_compute; reflexivity.
  - split; [apply Hmotion; [left; discriminate | reflexivity]|].
    unfold mouse_event in Hxy, Hx, Hy. cbn [dx dy] in Hxy, Hx, Hy.
    rewrite Hxy, (proj2 Hx), (proj2 Hy) by lia. reflexivity.
Defined.

(** ** Drops *)

(** C5. An event whose device is not in the mapping table is dropped as
    an unmapped device: no call reaches the operating system, and the
    mapping table and the sessions are left as they were. *)
Theorem unmapped_device_dropped (e : Env) (self : InputRouter) (event : Event) :
  device_mappings self !! device_id event = None ->
  result_of (route_event event e self) = DroppedUnmappedDevice
  /\ os_calls (trace_of (route_event event e self)) = []
  /\ state_of (route_event event e self) = self.
Proof. intros Hd. by rewrite route_event_unmapped. Qed.

Lemma unmapped_device_dropped_witness :
  device_mappings router !! device_id (key_event dev_9 65) = None
  /\ result_of (route_event (key_event dev_9 65) desktop_up router) = DroppedUnmappedDevice
  /\ os_calls (trace_of (route_event (key_event dev_9 65) desktop_up router)) = []
  /\ state_of (route_event (key_event dev_9 65) desktop_up router) = router.
Proof.
  split; [vm_compute; reflexivity|].
  apply (unmapped_device_dropped desktop_up router (key_event dev_9 65)).
  vm_compute; reflexivity.
Defined.

(** C6. An event routed to a session whose owned process has exited is
    dropped as process-dead: no call reaches the operating system, and the
    session is afterwards the same session with its window handle absent. *)
Theorem exited_process_dropped
    (e : Env) (self : InputRouter) (event : Event)
    (uid : string) (session : UserSession) (p : Popen) (status : Z) :
  device_mappings self !! device_id event = Some uid ->
  uid <> EmptyString ->
  user_sessions self !! uid = Some session ->
  process session = Some p ->
  poll e p = Some status ->
  result_of (route_event event e self) = DroppedProcessDead
  /\ os_calls (trace_of (route_event event e self)) = []
  /\ user_sessions (state_of (route_event event e self)) !! uid
     = Some (set_hwnd None session)
  /\ hwnd (set_hwnd None session) = None.
Proof.
  intros Hd Hu Hs Hp Hpoll.
  rewrite (route_event_session _ _ _ uid session) by done. cbn zeta.
  rewrite route_to_session_exited.
  - unfold result_of, trace_of, state_of. cbn.
    by rewrite lookup_insert_eq.
  - unfold process_exited. rewrite Hp, Hpoll. by rewrite bool_decide_eq_false_2.
Qed.

Lemma exited_process_dropped_witness :
  device_mappings router !! device_id (key_event dev_1 65) = Some alice
  /\ alice <> EmptyString
  /\ user_sessions router !! alice = Some alice_session
  /\ process alice_session = Some alice_process
  /\ poll launcher_exited alice_process = Some 0
  /\ result_of (route_event (key_event dev_1 65) launcher_exited router)
     = DroppedProcessDead
  /\ os_calls (trace_of (route_event (key_event dev_1 65) launcher_exited router)) = []
  /\ user_sessions (state_of (route_event (key_event dev_1 65) launcher_exited router)) !! alice
     = Some (set_hwnd None alice_session)
  /\ hwnd (set_hwnd None alice_session) = None.
Proof.
  split; [vm_compute; reflexivity|]. split; [discriminate|].
  split; [vm_compute; reflexivity|]. split; [reflexivity|]. split; [reflexivity|].
  apply (exited_process_dropped launcher_exited router (key_event dev_1 65)
           alice alice_session alice_process 0).
  - vm_compute; reflexivity.
  - discriminate.
  - vm_compute; reflexivity.
  - reflexivity.
  - reflexivity.
Defined.

(** ** Live handles *)

(** C9, the claim at the session of the scenario whose launcher process
    has exited while its window is still there: the session has the handle
    4660, the window 4660 exists, and after one routed event the handle is
    absent. *)
Lemma live_handle_cleared_after_exit :
  device_mappings router !! device_id (key_event dev_1 65) = Some alice
  /\ hwnd <$> user_sessions router !! alice = Some (Some 4660)
  /\ IsWindow launcher_exited 4660 = true
  /\ hwnd <$> user_sessions
               (state_of (route_event (key_event dev_1 65) launcher_exited router)) !! alice
     = Some None.
Proof. vm_compute. repeat split. Qed.

(** C9, amended. For a session whose owned process, if it has one, has not
    exited, and whose window handle is present and live, routing an event
    leaves the handle, the session and the whole router state unchanged. *)
Theorem live_handle_unchanged
    (e : Env) (self : InputRouter) (event : Event)
    (uid : string) (session : UserSession) (h : Z) :
  device_mappings self !! device_id event = Some uid ->
  uid <> EmptyString ->
  user_sessions self !! uid = Some session ->
  process_exited e session = false ->
  hwnd session = Some h ->
  h <> 0 ->
  IsWindow e h = true ->
  hwnd <$> user_sessions (state_of (route_event event e self)) !! uid = Some (Some h)
  /\ state_of (route_event event e self) = self.
Proof.
  intros Hd Hu Hs Hx Hh Hne Hlive.
  assert (state_of (route_event event e self) = self) as Hst.
  { rewrite (route_event_session _ _ _ uid session) by done. cbn zeta.
    rewrite route_to_session_handle; [|done|apply truthy_hwnd_Some; by exists h].
    rewrite check_window_live by (by rewrite Hh).
    unfold state_of at 1. cbn [fst snd].
    rewrite dispatch_state. by apply with_sessions_id. }
  split; [|done]. by rewrite Hst, Hs, <- Hh.
Qed.

Lemma live_handle_unchanged_witness :
  device_mappings router !! device_id (key_event dev_1 65) = Some alice
  /\ alice <> EmptyString
  /\ user_sessions router !! alice = Some alice_session
  /\ process_exited desktop_up alice_session = false
  /\ hwnd alice_session = Some 4660
  /\ 4660 <> 0
  /\ IsWindow desktop_up 4660 = true
  /\ hwnd <$> user_sessions
               (state_of (route_event (key_event dev_1 65) desktop_up router)) !! alice
     = Some (Some 4660)
  /\ state_of (route_event (key_event dev_1 65) desktop_up router) = router.
Proof.
  split; [vm_compute; reflexivity|]. split; [discriminate|].
  split; [vm_compute; reflexivity|]. split; [reflexivity|]. split; [reflexivity|].
  split; [discriminate|]. split; [reflexivity|].
  apply (live_handle_unchanged desktop_up router (key_event dev_1 65) alice alice_session 4660).
  - vm_compute; reflexivity.
  - discriminate.
  - vm_compute; reflexivity.
  - reflexivity.
  - reflexivity.
  - discriminate.
  - reflexivity.
Defined.

(** ** Stale handles *)

(** A session whose handle is present but whose window is gone, and for
    which the refresh finds nothing: the pass ends in the dispatch, on the
    unchanged session. *)
Lemma stale_handle_dispatched
    (e : Env) (self : InputRouter) (event : Event)
    (uid : string) (session : UserSession) (h : Z) :
  device_mappings self !! device_id event = Some uid ->
  uid <> EmptyString ->
  user_sessions self !! uid = Some session ->
  process_exited e session = false ->
  hwnd session = Some h ->
  h <> 0 ->
  IsWindow e h = false ->
  _refresh_window_handle e session = (false, session, []) ->
  route_event event e self
  = (result_of (dispatch event e session), self,
     [Mem MappingsRead; Mem SessionsRead] ++ trace_of (dispatch event e session)).
Proof.
  intros Hd Hu Hs Hx Hh Hne Hgone Hfail.
  assert (truthy_hwnd (hwnd session) = true) as Ht.
  { apply truthy_hwnd_Some. by exists h. }
  rewrite (route_event_session _ _ _ uid session) by done. cbn zeta.
  rewrite route_to_session_handle by done.
  rewrite check_window_stale by (done || by rewrite Hh).
  rewrite dispatch_state. by rewrite with_sessions_id.
Qed.

(** C2, the code at a launched session whose window was closed while its
    process runs: the handle 4660 names no window, the resolver finds no
    window of process 42, and the key is posted to the handle 4660 with
    outcome [Delivered]. *)
Theorem stale_handle_of_launched_session_receives_key :
  hwnd <$> user_sessions router !! alice = Some (Some 4660)
  /\ IsWindow windows_closed 4660 = false
  /\ _refresh_window_handle windows_closed alice_session = (false, alice_session, [])
  /\ result_of (route_event (key_event dev_1 65) windows_closed router) = Delivered
  /\ os_calls (trace_of (route_event (key_event dev_1 65) windows_closed router))
     = [PostMessageW 4660 WM_KEYDOWN 65 0x1E0001;
        PostMessageW 4660 WM_CHAR 65 0x1E0001;
        PostMessageW 4660 WM_KEYUP 65 0xC01E0001].
Proof. vm_compute. repeat split. Qed.

(** ** Attached sessions *)

(** An attached session owns no process: the refresh fails without a
    lookup of windows and leaves the session as it is. *)
Lemma attached_refresh_fails (e : Env) (session : UserSession) :
  process session = None ->
  result_of (_refresh_window_handle e session) = false
  /\ state_of (_refresh_window_handle e session) = session.
Proof. intros Hp. by rewrite _refresh_window_handle_attached. Qed.

(** With the handle absent, every event for an attached session is dropped
    and nothing is injected. *)
Lemma attached_without_handle_dropped
    (e : Env) (self : InputRouter) (event : Event)
    (uid : string) (session : UserSession) :
  device_mappings self !! device_id event = Some uid ->
  uid <> EmptyString ->
  user_sessions self !! uid = Some session ->
  process session = None ->
  truthy_hwnd (hwnd session) = false ->
  result_of (route_event event e self) = DroppedWindowUnresolvable
  /\ os_calls (trace_of (route_event event e self)) = []
  /\ state_of (route_event event e self) = self.
Proof.
  intros Hd Hu Hs Hp Hh.
  rewrite (route_event_session _ _ _ uid session) by done. cbn zeta.
  rewrite route_to_session_unresolvable.
  - unfold result_of, trace_of, state_of. cbn. by rewrite with_sessions_id.
  - unfold process_exited. by rewrite Hp.
  - done.
  - by apply _refresh_window_handle_attached.
Qed.

(** The router never changes an attached session. *)
Lemma attached_session_unchanged
    (e : Env) (self : InputRouter) (event : Event)
    (uid : string) (session : UserSession) :
  device_mappings self !! device_id event = Some uid ->
  uid <> EmptyString ->
  user_sessions self !! uid = Some session ->
  process session = None ->
  state_of (route_event event e self) = self.
Proof.
  intros Hd Hu Hs Hp.
  destruct (truthy_hwnd (hwnd session)) eqn:Ht.
  2:{ by eapply attached_without_handle_dropped. }
  assert (process_exited e session = false) as Hx.
  { unfold process_exited. by rewrite Hp. }
  rewrite (route_event_session _ _ _ uid session) by done. cbn zeta.
  rewrite route_to_session_handle by done.
  unfold state_of at 1. cbn [fst snd].
  destruct (IsWindow e (HWND (hwnd session))) eqn:Hlive.
  - rewrite check_window_live by done.
    rewrite dispatch_state. by apply with_sessions_id.
  - rewrite check_window_stale
      by (done || by apply _refresh_window_handle_attached).
    rewrite dispatch_state. by apply with_sessions_id.
Qed.

(** C10, the code at an attached session whose window was closed: the
    handle 5000 names no window, the refresh fails, and the key is posted
    to the handle 5000 with outcome [Delivered]. *)
Theorem stale_handle_of_attached_session_receives_key :
  process bob_session = None
  /\ pid bob_session = 0
  /\ hwnd <$> user_sessions router !! bob = Some (Some 5000)
  /\ IsWindow windows_closed 5000 = false
  /\ _refresh_window_handle windows_closed bob_session = (false, bob_session, [])
  /\ result_of (route_event (key_event dev_2 65) windows_closed router) = Delivered
  /\ os_calls (trace_of (route_event (key_event dev_2 65) windows_closed router))
     = [PostMessageW 5000 WM_KEYDOWN 65 0x1E0001;
        PostMessageW 5000 WM_CHAR 65 0x1E0001;
        PostMessageW 5000 WM_KEYUP 65 0xC01E0001]
  /\ state_of (route_event (key_event dev_2 65) windows_closed router) = router.
Proof.
  split; [reflexivity|]. split; [reflexivity|].
  split; [vm_compute; reflexivity|]. split; [reflexivity|].
  split; [reflexivity|]. split; [vm_compute; reflexivity|].
  split; [vm_compute; reflexivity|].
  apply (attached_session_unchanged _ _ _ bob bob_session);
    [vm_compute; reflexivity | discriminate | vm_compute; reflexivity | reflexivity].
Qed.

(** ** The receive loop *)

Lemma split_newline_app (line rest : pystr) :
  NEWLINE ∉ line -> split_newline (line ++ NEWLINE :: rest) = Some (line, rest).
Proof.
  induction line as [|c line IH]; intros Hnl; [done|].
  apply not_elem_of_cons in Hnl as [Hc Hnl]. cbn.
  destruct (N.eqb_spec c NEWLINE) as [->|_]; [done|].
  by rewrite IH.
Qed.

Lemma split_newline_shorter (buffer line rest : pystr) :
  split_newline buffer = Some (line, rest) -> (length rest < length buffer)%nat.
Proof.
  revert line. induction buffer as [|c buffer IH]; intros line; [done|]. cbn.
  destruct (c =? NEWLINE)%N.
  - intros [= _ <-]. lia.
  - destruct (split_newline buffer) as [[line' rest']|]; [|done].
    intros [= _ <-]. specialize (IH line' eq_refl). lia.
Qed.

Section ReceiveProperties.

Variable json_loads : pystr -> loads_result.

Lemma process_buffer_no_newline (fuel : nat) (buffer : pystr) (e : Env) (self : InputRouter) :
  split_newline buffer = None ->
  process_buffer json_loads fuel buffer e self = (Remaining buffer, self, []).
Proof. intros Hs. destruct fuel; cbn; by rewrite Hs. Qed.

Lemma process_buffer_blank (fuel : nat) (buffer line rest : pystr)
    (e : Env) (self : InputRouter) :
  split_newline buffer = Some (line, rest) ->
  strip_truthy line = false ->
  process_buffer json_loads (S fuel) buffer e self
  = process_buffer json_loads fuel rest e self.
Proof. intros Hs Hb. cbn [process_buffer]. by rewrite Hs, Hb. Qed.

Lemma process_buffer_error (fuel : nat) (buffer line rest : pystr)
    (e : Env) (self : InputRouter) :
  split_newline buffer = Some (line, rest) ->
  strip_truthy line = true ->
  json_loads line = JSONDecodeError ->
  process_buffer json_loads (S fuel) buffer e self
  = let x := process_buffer json_loads fuel rest e self in
    (result_of x, state_of x, Log ERROR :: trace_of x).
Proof. intros Hs Hb Hj. cbn [process_buffer]. by rewrite Hs, Hb, Hj. Qed.

Lemma process_buffer_object (fuel : nat) (buffer line rest : pystr)
    (e : Env) (self : InputRouter) (event : Event) :
  split_newline buffer = Some (line, rest) ->
  strip_truthy line = true ->
  json_loads line = LoadsObject event ->
  process_buffer json_loads (S fuel) buffer e self
  = let y := route_event event e self in
    let x := process_buffer json_loads fuel rest e (state_of y) in
    (result_of x, state_of x, Routed event :: trace_of y ++ trace_of x).
Proof. intros Hs Hb Hj. cbn [process_buffer]. by rewrite Hs, Hb, Hj. Qed.

Lemma process_buffer_other (fuel : nat) (buffer line rest : pystr)
    (e : Env) (self : InputRouter) :
  split_newline buffer = Some (line, rest) ->
  strip_truthy line = true ->
  json_loads line = LoadsOther ->
  process_buffer json_loads (S fuel) buffer e self = (Raised, self, []).
Proof. intros Hs Hb Hj. cbn [process_buffer]. by rewrite Hs, Hb, Hj. Qed.

(** The inner loop ends: with [length buffer] turns it never runs out,
    and more turns change nothing. *)
Lemma process_buffer_fuel (fuel fuel' : nat) (buffer : pystr) (e : Env) (self : InputRouter) :
  (length buffer <= fuel)%nat ->
  (length buffer <= fuel')%nat ->
  process_buffer json_loads fuel buffer e self
  = process_buffer json_loads fuel' buffer e self
  /\ result_of (process_buffer json_loads fuel buffer e self) <> OutOfFuel.
Proof.
  revert fuel' buffer self.
  induction fuel as [|fuel IH]; intros fuel' buffer self Hf Hf'.
  - destruct buffer; [|cbn in Hf; lia].
    by rewrite !process_buffer_no_newline.
  - destruct (split_newline buffer) as [[line rest]|] eqn:Hs.
    2:{ by rewrite !process_buffer_no_newline. }
    pose proof (split_newline_shorter _ _ _ Hs) as Hlen.
    destruct fuel' as [|fuel']; [lia|].
    destruct (strip_truthy line) eqn:Hb.
    2:{ rewrite !(process_buffer_blank _ _ _ _ _ _ Hs Hb). apply IH; lia. }
    destruct (json_loads line) as [|event|] eqn:Hj.
    + rewrite !(process_buffer_error _ _ _ _ _ _ Hs Hb Hj). cbn zeta.
      destruct (IH fuel' rest self) as [Heq Hne]; [lia|lia|].
      rewrite <- Heq. done.
    + rewrite !(process_buffer_object _ _ _ _ _ _ _ Hs Hb Hj). cbn zeta.
      destruct (IH fuel' rest (state_of (route_event event e self))) as [Heq Hne];
        [lia|lia|].
      rewrite <- Heq. done.
    + by rewrite !(process_buffer_other _ _ _ _ _ _ Hs Hb Hj).
Qed.

End ReceiveProperties.







(** The model of the receive loop never stops for lack of turns of its
    inner loop. *)
Lemma event_loop_from_total (json_loads : pystr -> loads_result)
    (stream : list arrival) (buffer : pystr) (self : InputRouter) :
  result_of (event_loop_from json_loads buffer stream self) <> FuelExhausted.
Proof.
  revert buffer self. induction stream as [|a stream IH]; intros buffer self.
  { cbn. by destruct (running self). }
  cbn [event_loop_from]. destruct (running self); [|done]. cbn [negb].
  destruct (recv a) as [data| |]; [|apply IH|done].
  destruct data as [|b data]; [done|].
  destruct (decode_utf8 (b :: data)) as [text|]; [|done].
  cbn zeta.
  destruct (process_buffer_fuel json_loads (length (buffer ++ text))
              (length (buffer ++ text)) (buffer ++ text) (os a) self) as [_ Hne];
    [done|done|].
  destruct (result_of (process_buffer json_loads (length (buffer ++ text))
                         (buffer ++ text) (os a) self)) as [buffer'| |];
    [apply IH|done|done].
Qed.

(** Routing never touches the mapping table nor the stop flag. *)
Lemma route_event_frame (e : Env) (self : InputRouter) (event : Event) :
  device_mappings (state_of (route_event event e self)) = device_mappings self
  /\ running (state_of (route_event event e self)) = running self.
Proof.
  destruct (device_mappings self !! device_id event) as [uid|] eqn:Hd.
  2:{ by rewrite route_event_unmapped. }
  destruct (decide (uid = EmptyString)) as [->|Hu].
  { by rewrite route_event_empty_user. }
  destruct (user_sessions self !! uid) as [session|] eqn:Hs.
  2:{ by rewrite (route_event_no_session _ _ _ uid). }
  by rewrite (route_event_session _ _ _ uid session).
Qed.


Lemma lines_text_cons_app (line : pystr) (lines : list pystr) (rest : pystr) :
  lines_text (line :: lines) ++ rest = line ++ NEWLINE :: (lines_text lines ++ rest).
Proof. unfold lines_text. cbn. by rewrite <- !app_assoc. Qed.






(** A line that holds a JSON value other than an object ends the loop as
    well: [event.get] raises on it. *)
Lemma non_object_line_ends_the_loop :
  scenario_loads (text number_line) = LoadsOther
  /\ event_loop scenario_loads (one_chunk number_then_key) router
     = (EventLoopError, router, [Log ERROR]).
Proof. vm_compute. repeat split. Qed.



(** ** The lock and the tables *)

Lemma add_device_mapping_run (e : Env) (self : InputRouter) (d u : string) :
  state_of (add_device_mapping d u e self)
  = with_mappings (<[d := u]> (device_mappings self)) self
  /\ accesses (trace_of (add_device_mapping d u e self))
     = [LockAcquire; MappingsWrite; MappingsRead; LockRelease].
Proof.
  rewrite add_device_mapping_unfold. unfold _save_config. run.
  by destruct (config_writable e).
Qed.

Lemma remove_device_mapping_run (e : Env) (self : InputRouter) (d : string) :
  (state_of (remove_device_mapping d e self)
   = with_mappings (delete d (device_mappings self)) self
   /\ accesses (trace_of (remove_device_mapping d e self))
      = [LockAcquire; MappingsRead; MappingsWrite; MappingsRead; LockRelease])
  \/ (state_of (remove_device_mapping d e self) = self
      /\ accesses (trace_of (remove_device_mapping d e self))
         = [LockAcquire; MappingsRead; LockRelease]).
Proof.
  rewrite !remove_device_mapping_unfold. unfold _save_config. run.
  case_bool_decide; run; [left|right; done].
  by destruct (config_writable e).
Qed.

(** C8, the claim at the routing of one key: [route_event] reads the
    mapping table and the session registry without the lock, and
    [attach_to_window] writes the registry without it. In the schedule
    [lookup_inside_mutation], whose two threads run [add_device_mapping] and
    [route_event] as the code has them and which takes the lock only when
    free, the router's reads happen while the control plane holds the
    lock. *)
Lemma router_reads_without_the_lock :
  accesses (trace_of (route_event (key_event dev_1 65) desktop_up router))
  = [MappingsRead; SessionsRead]
  /\ locked (trace_of (perform (RouteEvent (key_event dev_1 65)) desktop_up router)) = false
  /\ locked (trace_of (perform (AttachToWindow bob 5000) desktop_up router)) = false
  /\ by_thread ControlPlane lookup_inside_mutation
     = accesses (trace_of (add_device_mapping dev_9 alice desktop_up router))
  /\ by_thread Receiver lookup_inside_mutation
     = accesses (trace_of (route_event (key_event dev_1 65) desktop_up router))
  /\ lock_respected None lookup_inside_mutation = true
  /\ overlaps None lookup_inside_mutation = true.
Proof. vm_compute. repeat split. Qed.

(** ** Mapping mutations interleaved with lookups *)

Lemma table_after_snoc (calls : list mutation) (order : list nat) (i : nat)
    (m : mutation) (t : gmap string string) :
  calls !! i = Some m ->
  table_after calls (order ++ [i]) t = effect_of m (table_after calls order t).
Proof. intros Hm. unfold table_after. rewrite foldl_app. cbn. by rewrite Hm. Qed.

Lemma released_app (h1 h2 : list (nat * effect)) :
  released (h1 ++ h2) = released h1 ++ released h2.
Proof. apply omap_app. Qed.

Lemma consistent_spawn (calls : list mutation) (self : InputRouter) :
  consistent calls self (spawn calls self).
Proof.
  unfold consistent, spawn. cbn.
  split; [apply length_fmap|]. split; [done|]. split; [constructor|].
  split; [|split; [by destruct self|done]].
  intros i m Hm. exists (code_of m), Idle.
  split; [by rewrite list_lookup_fmap, Hm|].
  split; [destruct m; constructor|].
  split; [done|]. split; [|done].
  split; [by intros ?%elem_of_nil|done].
Qed.

Lemma consistent_update (calls : list mutation) (self : InputRouter)
    (c c' : Interleaving) (i : nat) (m : mutation) (k k' : code unit) (ph ph' : phase)
    (evs : list (nat * effect)) :
  consistent calls self c ->
  calls !! i = Some m ->
  threads c !! i = Some k ->
  (i ∈ released (history c) <-> ph = Done) ->
  ph <> Done ->
  lock c = (if holding ph then Some i else None) ->
  threads c' = <[i := k']> (threads c) ->
  history c' = history c ++ evs ->
  at_phase m k' ph' ->
  foldl lock_step (Some (lock c)) evs = Some (lock c') ->
  released evs = match ph' with Done => [i] | _ => [] end ->
  lock c' = (if holding ph' then Some i else None) ->
  shared c'
  = with_mappings
      (table_after calls (released (history c') ++ pending i ph') (device_mappings self))
      self ->
  consistent calls self c'.
Proof.
  intros (Hlen & Hdisc & Hnd & Hthr & Hfree & Hvalid) Hm Hk Hrel Hph Hlock
    Hthreads Hhist Hat Hstep Hevs Hlock' Hshared.
  assert (forall j, j <> i -> lock c <> Some j) as Hother.
  { intros j Hj. rewrite Hlock. destruct (holding ph); congruence. }
  assert (forall j, j <> i -> lock c' <> Some j) as Hother'.
  { intros j Hj. rewrite Hlock'. destruct (holding ph'); congruence. }
  assert (released (history c') = released (history c) ++ released evs) as Hreleased.
  { by rewrite Hhist, released_app. }
  split; [by rewrite Hthreads, length_insert|].
  split.
  { unfold lock_discipline in *. by rewrite Hhist, foldl_app, Hdisc. }
  split.
  { rewrite Hreleased, Hevs. destruct ph'; try (by rewrite app_nil_r).
    apply NoDup_app. split; [done|]. split; [|apply NoDup_singleton].
    intros x Hx ->%list_elem_of_singleton. apply Hrel in Hx. done. }
  split.
  { intros j m' Hm'. destruct (decide (j = i)) as [->|Hne].
    - assert (m' = m) as -> by congruence.
      exists k', ph'. split.
      { rewrite Hthreads. apply list_lookup_insert_eq. by eapply lookup_lt_Some. }
      split; [done|]. split.
      { rewrite Hlock'. destruct (holding ph'); [done|]. split; congruence. }
      split; [|by intros _].
      rewrite Hreleased, Hevs, elem_of_app.
      destruct ph'; try (split; [|done]; intros [Hin|Hin%elem_of_nil]; [|done];
                         apply Hrel in Hin; done).
      split; [done|]. intros _. right. by apply list_elem_of_singleton.
    - destruct (Hthr j m' Hm') as (kj & phj & Hkj & Hatj & Hlockj & Hrelj & _).
      exists kj, phj. split.
      { rewrite Hthreads. by rewrite list_lookup_insert_ne. }
      split; [done|]. split.
      { split; [by intros ?%Hother'|].
        intros Hh. apply Hlockj in Hh. by apply Hother in Hh. }
      split; [|by intros ?%Hother'].
      rewrite Hreleased, Hevs, elem_of_app, <- Hrelj.
      destruct ph'; try (rewrite elem_of_nil; tauto).
      rewrite list_elem_of_singleton. tauto. }
  split.
  { intros Hnone. rewrite Hshared. destruct ph'; cbn in *; try congruence;
      by rewrite app_nil_r. }
  intros j Hj. destruct (decide (j = i)) as [->|Hne]; [by rewrite Hm|].
  by apply Hother' in Hj.
Qed.

(** One step of one thread keeps the invariant. *)
Lemma advance_consistent (calls : list mutation) (self : InputRouter)
    (e : Env) (i : nat) (c : Interleaving) :
  consistent calls self c -> consistent calls self (advance e i c).
Proof.
  intros Hc. pose proof Hc as (Hlen & Hdisc & Hnd & Hthr & Hfree & Hvalid).
  unfold advance.
  destruct (calls !! i) as [m|] eqn:Hm.
  2: { assert (threads c !! i = None) as ->; [|done].
       apply lookup_ge_None. rewrite Hlen. by apply lookup_ge_None. }
  destruct (Hthr i m Hm) as (k & ph & Hk & Hat & Hlock & Hrel & Htab).
  rewrite Hk.
  destruct Hat as [d u|d u|d|d|d|m|m|m|m].
  - unfold add_device_mapping_code. destruct (lock c) eqn:Hl; [done|].
    eapply (consistent_update calls self c _ i _ _ _ Idle Before
              [(i, Mem LockAcquire)] Hc Hm Hk Hrel).
    { discriminate. }
    { exact Hl. }
    { reflexivity. }
    { reflexivity. }
    { constructor. }
    { by rewrite Hl. }
    { reflexivity. }
    { reflexivity. }
    cbn [shared history pending]. rewrite released_app, !app_nil_r. by apply Hfree.
  - assert (lock c = Some i) as Hl by (by apply Hlock).
    specialize (Htab Hl). cbn [pending] in Htab. rewrite app_nil_r in Htab.
    eapply (consistent_update calls self c _ i _ _ _ Before After
              [(i, Mem MappingsWrite)] Hc Hm Hk Hrel).
    { discriminate. }
    { exact Hl. }
    { reflexivity. }
    { reflexivity. }
    { constructor. }
    { rewrite Hl. cbn. by rewrite bool_decide_eq_true_2. }
    { reflexivity. }
    { exact Hl. }
    cbn [shared history pending]. rewrite released_app, app_nil_r.
    rewrite (table_after_snoc calls _ i _ _ Hm).
    unfold state_of. cbn. by rewrite Htab.
  - unfold remove_device_mapping_code. destruct (lock c) eqn:Hl; [done|].
    eapply (consistent_update calls self c _ i _ _ _ Idle Before
              [(i, Mem LockAcquire)] Hc Hm Hk Hrel).
    { discriminate. }
    { exact Hl. }
    { reflexivity. }
    { reflexivity. }
    { constructor. }
    { by rewrite Hl. }
    { reflexivity. }
    { reflexivity. }
    cbn [shared history pending]. rewrite released_app, !app_nil_r. by apply Hfree.
  - assert (lock c = Some i) as Hl by (by apply Hlock).
    specialize (Htab Hl). cbn [pending] in Htab. rewrite app_nil_r in Htab.
    destruct (bool_decide (is_Some (device_mappings (shared c) !! d))) eqn:Hpresent.
    + eapply (consistent_update calls self c _ i _ _ _ Before Before
                [(i, Mem MappingsRead)] Hc Hm Hk Hrel).
      { discriminate. }
      { exact Hl. }
      { reflexivity. }
      { reflexivity. }
      { unfold result_of. cbn. rewrite Hpresent. constructor. }
      { rewrite Hl. cbn. by rewrite bool_decide_eq_true_2. }
      { reflexivity. }
      { exact Hl. }
      cbn [shared history pending]. rewrite released_app, !app_nil_r. exact Htab.
    + eapply (consistent_update calls self c _ i _ _ _ Before After
                [(i, Mem MappingsRead)] Hc Hm Hk Hrel).
      { discriminate. }
      { exact Hl. }
      { reflexivity. }
      { reflexivity. }
      { unfold result_of. cbn. rewrite Hpresent. constructor. }
      { rewrite Hl. cbn. by rewrite bool_decide_eq_true_2. }
      { reflexivity. }
      { exact Hl. }
      cbn [shared history pending]. rewrite released_app, app_nil_r.
      rewrite (table_after_snoc calls _ i _ _ Hm). cbn [effect_of].
      apply bool_decide_eq_false in Hpresent.
      unfold state_of. cbn. rewrite Htab in Hpresent |- *. cbn in Hpresent.
      rewrite delete_id; [done|].
      destruct (table_after _ _ _ !! d); [|done]. by destruct Hpresent.
  - assert (lock c = Some i) as Hl by (by apply Hlock).
    specialize (Htab Hl). cbn [pending] in Htab. rewrite app_nil_r in Htab.
    eapply (consistent_update calls self c _ i _ _ _ Before After
              [(i, Mem MappingsWrite)] Hc Hm Hk Hrel).
    { discriminate. }
    { exact Hl. }
    { reflexivity. }
    { reflexivity. }
    { constructor. }
    { rewrite Hl. cbn. by rewrite bool_decide_eq_true_2. }
    { reflexivity. }
    { exact Hl. }
    cbn [shared history pending]. rewrite released_app, app_nil_r.
    rewrite (table_after_snoc calls _ i _ _ Hm).
    unfold state_of. cbn. by rewrite Htab.
  - assert (lock c = Some i) as Hl by (by apply Hlock).
    specialize (Htab Hl). cbn [pending] in Htab. unfold after_write.
    eapply (consistent_update calls self c _ i _ _ _ After After
              [(i, Mem MappingsRead); (i, Log (if config_writable e then INFO else ERROR))]
              Hc Hm Hk Hrel).
    { discriminate. }
    { exact Hl. }
    { reflexivity. }
    { unfold after_write, _save_config, trace_of. cbn.
      by destruct (config_writable e). }
    { constructor. }
    { rewrite Hl. cbn. by rewrite bool_decide_eq_true_2. }
    { reflexivity. }
    { exact Hl. }
    cbn [shared history pending]. unfold _save_config, state_of, trace_of. cbn.
    rewrite released_app. destruct (config_writable e); cbn; rewrite app_nil_r; exact Htab.
  - assert (lock c = Some i) as Hl by (by apply Hlock).
    specialize (Htab Hl). cbn [pending] in Htab.
    eapply (consistent_update calls self c _ i _ _ _ After After
              [(i, Log INFO)] Hc Hm Hk Hrel).
    { discriminate. }
    { exact Hl. }
    { reflexivity. }
    { reflexivity. }
    { constructor. }
    { by rewrite Hl. }
    { reflexivity. }
    { exact Hl. }
    cbn [shared history pending]. rewrite released_app, app_nil_r. exact Htab.
  - assert (lock c = Some i) as Hl by (by apply Hlock).
    specialize (Htab Hl). cbn [pending] in Htab.
    eapply (consistent_update calls self c _ i _ _ _ After Done
              [(i, Mem LockRelease)] Hc Hm Hk Hrel).
    { discriminate. }
    { exact Hl. }
    { reflexivity. }
    { reflexivity. }
    { constructor. }
    { rewrite Hl. cbn. by rewrite bool_decide_eq_true_2. }
    { reflexivity. }
    { reflexivity. }
    cbn [shared history pending]. rewrite released_app. by rewrite app_nil_r.
  - done.
Qed.

Lemma take_turn_consistent (calls : list mutation) (self : InputRouter)
    (e : Env) (t : turn) (c : Interleaving) :
  consistent calls self c -> consistent calls self (take_turn e c t).
Proof.
  destruct t as [i|d]; [apply advance_consistent|].
  intros Hc. exact Hc.
Qed.

Lemma interleave_consistent (calls : list mutation) (self : InputRouter)
    (e : Env) (sched : list turn) (c : Interleaving) :
  consistent calls self c -> consistent calls self (interleave e sched c).
Proof.
  revert c. induction sched as [|t sched IH]; intros c Hc; [done|].
  cbn. apply IH. by apply take_turn_consistent.
Qed.

Lemma table_after_entry (calls : list mutation) (order : list nat)
    (t : gmap string string) (d u : string) :
  table_after calls order t !! d = Some u ->
  t !! d = Some u
  \/ exists i, i ∈ order /\ calls !! i = Some (AddDeviceMapping d u).
Proof.
  revert t. induction order as [|i order IH]; intros t; [by left|].
  cbn. intros [Ht|(j & Hj & Hcall)]%IH.
  - destruct (calls !! i) as [[d' u'|d']|] eqn:Hi; cbn in Ht.
    + destruct (decide (d' = d)) as [->|Hne].
      * rewrite lookup_insert_eq in Ht. injection Ht as ->.
        right. exists i. split; [by left|done].
      * rewrite lookup_insert_ne in Ht by done. by left.
    + destruct (decide (d' = d)) as [->|Hne].
      * by rewrite lookup_delete_eq in Ht.
      * rewrite lookup_delete_ne in Ht by done. by left.
    + by left.
  - right. exists j. split; [by right|done].
Qed.

Lemma interleave_snoc (e : Env) (sched : list turn) (t : turn) (c : Interleaving) :
  interleave e (sched ++ [t]) c = take_turn e (interleave e sched c) t.
Proof. unfold interleave. by rewrite foldl_app. Qed.

(** C8, amended. Whatever the interleaving of the steps of any number of
    [add_device_mapping] and [remove_device_mapping] calls with one another
    and with lookups of the receive loop, the calls take the lock only
    when it is free and read and write the mapping table only while
    holding it; each thread releases the lock at most once, and has
    finished exactly when it has released it. At every moment the router
    is the initial one with the mapping table that the calls of some
    threads [order] leave when run whole, one after the other: the threads
    that have released the lock, in the order of release, and possibly,
    last, the thread that holds the lock.
    A lookup made at that moment returns the entry of that table: a user
    it finds for a device was in the table at the start or is the user of
    an [add_device_mapping] call for that device by one of these threads,
    never a partially written entry. *)
Theorem mapping_mutations_locked_lookups_whole
    (e : Env) (self : InputRouter) (calls : list mutation) (sched : list turn) :
  lock_discipline (history (interleave e sched (spawn calls self)))
  = Some (lock (interleave e sched (spawn calls self)))
  /\ NoDup (released (history (interleave e sched (spawn calls self))))
  /\ (forall i, (i < length calls)%nat ->
        threads (interleave e sched (spawn calls self)) !! i = Some (Return tt)
        <-> i ∈ released (history (interleave e sched (spawn calls self))))
  /\ (exists order,
        shared (interleave e sched (spawn calls self))
        = with_mappings (table_after calls order (device_mappings self)) self
        /\ (order = released (history (interleave e sched (spawn calls self)))
            \/ exists i,
                 lock (interleave e sched (spawn calls self)) = Some i
                 /\ (i ∉ released (history (interleave e sched (spawn calls self))))
                 /\ order = released (history (interleave e sched (spawn calls self))) ++ [i])
        /\ (forall d,
              lookups (interleave e (sched ++ [Lookup d]) (spawn calls self))
              = lookups (interleave e sched (spawn calls self))
                ++ [(d, table_after calls order (device_mappings self) !! d)])
        /\ (forall d u,
              table_after calls order (device_mappings self) !! d = Some u ->
              device_mappings self !! d = Some u
              \/ exists i, i ∈ order /\ calls !! i = Some (AddDeviceMapping d u))).
Proof.
  pose proof (interleave_consistent calls self e sched _ (consistent_spawn calls self))
    as (Hlen & Hdisc & Hnd & Hthr & Hfree & Hvalid).
  set (c := interleave e sched (spawn calls self)) in *.
  split; [done|]. split; [done|].
  split.
  { intros i [m Hm]%lookup_lt_is_Some.
    destruct (Hthr i m Hm) as (k & ph & Hk & Hat & _ & Hrel & _).
    rewrite Hk, Hrel. split.
    - intros [= ->]. by inversion Hat.
    - intros ->. by inversion Hat. }
  assert (exists order,
            shared c = with_mappings (table_after calls order (device_mappings self)) self
            /\ (order = released (history c)
                \/ exists i, lock c = Some i /\ (i ∉ released (history c))
                     /\ order = released (history c) ++ [i]))
    as (order & Hshared & Horder).
  { destruct (lock c) as [i|] eqn:Hl.
    - destruct (Hvalid i eq_refl) as [m Hm].
      destruct (Hthr i m Hm) as (k & ph & Hk & Hat & Hlock & Hrel & Htab).
      specialize (Htab eq_refl).
      destruct ph; cbn [pending] in Htab.
      + exists (released (history c)). rewrite app_nil_r in Htab. by split; [|left].
      + exists (released (history c)). rewrite app_nil_r in Htab. by split; [|left].
      + exists (released (history c) ++ [i]). split; [done|]. right. exists i.
        split; [done|]. split; [|done]. intros Hin%Hrel. done.
      + exists (released (history c)). rewrite app_nil_r in Htab. by split; [|left].
    - exists (released (history c)). split; [by apply Hfree|by left]. }
  exists order. split; [done|]. split; [done|].
  split; [|intros d u; apply table_after_entry].
  intros d. rewrite interleave_snoc. fold c. cbn [take_turn lookups].
  by rewrite Hshared.
Qed.

Lemma mapping_mutations_locked_lookups_whole_witness :
  lookups (interleave desktop_up lookups_between_steps (spawn three_calls router))
  = [(dev_9, None); (dev_9, Some alice); (dev_1, Some alice); (dev_1, None);
     (dev_9, Some bob)]
  /\ threads (interleave desktop_up lookups_between_steps (spawn three_calls router))
     = [Return tt; Return tt; Return tt]
  /\ shared (interleave desktop_up lookups_between_steps (spawn three_calls router))
     = with_mappings (table_after three_calls [0; 1; 2]%nat (device_mappings router)) router.
Proof.
  split; [vm_compute; reflexivity|]. split; [vm_compute; reflexivity|].
  destruct (mapping_mutations_locked_lookups_whole desktop_up router three_calls
              lookups_between_steps)
    as (_ & _ & _ & order & -> & [->|(i & Hl & _)] & _).
  - f_equal.
  - vm_compute in Hl. discriminate.
Defined.

(** * Further properties of the routing engine *)

(** ** Window resolver *)

Lemma head_filter_first {A} (f : A -> bool) (l : list A) :
  match head (List.filter f l) with
  | Some x =>
      exists before after,
        l = before ++ x :: after /\ f x = true /\ forall y, y ∈ before -> f y = false
  | None => forall y, y ∈ l -> f y = false
  end.
Proof.
  induction l as [|a l IH]; cbn.
  { by intros y ?%elem_of_nil. }
  destruct (f a) eqn:Hfa; cbn.
  - exists [], l. split; [done|]. split; [done|]. by intros y ?%elem_of_nil.
  - destruct (head (List.filter f l)) as [x|].
    + destruct IH as (before & after & -> & Hx & Hbefore).
      exists (a :: before), after. split; [done|]. split; [done|].
      intros y [->|Hy]%elem_of_cons; [done|by apply Hbefore].
    + intros y [->|Hy]%elem_of_cons; [done|by apply IH].
Qed.

(** [_find_window_by_pid] returns the first window of the enumeration that
    belongs to the process and is visible, and that window has a handle
    other than NULL. It returns [None] when the enumeration holds no such
    window, and also when the first such window is the NULL handle, which
    the callback receives as [None], even if a later window qualifies. It
    makes no call that acts on the system and leaves its object alone. *)
Theorem find_window_by_pid_first_visible {S} (e : Env) (s : S) (pid : Z) :
  match result_of (_find_window_by_pid pid e s) with
  | Some h =>
      h <> 0
      /\ exists before after,
           EnumWindows e = before ++ h :: after
           /\ GetWindowThreadProcessId e h = pid
           /\ IsWindowVisible e h = true
           /\ forall w, w ∈ before ->
                GetWindowThreadProcessId e w <> pid \/ IsWindowVisible e w = false
  | None =>
      (forall w, w ∈ EnumWindows e ->
         GetWindowThreadProcessId e w <> pid \/ IsWindowVisible e w = false)
      \/ (exists before after,
             EnumWindows e = before ++ 0 :: after
             /\ GetWindowThreadProcessId e 0 = pid
             /\ IsWindowVisible e 0 = true
             /\ forall w, w ∈ before ->
                  GetWindowThreadProcessId e w <> pid \/ IsWindowVisible e w = false)
  end
  /\ state_of (_find_window_by_pid pid e s) = s
  /\ trace_of (_find_window_by_pid pid e s) = [].
Proof.
  split; [|done]. unfold _find_window_by_pid, ask, result_of. cbn [fst].
  pose proof (head_filter_first
    (fun hwnd => (GetWindowThreadProcessId e hwnd =? pid) && IsWindowVisible e hwnd)
    (EnumWindows e)) as Hf.
  destruct (List.filter _ (EnumWindows e)) as [|h rest]; cbn [head] in Hf.
  - left. intros w [Hw|Hw]%Hf%andb_false_iff; [left; by apply Z.eqb_neq|by right].
  - destruct Hf as (before & after & Henum & [Hp Hv]%andb_true_iff & Hb).
    apply Z.eqb_eq in Hp.
    assert (forall w, w ∈ before ->
              GetWindowThreadProcessId e w <> pid \/ IsWindowVisible e w = false) as Hb'.
    { intros w [Hw|Hw]%Hb%andb_false_iff; [left; by apply Z.eqb_neq|by right]. }
    unfold HWND_value. destruct (Z.eqb_spec h 0) as [->|Hne].
    + right. by exists before, after.
    + split; [done|]. by exists before, after.
Qed.

(** [_refresh_window_handle] succeeds exactly when the session owns a
    running process that has a visible window with a nonzero handle; it then
    stores the first such window. When it fails it leaves the session as it
    is: it never clears a handle. *)
Theorem refresh_window_handle_outcome (e : Env) (session : UserSession) :
  (result_of (_refresh_window_handle e session) = true <->
     process_running e session = true
     /\ exists h, h <> 0
          /\ result_of (_find_window_by_pid (S := UserSession) (pid session) e session)
             = Some h)
  /\ (forall h,
        result_of (_refresh_window_handle e session) = true ->
        result_of (_find_window_by_pid (S := UserSession) (pid session) e session) = Some h ->
        state_of (_refresh_window_handle e session) = set_hwnd (Some h) session)
  /\ (result_of (_refresh_window_handle e session) = false ->
      state_of (_refresh_window_handle e session) = session)
  /\ os_calls (trace_of (_refresh_window_handle e session)) = [].
Proof.
  destruct (_refresh_window_handle_cases e session)
    as [[-> Hwhy]|(h & Hne & Hrun & Hfind & ->)];
    unfold result_of, state_of, trace_of in *; cbn [fst snd].
  - split; [|done]. split; [done|]. intros [Hrun (h & Hne & Hfind)].
    destruct Hwhy as [Hwhy|Hwhy]; [congruence|].
    rewrite Hfind in Hwhy. cbn in Hwhy. unfold truthy_int in Hwhy.
    apply negb_false_iff, Z.eqb_eq in Hwhy. done.
  - split; [|split; [|done]].
    + split; [|done]. intros _. split; [done|]. by exists h.
    + intros h' _ Hfind'. rewrite Hfind in Hfind'. by injection Hfind' as ->.
Qed.

(** ** What routing does to the tables *)

Lemma set_hwnd_same (session : UserSession) : set_hwnd (hwnd session) session = session.
Proof. by destruct session. Qed.

Lemma refresh_after_refresh (e : Env) (session : UserSession) (h : Z) :
  _refresh_window_handle e session
  = (true, set_hwnd (Some h) session, [Mem SessionsWrite]) ->
  _refresh_window_handle e (set_hwnd (Some h) session)
  = (true, set_hwnd (Some h) session, [Mem SessionsWrite]).
Proof.
  unfold _refresh_window_handle, _find_window_by_pid. run.
  change (process_running e (set_hwnd (Some h) session)) with (process_running e session).
  cbn [pid set_hwnd].
  destruct (process_running e session); [|done].
  destruct (truthy_hwnd _); [|done].
  intros [= Heq]. by rewrite Heq.
Qed.

(** The session object after the checks: untouched, or with its handle
    cleared because the process exited, or with the handle of the first
    visible window of its running process. *)
Lemma route_to_session_state (e : Env) (session : UserSession) (event : Event) :
  state_of (route_to_session event e session) = session
  \/ (process_exited e session = true
      /\ state_of (route_to_session event e session) = set_hwnd None session)
  \/ (exists h, h <> 0
        /\ process_running e session = true
        /\ result_of (_find_window_by_pid (S := UserSession) (pid session) e session) = Some h
        /\ state_of (route_to_session event e session) = set_hwnd (Some h) session).
Proof.
  destruct (process_exited e session) eqn:Hx.
  { right; left. by rewrite route_to_session_exited. }
  assert (forall s, _refresh_window_handle e s = (false, s, []) \/
            exists h, h <> 0 /\ process_running e s = true
              /\ result_of (_find_window_by_pid (S := UserSession) (pid s) e s) = Some h
              /\ _refresh_window_handle e s = (true, set_hwnd (Some h) s, [Mem SessionsWrite]))
    as Hcases.
  { intros s. destruct (_refresh_window_handle_cases e s) as [[? _]|?]; auto. }
  assert (forall s, truthy_hwnd (hwnd s) = true ->
            state_of (check_window_then_dispatch event e s) = s
            \/ exists h, h <> 0 /\ process_running e s = true
                 /\ result_of (_find_window_by_pid (S := UserSession) (pid s) e s) = Some h
                 /\ _refresh_window_handle e s
                    = (true, set_hwnd (Some h) s, [Mem SessionsWrite])
                 /\ state_of (check_window_then_dispatch event e s) = set_hwnd (Some h) s)
    as Hcheck.
  { intros s Ht. destruct (IsWindow e (HWND (hwnd s))) eqn:Hlive.
    { left. rewrite check_window_live by done. apply dispatch_state. }
    destruct (Hcases s) as [Hfail|(h & Hne & Hrun & Hfind & Hok)].
    - left. rewrite check_window_stale by done. apply dispatch_state.
    - right. exists h. rewrite (check_window_refreshed _ _ _ h) by done.
      repeat (split; [done|]). unfold state_of at 1. cbn [fst snd].
      apply dispatch_state. }
  destruct (truthy_hwnd (hwnd session)) eqn:Ht.
  { rewrite route_to_session_handle by done.
    destruct (Hcheck session Ht) as [Hs|(h & Hne & Hrun & Hfind & _ & Hs)]; [by left|].
    right; right. by exists h. }
  destruct (Hcases session) as [Hfail|(h & Hne & Hrun & Hfind & Hok)].
  { left. by rewrite route_to_session_unresolvable. }
  right; right. exists h. repeat (split; [done|]).
  rewrite (route_to_session_resolved _ _ _ h) by done.
  unfold state_of at 1. cbn [fst snd].
  destruct (Hcheck (set_hwnd (Some h) session)) as [Hs|(h' & _ & _ & _ & Hok' & Hs)].
  - apply truthy_hwnd_Some. by exists h.
  - done.
  - rewrite (refresh_after_refresh e session h Hok) in Hok'.
    injection Hok' as Heq. by rewrite Hs, <- Heq.
Qed.

Lemma route_event_registry
    (e : Env) (self : InputRouter) (event : Event) :
  device_mappings (state_of (route_event event e self)) = device_mappings self
  /\ running (state_of (route_event event e self)) = running self
  /\ (forall k,
        user_sessions self !! k = None ->
        user_sessions (state_of (route_event event e self)) !! k = None)
  /\ (forall k session,
        user_sessions self !! k = Some session ->
        exists h,
          user_sessions (state_of (route_event event e self)) !! k
          = Some (set_hwnd h session))
  /\ (forall k,
        device_mappings self !! device_id event <> Some k ->
        user_sessions (state_of (route_event event e self)) !! k
        = user_sessions self !! k).
Proof.
  destruct (route_event_frame e self event) as [Hm Hr].
  split; [done|]. split; [done|].
  assert (state_of (route_event event e self) = self
          \/ exists uid session h,
               device_mappings self !! device_id event = Some uid
               /\ user_sessions self !! uid = Some session
               /\ user_sessions (state_of (route_event event e self))
                  = <[uid := set_hwnd h session]> (user_sessions self)) as [->|Hst].
  { destruct (device_mappings self !! device_id event) as [uid|] eqn:Hd.
    2:{ left. by rewrite route_event_unmapped. }
    destruct (decide (uid = EmptyString)) as [->|Hu].
    { left. by rewrite route_event_empty_user. }
    destruct (user_sessions self !! uid) as [session|] eqn:Hs.
    2:{ left. by rewrite (route_event_no_session _ _ _ uid). }
    right. rewrite (route_event_session _ _ _ uid session) by done. cbn zeta.
    unfold state_of at 1. cbn [fst snd user_sessions with_sessions].
    destruct (route_to_session_state e session event)
      as [->|[[_ ->]|(h & _ & _ & _ & ->)]].
    - exists uid, session, (hwnd session). by rewrite set_hwnd_same.
    - by exists uid, session, None.
    - by exists uid, session, (Some h). }
  { split; [done|]. split; [|done].
    intros k session Hk. exists (hwnd session). by rewrite set_hwnd_same. }
  destruct Hst as (uid & session & h & Hd & Hs & ->).
  split; [|split].
  - intros k Hk. rewrite lookup_insert_ne; [done|]. intros <-. congruence.
  - intros k session' Hk. destruct (decide (uid = k)) as [<-|Hne].
    + exists h. rewrite lookup_insert_eq. congruence.
    + exists (hwnd session'). rewrite lookup_insert_ne by done.
      by rewrite set_hwnd_same.
  - intros k Hk. rewrite lookup_insert_ne; [done|]. intros <-. by rewrite Hd in Hk.
Qed.

(** One pass of [route_event] changes nothing but, at most, the window
    handle of the one session the device is mapped to: the mapping table and
    the stop flag are as before, no session is created or deleted, every
    other session is untouched, and the routed session keeps its user,
    process, pid, project and editor. *)
Theorem route_event_changes_at_most_one_handle
    (e : Env) (self : InputRouter) (event : Event) :
  device_mappings (state_of (route_event event e self)) = device_mappings self
  /\ running (state_of (route_event event e self)) = running self
  /\ (forall k,
        user_sessions self !! k = None ->
        user_sessions (state_of (route_event event e self)) !! k = None)
  /\ (forall k session,
        user_sessions self !! k = Some session ->
        exists h,
          user_sessions (state_of (route_event event e self)) !! k
          = Some (set_hwnd h session))
  /\ (forall k,
        device_mappings self !! device_id event <> Some k ->
        user_sessions (state_of (route_event event e self)) !! k
        = user_sessions self !! k).
Proof. apply route_event_registry. Qed.

(** After a pass, the handle of the routed session is the handle it had, or
    it is absent because the owned process has exited, or it is the nonzero
    handle of the first visible window of the session's running process. *)
Theorem routed_session_handle_provenance
    (e : Env) (self : InputRouter) (event : Event)
    (uid : string) (session session' : UserSession) :
  device_mappings self !! device_id event = Some uid ->
  user_sessions self !! uid = Some session ->
  user_sessions (state_of (route_event event e self)) !! uid = Some session' ->
  hwnd session' = hwnd session
  \/ (process_exited e session = true /\ hwnd session' = None)
  \/ (exists h, h <> 0
        /\ process_running e session = true
        /\ result_of (_find_window_by_pid (S := UserSession) (pid session) e session) = Some h
        /\ hwnd session' = Some h).
Proof.
  intros Hd Hs Hs'.
  destruct (decide (uid = EmptyString)) as [->|Hu].
  { rewrite route_event_empty_user in Hs' by done. left. cbn in Hs'. congruence. }
  rewrite (route_event_session _ _ _ uid session) in Hs' by done. cbn zeta in Hs'.
  unfold state_of at 1 in Hs'. cbn [fst snd user_sessions with_sessions] in Hs'.
  rewrite lookup_insert_eq in Hs'. injection Hs' as <-.
  destruct (route_to_session_state e session event)
    as [->|[[Hx ->]|(h & Hne & Hrun & Hfind & ->)]].
  - by left.
  - right; left. done.
  - right; right. by exists h.
Qed.

Lemma routed_session_handle_provenance_witness :
  device_mappings router_without_handle !! device_id (key_event dev_1 65) = Some alice
  /\ user_sessions router_without_handle !! alice = Some (set_hwnd None alice_session)
  /\ user_sessions (state_of (route_event (key_event dev_1 65) desktop_up router_without_handle))
       !! alice = Some alice_session
  /\ (hwnd alice_session = hwnd (set_hwnd None alice_session)
      \/ (process_exited desktop_up (set_hwnd None alice_session) = true
          /\ hwnd alice_session = None)
      \/ (exists h, h <> 0
            /\ process_running desktop_up (set_hwnd None alice_session) = true
            /\ result_of (_find_window_by_pid (S := UserSession)
                            (pid (set_hwnd None alice_session)) desktop_up
                            (set_hwnd None alice_session)) = Some h
            /\ hwnd alice_session = Some h)).
Proof.
  split; [vm_compute; reflexivity|]. split; [vm_compute; reflexivity|].
  split; [vm_compute; reflexivity|].
  apply (routed_session_handle_provenance desktop_up router_without_handle
           (key_event dev_1 65) alice (set_hwnd None alice_session) alice_session);
    vm_compute; reflexivity.
Defined.

(** ** What routing never does *)

(** Neither a posted message nor a synthetic input moves the focus. *)
Lemma os_run_keeps_focus (cs : list os_call) (d : Desktop) :
  (forall c, c ∈ cs ->
     (exists h msg wparam lparam, c = PostMessageW h msg wparam lparam)
     \/ (exists inp, c = SendInput inp)) ->
  focus (os_run d cs) = focus d.
Proof.
  revert d. induction cs as [|c cs IH]; intros d Hall; [done|].
  unfold os_run in *. cbn [foldl]. rewrite IH.
  - destruct (Hall c) as [(h & msg & wparam & lparam & ->)|(inp & ->)]; [by left|done|done].
  - intros c' Hc'. apply Hall. by right.
Qed.

Lemma mouse_inputs_sent (x y b : Z) (c : os_call) :
  c ∈ mouse_inputs x y b -> exists inp, c = SendInput inp.
Proof.
  unfold mouse_inputs. rewrite elem_of_app.
  destruct (negb (x =? 0) || negb (y =? 0));
    destruct (negb (b =? 0) && negb (button_flags b =? 0));
    rewrite ?list_elem_of_singleton, ?elem_of_nil; intros [H|H];
    try contradiction; subst; eauto.
Qed.

(** The calls of a pass, by the type of the event. *)
Lemma route_event_calls (e : Env) (self : InputRouter) (event : Event) :
  os_calls (trace_of (route_event event e self)) = []
  \/ (type event = keyboard
      /\ exists h, os_calls (trace_of (route_event event e self))
                   = key_messages e h (vkey event))
  \/ (type event = mouse
      /\ os_calls (trace_of (route_event event e self))
         = mouse_inputs (dx event) (dy event) (buttons event)).
Proof.
  destruct (route_event_shape e self event)
    as [[Hnone _]|(uid & session & pre & _ & _ & _ & Hpre & _ & Htr)]; [by left|].
  rewrite Htr, os_calls_app, Hpre. cbn [app].
  destruct (decide (type event = keyboard)) as [Hk|Hk].
  { right; left. split; [done|]. exists (HWND (hwnd session)).
    by apply dispatch_keyboard. }
  destruct (decide (type event = mouse)) as [Hm|Hm].
  { right; right. split; [done|]. by apply dispatch_mouse. }
  left. by rewrite dispatch_other.
Qed.

(** Whatever the event, routing never calls [SetForegroundWindow] or
    [ShowWindow]: every call is a posted message or a synthetic input, and
    the input focus stays where it was. *)
Theorem routing_never_moves_the_focus
    (e : Env) (self : InputRouter) (event : Event) (d : Desktop) :
  (forall c, c ∈ os_calls (trace_of (route_event event e self)) ->
     (exists h msg wparam lparam, c = PostMessageW h msg wparam lparam)
     \/ (exists inp, c = SendInput inp))
  /\ focus (os_run d (os_calls (trace_of (route_event event e self)))) = focus d.
Proof.
  assert (forall c, c ∈ os_calls (trace_of (route_event event e self)) ->
            (exists h msg wparam lparam, c = PostMessageW h msg wparam lparam)
            \/ (exists inp, c = SendInput inp)) as Hall.
  { intros c Hc.
    destruct (route_event_calls e self event) as [Hn|[[_ [h Hk]]|[_ Hm]]].
    - rewrite Hn in Hc. by apply elem_of_nil in Hc.
    - rewrite Hk in Hc. left. exists h. by apply key_messages_posted in Hc.
    - rewrite Hm in Hc. right. by apply mouse_inputs_sent in Hc. }
  split; [done|]. by apply os_run_keeps_focus.
Qed.

(** An event whose type is neither keyboard nor mouse injects nothing,
    whatever its other fields hold, and is never reported delivered. *)
Theorem unknown_event_type_injects_nothing
    (e : Env) (self : InputRouter) (event : Event) :
  type event <> keyboard ->
  type event <> mouse ->
  os_calls (trace_of (route_event event e self)) = []
  /\ result_of (route_event event e self) <> Delivered.
Proof.
  intros Hk Hm.
  destruct (route_event_shape e self event)
    as [[Hnone Hres]|(uid & session & pre & _ & _ & _ & Hpre & Hres & Htr)]; [done|].
  rewrite Htr, Hres, os_calls_app, Hpre, dispatch_other by done. done.
Qed.

Lemma unknown_event_type_injects_nothing_witness :
  type (other_event dev_1) <> keyboard
  /\ type (other_event dev_1) <> mouse
  /\ os_calls (trace_of (route_event (other_event dev_1) desktop_up router)) = []
  /\ result_of (route_event (other_event dev_1) desktop_up router) <> Delivered.
Proof.
  split; [discriminate|]. split; [discriminate|].
  apply (unknown_event_type_injects_nothing desktop_up router (other_event dev_1));
    discriminate.
Defined.

(** ** Mouse input is not window-scoped *)

Lemma os_run_sends (inps : list INPUT) (d : Desktop) :
  focus (os_run d (SendInput <$> inps)) = focus d
  /\ (forall w, queue (os_run d (SendInput <$> inps)) w = queue d w)
  /\ (forall w, delivered_input (os_run d (SendInput <$> inps)) w
                = if w =? focus d then delivered_input d w ++ inps
                  else delivered_input d w).
Proof.
  revert d. induction inps as [|inp inps IH]; intros d.
  { cbn. split; [done|]. split; [done|]. intros w.
    destruct (w =? focus d); [by rewrite app_nil_r|done]. }
  destruct (IH (os_step d (SendInput inp))) as (Hf & Hq & Hi).
  unfold os_run in *. cbn [fmap list_fmap foldl]. 
  change (list_fmap _ _ SendInput inps) with (SendInput <$> inps).
  rewrite Hf. split; [done|]. split; [intros w; by rewrite Hq|].
  intros w. rewrite Hi. cbn. unfold push.
  destruct (w =? focus d); [by rewrite <- app_assoc|done].
Qed.

(** A delivered mouse event posts no message to any window: its inputs
    enter the system input stream and reach the window that has the focus,
    whichever window the session's handle names. The inputs are the same
    for every session the event could be mapped to. *)
Theorem mouse_input_goes_to_the_focused_window
    (e : Env) (self : InputRouter) (event : Event) (d : Desktop) :
  type event = mouse ->
  result_of (route_event event e self) = Delivered ->
  exists inps,
    os_calls (trace_of (route_event event e self)) = SendInput <$> inps
    /\ SendInput <$> inps = mouse_inputs (dx event) (dy event) (buttons event)
    /\ (forall w, queue (os_run d (os_calls (trace_of (route_event event e self)))) w
                  = queue d w)
    /\ delivered_input (os_run d (os_calls (trace_of (route_event event e self)))) (focus d)
       = delivered_input d (focus d) ++ inps
    /\ (forall w, w <> focus d ->
          delivered_input (os_run d (os_calls (trace_of (route_event event e self)))) w
          = delivered_input d w).
Proof.
  intros Hm Hres.
  destruct (route_event_shape e self event)
    as [[_ Hn]|(uid & session & pre & _ & _ & _ & Hpre & _ & Htr)]; [done|].
  destruct (dispatch_mouse e session event Hm) as [_ Hcalls].
  assert (exists inps, mouse_inputs (dx event) (dy event) (buttons event)
                       = SendInput <$> inps) as [inps Hinps].
  { unfold mouse_inputs.
    destruct (negb (dx event =? 0) || negb (dy event =? 0));
      destruct (negb (buttons event =? 0) && negb (button_flags (buttons event) =? 0)).
    - by exists [motion_input (dx event) (dy event);
                 button_input (button_flags (buttons event))].
    - by exists [motion_input (dx event) (dy event)].
    - by exists [button_input (button_flags (buttons event))].
    - by exists []. }
  exists inps. rewrite Htr, os_calls_app, Hpre, Hcalls, Hinps. cbn [app].
  destruct (os_run_sends inps d) as (_ & Hq & Hi).
  split; [done|]. split; [done|]. split; [done|]. split.
  - by rewrite Hi, Z.eqb_refl.
  - intros w Hw. rewrite Hi. by destruct (Z.eqb_spec w (focus d)).
Qed.

Lemma mouse_input_goes_to_the_focused_window_witness :
  type (mouse_event dev_1 5 (-3) 2) = mouse
  /\ result_of (route_event (mouse_event dev_1 5 (-3) 2) desktop_up router) = Delivered
  /\ focus desktop0 = 5000
  /\ delivered_input
       (os_run desktop0
          (os_calls (trace_of (route_event (mouse_event dev_1 5 (-3) 2) desktop_up router))))
       4660 = [].
Proof.
  split; [reflexivity|]. split; [vm_compute; reflexivity|]. split; [reflexivity|].
  destruct (mouse_input_goes_to_the_focused_window desktop_up router
              (mouse_event dev_1 5 (-3) 2) desktop0) as (inps & _ & _ & _ & _ & Hother).
  - reflexivity.
  - vm_compute; reflexivity.
  - rewrite Hother; [reflexivity|discriminate].
Defined.

(** ** Resolution of an absent handle *)

Lemma find_window_by_pid_result {S T} (e : Env) (s : S) (t : T) (p : Z) :
  result_of (_find_window_by_pid p e s) = result_of (_find_window_by_pid p e t).
Proof. reflexivity. Qed.




(** A session whose handle is absent and for which no window can be found
    (no running owned process, or no visible window of it): the event is
    dropped as unresolvable, nothing is injected, and the handle stays
    absent with the whole router state unchanged. *)
Theorem absent_handle_unresolvable_dropped
    (e : Env) (self : InputRouter) (event : Event)
    (uid : string) (session : UserSession) :
  device_mappings self !! device_id event = Some uid ->
  uid <> EmptyString ->
  user_sessions self !! uid = Some session ->
  process_exited e session = false ->
  truthy_hwnd (hwnd session) = false ->
  process_running e session = false
  \/ truthy_hwnd (result_of (_find_window_by_pid (S := UserSession) (pid session) e session))
     = false ->
  result_of (route_event event e self) = DroppedWindowUnresolvable
  /\ os_calls (trace_of (route_event event e self)) = []
  /\ state_of (route_event event e self) = self.
Proof.
  intros Hd Hu Hs Hx Ht Hwhy.
  assert (_refresh_window_handle e session = (false, session, [])) as Hfail.
  { destruct (_refresh_window_handle_cases e session)
      as [[Hf _]|(h & Hne & Hrun & Hfind & _)]; [done|].
    destruct Hwhy as [Hwhy|Hwhy]; [congruence|].
    rewrite Hfind in Hwhy. cbn in Hwhy. unfold truthy_int in Hwhy.
    by apply negb_false_iff, Z.eqb_eq in Hwhy. }
  rewrite (route_event_session _ _ _ uid session) by done. cbn zeta.
  rewrite route_to_session_unresolvable by done.
  unfold result_of, trace_of, state_of. cbn. by rewrite with_sessions_id.
Qed.

Lemma absent_handle_unresolvable_dropped_witness :
  device_mappings router_without_handle !! device_id (key_event dev_1 65) = Some alice
  /\ alice <> EmptyString
  /\ user_sessions router_without_handle !! alice = Some (set_hwnd None alice_session)
  /\ process_exited windows_closed (set_hwnd None alice_session) = false
  /\ truthy_hwnd (hwnd (set_hwnd None alice_session)) = false
  /\ result_of (route_event (key_event dev_1 65) windows_closed router_without_handle)
     = DroppedWindowUnresolvable
  /\ os_calls (trace_of (route_event (key_event dev_1 65) windows_closed
                           router_without_handle)) = []
  /\ state_of (route_event (key_event dev_1 65) windows_closed router_without_handle)
     = router_without_handle.
Proof.
  split; [vm_compute; reflexivity|]. split; [discriminate|].
  split; [vm_compute; reflexivity|]. split; [reflexivity|]. split; [reflexivity|].
  apply (absent_handle_unresolvable_dropped windows_closed router_without_handle
           (key_event dev_1 65) alice (set_hwnd None alice_session)).
  - vm_compute; reflexivity.
  - discriminate.
  - vm_compute; reflexivity.
  - reflexivity.
  - reflexivity.
  - right. reflexivity.
Defined.

(** ** Mappings that lead nowhere *)

(** A device mapped to a user who has no session, or mapped to the empty
    user id (which Python tests as false, so that the device counts as
    unknown even if a session of that name exists): the event is dropped,
    nothing is injected, and nothing changes. *)
Theorem mapping_without_session_dropped
    (e : Env) (self : InputRouter) (event : Event) (uid : string) :
  device_mappings self !! device_id event = Some uid ->
  uid = EmptyString \/ user_sessions self !! uid = None ->
  (result_of (route_event event e self)
   = if bool_decide (uid = EmptyString) then DroppedUnmappedDevice else DroppedNoSession)
  /\ os_calls (trace_of (route_event event e self)) = []
  /\ state_of (route_event event e self) = self.
Proof.
  intros Hd Hwhy. case_bool_decide as Hu.
  - subst uid. by rewrite route_event_empty_user.
  - destruct Hwhy as [?|Hs]; [done|].
    by rewrite (route_event_no_session _ _ _ uid).
Qed.

Lemma mapping_without_session_dropped_witness :
  device_mappings router_dangling !! device_id (key_event dev_9 65) = Some carol
  /\ user_sessions router_dangling !! carol = None
  /\ result_of (route_event (key_event dev_9 65) desktop_up router_dangling)
     = DroppedNoSession
  /\ os_calls (trace_of (route_event (key_event dev_9 65) desktop_up router_dangling)) = []
  /\ state_of (route_event (key_event dev_9 65) desktop_up router_dangling)
     = router_dangling.
Proof.
  split; [vm_compute; reflexivity|]. split; [vm_compute; reflexivity|].
  apply (mapping_without_session_dropped desktop_up router_dangling
           (key_event dev_9 65) carol).
  - vm_compute; reflexivity.
  - right. vm_compute; reflexivity.
Defined.

(** ** The mapping table *)

Lemma add_device_mapping_state (e : Env) (self : InputRouter) (d u : string) :
  state_of (add_device_mapping d u e self)
  = with_mappings (<[d := u]> (device_mappings self)) self.
Proof. apply add_device_mapping_run. Qed.

Lemma remove_device_mapping_state (e : Env) (self : InputRouter) (d : string) :
  device_mappings (state_of (remove_device_mapping d e self)) = delete d (device_mappings self)
  /\ user_sessions (state_of (remove_device_mapping d e self)) = user_sessions self
  /\ running (state_of (remove_device_mapping d e self)) = running self.
Proof.
  rewrite !remove_device_mapping_unfold. unfold _save_config. run. case_bool_decide as Hin; run.
  - by destruct (config_writable e).
  - split; [|done]. symmetry. apply delete_id.
    destruct (device_mappings self !! d) eqn:Hd; [|done].
    exfalso. apply Hin. by eexists.
Qed.

(** Adding a mapping makes the next lookup of that device return the user,
    replacing any user it had, and leaves every other device, the sessions
    and the stop flag alone; removing it makes the lookup fail, again
    touching nothing else. Removing after adding leaves the table as a
    plain removal would, and adding the same mapping twice is adding it
    once. *)
Theorem mapping_add_remove_round_trip
    (e e' : Env) (self : InputRouter) (d u : string) :
  device_mappings (state_of (add_device_mapping d u e self)) !! d = Some u
  /\ (forall d', d' <> d ->
        device_mappings (state_of (add_device_mapping d u e self)) !! d'
        = device_mappings self !! d')
  /\ user_sessions (state_of (add_device_mapping d u e self)) = user_sessions self
  /\ device_mappings (state_of (remove_device_mapping d e self)) !! d = None
  /\ (forall d', d' <> d ->
        device_mappings (state_of (remove_device_mapping d e self)) !! d'
        = device_mappings self !! d')
  /\ device_mappings
       (state_of (remove_device_mapping d e' (state_of (add_device_mapping d u e self))))
     = delete d (device_mappings self)
  /\ state_of (add_device_mapping d u e' (state_of (add_device_mapping d u e self)))
     = state_of (add_device_mapping d u e self).
Proof.
  rewrite !add_device_mapping_state.
  destruct (remove_device_mapping_state e self d) as (Hrm & _ & _).
  destruct (remove_device_mapping_state e'
              (with_mappings (<[d := u]> (device_mappings self)) self) d) as (Hrm' & _ & _).
  rewrite Hrm, Hrm'. cbn [device_mappings user_sessions with_mappings].
  split; [apply lookup_insert_eq|].
  split; [intros d' Hd'; by apply lookup_insert_ne|].
  split; [done|].
  split; [apply lookup_delete_eq|].
  split; [intros d' Hd'; by apply lookup_delete_ne|].
  split; [apply delete_insert_eq|].
  unfold with_mappings. cbn. by rewrite insert_insert_eq.
Qed.

(** Removing a device that has no mapping changes nothing, writes no
    configuration file and logs nothing. *)
Theorem remove_unmapped_device_is_silent (e : Env) (self : InputRouter) (d : string) :
  device_mappings self !! d = None ->
  remove_device_mapping d e self
  = (tt, self, [Mem LockAcquire; Mem MappingsRead; Mem LockRelease]).
Proof.
  intros Hd. rewrite remove_device_mapping_unfold. run.
  rewrite bool_decide_eq_false_2; [done|]. rewrite Hd. by intros [? ?].
Qed.

Lemma remove_unmapped_device_is_silent_witness :
  device_mappings router !! dev_9 = None
  /\ remove_device_mapping dev_9 desktop_up router
     = (tt, router, [Mem LockAcquire; Mem MappingsRead; Mem LockRelease]).
Proof.
  split; [vm_compute; reflexivity|].
  apply (remove_unmapped_device_is_silent desktop_up router dev_9).
  vm_compute; reflexivity.
Defined.



(** Once a mapping is removed, every event of that device is dropped as
    unmapped and injects nothing. *)
Theorem removed_mapping_drops_next_event
    (e e' : Env) (self : InputRouter) (event : Event) :
  result_of (route_event event e'
               (state_of (remove_device_mapping (device_id event) e self)))
  = DroppedUnmappedDevice
  /\ os_calls (trace_of (route_event event e'
                           (state_of (remove_device_mapping (device_id event) e self))))
     = [].
Proof.
  destruct (remove_device_mapping_state e self (device_id event)) as (Hrm & _ & _).
  rewrite route_event_unmapped; [done|]. rewrite Hrm. apply lookup_delete_eq.
Qed.

(** ** Attaching to a window *)





(** ** The receive loop keeps the registry *)

Lemma keeps_registry_refl (self : InputRouter) : keeps_registry self self.
Proof.
  split; [done|]. split; [done|]. intros k.
  destruct (user_sessions self !! k) as [session|] eqn:Hk; [|done].
  exists (hwnd session). by rewrite set_hwnd_same.
Qed.

Lemma keeps_registry_trans (r1 r2 r3 : InputRouter) :
  keeps_registry r1 r2 -> keeps_registry r2 r3 -> keeps_registry r1 r3.
Proof.
  intros (Hm & Hr & Hs) (Hm' & Hr' & Hs').
  split; [congruence|]. split; [congruence|]. intros k.
  specialize (Hs k). specialize (Hs' k).
  destruct (user_sessions r1 !! k) as [session|].
  - destruct Hs as [h Hs]. rewrite Hs in Hs'. destruct Hs' as [h' Hs'].
    by exists h'.
  - by rewrite Hs in Hs'.
Qed.

Lemma route_event_keeps_registry (e : Env) (self : InputRouter) (event : Event) :
  keeps_registry self (state_of (route_event event e self)).
Proof.
  destruct (route_event_registry e self event) as (Hm & Hr & Hn & Hs & _).
  split; [done|]. split; [done|]. intros k.
  destruct (user_sessions self !! k) as [session|] eqn:Hk; [by apply Hs|by apply Hn].
Qed.

Lemma process_buffer_keeps_registry (json_loads : pystr -> loads_result)
    (fuel : nat) (buffer : pystr) (e : Env) (self : InputRouter) :
  keeps_registry self (state_of (process_buffer json_loads fuel buffer e self)).
Proof.
  revert buffer self. induction fuel as [|fuel IH]; intros buffer self.
  { cbn. destruct (split_newline buffer) as [[? ?]|]; apply keeps_registry_refl. }
  destruct (split_newline buffer) as [[line rest]|] eqn:Hs.
  2:{ rewrite process_buffer_no_newline by done. apply keeps_registry_refl. }
  destruct (strip_truthy line) eqn:Hb.
  2:{ rewrite (process_buffer_blank _ _ _ _ _ _ _ Hs Hb). apply IH. }
  destruct (json_loads line) as [|event|] eqn:Hj.
  - rewrite (process_buffer_error _ _ _ _ _ _ _ Hs Hb Hj). apply IH.
  - rewrite (process_buffer_object _ _ _ _ _ _ _ _ Hs Hb Hj).
    eapply keeps_registry_trans; [apply route_event_keeps_registry|apply IH].
  - rewrite (process_buffer_other _ _ _ _ _ _ _ Hs Hb Hj). apply keeps_registry_refl.
Qed.

(** However long the stream and whatever it holds, the receive loop leaves
    the mapping table and the stop flag as they were, creates and deletes
    no session, and changes no field of a session but its window handle. *)
Theorem event_loop_keeps_registry (json_loads : pystr -> loads_result)
    (buffer : pystr) (stream : list arrival) (self : InputRouter) :
  keeps_registry self (state_of (event_loop_from json_loads buffer stream self)).
Proof.
  revert buffer self. induction stream as [|a stream IH]; intros buffer self.
  { cbn. destruct (running self); apply keeps_registry_refl. }
  cbn [event_loop_from]. destruct (running self); [|apply keeps_registry_refl].
  cbn [negb]. destruct (recv a) as [data| |]; [|apply IH|apply keeps_registry_refl].
  destruct data as [|b data]; [apply keeps_registry_refl|].
  destruct (decode_utf8 (b :: data)) as [text|]; [|apply keeps_registry_refl].
  cbn zeta.
  pose proof (process_buffer_keeps_registry json_loads (length (buffer ++ text))
                (buffer ++ text) (os a) self) as Hx.
  destruct (result_of (process_buffer json_loads (length (buffer ++ text))
                         (buffer ++ text) (os a) self)) as [buffer'| |];
    [|exact Hx|exact Hx].
  eapply keeps_registry_trans; [exact Hx|apply IH].
Qed.

(** ** Decoding chunks *)

Lemma second_bounds b0 b1 : second b0 b1 = true -> (0x80 <= b1 <= 0xBF)%N.
Proof.
  unfold second, second_low, second_high. intros [H1 H2]%andb_true_iff.
  apply N.leb_le in H1, H2.
  repeat match goal with H : context [if ?c then _ else _] |- _ => destruct c end; lia.
Qed.

Lemma utf8_points_app_aux (n : nat) :
  forall bs1 bs2 t1, (length bs1 <= n)%nat ->
    utf8_points bs1 = Some t1 ->
    utf8_points (bs1 ++ bs2) = (fun t2 => t1 ++ t2) <$> utf8_points bs2.
Proof.
  induction n as [|n IH]; intros bs1 bs2 t1 Hlen Hdec.
  { destruct bs1; [|cbn in Hlen; lia]. injection Hdec as <-.
    cbn. by destruct (utf8_points bs2). }
  destruct bs1 as [|b0 bs1].
  { injection Hdec as <-. cbn. by destruct (utf8_points bs2). }
  cbn [utf8_points app] in *.
  destruct (b0 <? 0x80)%N.
  { destruct (utf8_points bs1) as [t|] eqn:Ht; [|done]. injection Hdec as <-.
    rewrite (IH bs1 bs2 t) by (cbn in Hlen; lia || done).
    by destruct (utf8_points bs2). }
  destruct ((0xC2 <=? b0) && (b0 <=? 0xDF))%N.
  { destruct bs1 as [|b1 bs1]; [done|]. cbn [app].
    destruct (continuation b1); [|done].
    destruct (utf8_points bs1) as [t|] eqn:Ht; [|done]. injection Hdec as <-.
    rewrite (IH bs1 bs2 t) by (cbn in Hlen; lia || done).
    by destruct (utf8_points bs2). }
  destruct ((0xE0 <=? b0) && (b0 <=? 0xEF))%N.
  { destruct bs1 as [|b1 [|b2 bs1]]; [done|done|]. cbn [app].
    destruct (second b0 b1 && continuation b2); [|done].
    destruct (utf8_points bs1) as [t|] eqn:Ht; [|done]. injection Hdec as <-.
    rewrite (IH bs1 bs2 t) by (cbn in Hlen; lia || done).
    by destruct (utf8_points bs2). }
  destruct ((0xF0 <=? b0) && (b0 <=? 0xF4))%N; [|done].
  destruct bs1 as [|b1 [|b2 [|b3 bs1]]]; [done|done|done|]. cbn [app].
  destruct (second b0 b1 && continuation b2 && continuation b3); [|done].
  destruct (utf8_points bs1) as [t|] eqn:Ht; [|done]. injection Hdec as <-.
  rewrite (IH bs1 bs2 t) by (cbn in Hlen; lia || done).
  by destruct (utf8_points bs2).
Qed.

Lemma utf8_points_lead_last_aux (n : nat) :
  forall bs b, (length bs <= n)%nat -> (0xC2 <= b <= 0xF4)%N ->
    utf8_points (bs ++ [b]) = None.
Proof.
  assert (forall b, (0xC2 <= b <= 0xF4)%N -> continuation b = false) as Hcont.
  { intros b Hb. unfold continuation. apply andb_false_iff. right. apply N.leb_gt. lia. }
  assert (forall b, (0xC2 <= b <= 0xF4)%N -> utf8_points [b] = None) as Hone.
  { intros b Hb. cbn. replace (b <? 0x80)%N with false by (symmetry; apply N.ltb_ge; lia).
    by repeat match goal with |- context [if ?c then _ else _] => destruct c end. }
  induction n as [|n IH]; intros bs b Hlen Hb.
  { destruct bs; [|cbn in Hlen; lia]. by apply Hone. }
  destruct bs as [|b0 bs]; [by apply Hone|].
  cbn [utf8_points app].
  destruct (b0 <? 0x80)%N.
  { rewrite IH by (cbn in Hlen; lia || done). done. }
  destruct ((0xC2 <=? b0) && (b0 <=? 0xDF))%N.
  { destruct bs as [|b1 bs]; cbn [app].
    - by rewrite (Hcont b Hb).
    - destruct (continuation b1); [|done]. by rewrite IH by (cbn in Hlen; lia || done). }
  destruct ((0xE0 <=? b0) && (b0 <=? 0xEF))%N.
  { destruct bs as [|b1 [|b2 bs]]; cbn [app].
    - done.
    - by rewrite (Hcont b Hb), andb_false_r.
    - destruct (second b0 b1 && continuation b2); [|done].
      by rewrite IH by (cbn in Hlen; lia || done). }
  destruct ((0xF0 <=? b0) && (b0 <=? 0xF4))%N; [|done].
  destruct bs as [|b1 [|b2 [|b3 bs]]]; cbn [app].
  - done.
  - done.
  - by rewrite (Hcont b Hb), andb_false_r.
  - destruct (second b0 b1 && continuation b2 && continuation b3); [|done].
    by rewrite IH by (cbn in Hlen; lia || done).
Qed.

Lemma decode_utf8_app (d1 d2 : list byte) (t1 : pystr) :
  decode_utf8 d1 = Some t1 ->
  decode_utf8 (d1 ++ d2) = (fun t2 => t1 ++ t2) <$> decode_utf8 d2.
Proof.
  unfold decode_utf8. intros Hd. rewrite fmap_app.
  by apply (utf8_points_app_aux (length (Byte.to_N <$> d1))).
Qed.

(** A chunk that ends on the first byte of a multi-byte character cannot
    be decoded on its own: the receive loop ends with an error, routes
    nothing of the chunk and leaves the router state as it was, even though
    the next chunk would have completed the character. *)
Theorem chunk_cut_inside_a_character_ends_the_loop
    (json_loads : pystr -> loads_result) (e : Env) (data : list byte) (b : byte)
    (buffer : pystr) (stream : list arrival) (self : InputRouter) :
  running self = true ->
  (0xC2 <= Byte.to_N b <= 0xF4)%N ->
  decode_utf8 (data ++ [b]) = None
  /\ event_loop_from json_loads buffer
       ({| os := e; recv := RecvData (data ++ [b]) |} :: stream) self
     = (EventLoopError, self, [Log ERROR]).
Proof.
  intros Hrun Hb.
  assert (decode_utf8 (data ++ [b]) = None) as Hdec.
  { unfold decode_utf8. rewrite fmap_app.
    by apply (utf8_points_lead_last_aux (length (Byte.to_N <$> data))). }
  split; [done|]. cbn [event_loop_from recv os]. rewrite Hrun. cbn [negb].
  rewrite Hdec. by destruct data.
Qed.

Lemma chunk_cut_inside_a_character_ends_the_loop_witness :
  running router = true
  /\ (0xC2 <= Byte.to_N xc3 <= 0xF4)%N
  /\ event_loop_from scenario_loads []
       ({| os := desktop_up; recv := RecvData (line_bytes key_line ++ [xc3]) |}
          :: one_chunk [xa9; x0a]) router
     = (EventLoopError, router, [Log ERROR]).
Proof.
  split; [reflexivity|]. split; [vm_compute; split; discriminate|].
  apply (chunk_cut_inside_a_character_ends_the_loop scenario_loads desktop_up
           (line_bytes key_line) xc3 [] (one_chunk [xa9; x0a]) router).
  - reflexivity.
  - vm_compute; split; discriminate.
Defined.

(** ** Reassembly of records *)

Lemma split_newline_app_l (buffer text line rest : pystr) :
  split_newline buffer = Some (line, rest) ->
  split_newline (buffer ++ text) = Some (line, rest ++ text).
Proof.
  revert line. induction buffer as [|c buffer IH]; intros line; [done|]. cbn.
  destruct (c =? NEWLINE)%N.
  - by intros [= <- <-].
  - destruct (split_newline buffer) as [[line' rest']|]; [|done].
    intros [= <- <-]. by rewrite (IH line' eq_refl).
Qed.

Lemma process_buffer_remaining (json_loads : pystr -> loads_result) (e : Env)
    (fuel : nat) (buffer rest : pystr) (self : InputRouter) :
  result_of (process_buffer json_loads fuel buffer e self) = Remaining rest ->
  (length rest <= length buffer)%nat /\ split_newline rest = None.
Proof.
  revert buffer self. induction fuel as [|fuel IH]; intros buffer self.
  { cbn. destruct (split_newline buffer) as [[? ?]|] eqn:Hs; [done|].
    by intros [= <-]. }
  destruct (split_newline buffer) as [[line rest']|] eqn:Hs.
  2:{ rewrite process_buffer_no_newline by done. by intros [= <-]. }
  pose proof (split_newline_shorter _ _ _ Hs) as Hlen.
  destruct (strip_truthy line) eqn:Hb.
  2:{ rewrite (process_buffer_blank _ _ _ _ _ _ _ Hs Hb).
      intros [? ?]%IH. split; [lia|done]. }
  destruct (json_loads line) as [|event|] eqn:Hj.
  - rewrite (process_buffer_error _ _ _ _ _ _ _ Hs Hb Hj).
    intros [? ?]%IH. split; [lia|done].
  - rewrite (process_buffer_object _ _ _ _ _ _ _ _ Hs Hb Hj).
    intros [? ?]%IH. split; [lia|done].
  - by rewrite (process_buffer_other _ _ _ _ _ _ _ Hs Hb Hj).
Qed.

(** Processing a buffer and then the rest with more text appended is
    processing the whole at once. *)
Lemma process_buffer_app (json_loads : pystr -> loads_result) (e : Env) (text : pystr)
    (fuel0 : nat) :
  forall (buffer : pystr) (self : InputRouter) (fuel fuel1 : nat),
    (length buffer <= fuel0)%nat ->
    (length (buffer ++ text) <= fuel)%nat ->
    (length (buffer ++ text) <= fuel1)%nat ->
    process_buffer json_loads fuel (buffer ++ text) e self
    = match result_of (process_buffer json_loads fuel0 buffer e self) with
      | Remaining rest =>
          (result_of (process_buffer json_loads fuel1 (rest ++ text) e
                        (state_of (process_buffer json_loads fuel0 buffer e self))),
           state_of (process_buffer json_loads fuel1 (rest ++ text) e
                       (state_of (process_buffer json_loads fuel0 buffer e self))),
           trace_of (process_buffer json_loads fuel0 buffer e self)
           ++ trace_of (process_buffer json_loads fuel1 (rest ++ text) e
                          (state_of (process_buffer json_loads fuel0 buffer e self))))
      | _ => process_buffer json_loads fuel0 buffer e self
      end.
Proof.
  assert (forall buffer self fuel fuel1,
            (length (buffer ++ text) <= fuel)%nat ->
            (length (buffer ++ text) <= fuel1)%nat ->
            process_buffer json_loads fuel (buffer ++ text) e self
            = ((process_buffer json_loads fuel1 (buffer ++ text) e self).1.1,
               (process_buffer json_loads fuel1 (buffer ++ text) e self).1.2,
               (process_buffer json_loads fuel1 (buffer ++ text) e self).2))
    as Hnone.
  { intros buffer self fuel fuel1 Hf Hf1.
    destruct (process_buffer_fuel json_loads fuel fuel1 (buffer ++ text) e self)
      as [-> _]; [done|done|].
    by destruct (process_buffer json_loads fuel1 (buffer ++ text) e self) as [[? ?] ?]. }
  induction fuel0 as [|fuel0 IH]; intros buffer self fuel fuel1 Hf0 Hf Hf1.
  { destruct buffer; [|cbn in Hf0; lia].
    rewrite (process_buffer_no_newline json_loads 0 []) by done.
    unfold result_of, state_of, trace_of. cbn [fst snd app]. by apply (Hnone []). }
  destruct (split_newline buffer) as [[line rest]|] eqn:Hs.
  2:{ rewrite (process_buffer_no_newline json_loads (S fuel0) buffer) by done.
      unfold result_of, state_of, trace_of. cbn [fst snd app]. by apply Hnone. }
  pose proof (split_newline_shorter _ _ _ Hs) as Hlen.
  pose proof (split_newline_app_l _ text _ _ Hs) as Hs'.
  pose proof (split_newline_shorter _ _ _ Hs') as Hlen'.
  destruct fuel as [|fuel]; [lia|].
  destruct (strip_truthy line) eqn:Hb.
  2:{ rewrite (process_buffer_blank _ _ _ _ _ _ _ Hs Hb),
              (process_buffer_blank _ _ _ _ _ _ _ Hs' Hb).
      apply IH; lia. }
  destruct (json_loads line) as [|event|] eqn:Hj.
  - rewrite (process_buffer_error _ _ _ _ _ _ _ Hs Hb Hj),
            (process_buffer_error _ _ _ _ _ _ _ Hs' Hb Hj).
    cbn zeta. rewrite (IH rest self fuel fuel1) by lia.
    unfold result_of, state_of, trace_of. cbn [fst snd].
    by destruct (process_buffer json_loads fuel0 rest e self) as [[[rest'| |] ?] ?].
  - rewrite (process_buffer_object _ _ _ _ _ _ _ _ Hs Hb Hj),
            (process_buffer_object _ _ _ _ _ _ _ _ Hs' Hb Hj).
    cbn zeta. rewrite (IH rest (state_of (route_event event e self)) fuel fuel1) by lia.
    unfold result_of, state_of, trace_of. cbn [fst snd].
    destruct (process_buffer json_loads fuel0 rest e (route_event event e self).1.2)
      as [[[rest'| |] ?] ?]; cbn [fst snd app]; [|done|done].
    by rewrite <- app_assoc.
  - by rewrite (process_buffer_other _ _ _ _ _ _ _ Hs Hb Hj),
               (process_buffer_other _ _ _ _ _ _ _ Hs' Hb Hj).
Qed.

(** Where the stream is cut into chunks does not matter, as long as no
    character is cut: two chunks received one after the other are handled
    exactly as the one chunk holding both, with the same exit, final state
    and trace, whatever was buffered before and whatever follows. *)
Theorem chunk_boundaries_do_not_matter
    (json_loads : pystr -> loads_result) (e : Env)
    (b1 b2 : byte) (d1 d2 : list byte) (t1 t2 : pystr)
    (buffer : pystr) (stream : list arrival) (self : InputRouter) :
  decode_utf8 (b1 :: d1) = Some t1 ->
  decode_utf8 (b2 :: d2) = Some t2 ->
  event_loop_from json_loads buffer
    ({| os := e; recv := RecvData (b1 :: d1) |}
       :: {| os := e; recv := RecvData (b2 :: d2) |} :: stream) self
  = event_loop_from json_loads buffer
      ({| os := e; recv := RecvData ((b1 :: d1) ++ (b2 :: d2)) |} :: stream) self.
Proof.
  intros Hd1 Hd2.
  pose proof (decode_utf8_app (b1 :: d1) (b2 :: d2) t1 Hd1) as Hd12.
  rewrite Hd2 in Hd12. cbn [fmap option_fmap option_map] in Hd12.
  cbn [event_loop_from recv os]. destruct (running self) eqn:Hrun; [|done]. cbn [negb].
  cbn [app] in Hd12 |- *. rewrite Hd1, Hd12. cbn zeta.
  rewrite (app_assoc buffer t1 t2).
  rewrite (process_buffer_app json_loads e t2 (length (buffer ++ t1)) (buffer ++ t1) self
             (length ((buffer ++ t1) ++ t2)) (length ((buffer ++ t1) ++ t2)))
    by done.
  pose proof (process_buffer_keeps_registry json_loads (length (buffer ++ t1))
                (buffer ++ t1) e self) as (_ & Hr & _).
  destruct (process_buffer json_loads (length (buffer ++ t1)) (buffer ++ t1) e self)
    as [[[rest| |] self1] tr1] eqn:Hx1;
    unfold result_of, state_of, trace_of in *; cbn [fst snd] in *.
  - rewrite Hr, Hrun. cbn [negb]. rewrite Hd2. cbn zeta.
    assert (length rest <= length (buffer ++ t1))%nat as Hrest.
    { apply (process_buffer_remaining json_loads e (length (buffer ++ t1))
               (buffer ++ t1) rest self). by rewrite Hx1. }
    destruct (process_buffer_fuel json_loads (length ((buffer ++ t1) ++ t2))
                (length (rest ++ t2)) (rest ++ t2) e self1) as [-> _].
    { rewrite !length_app in *. lia. }
    { done. }
    destruct (process_buffer json_loads (length (rest ++ t2)) (rest ++ t2) e self1)
      as [[[rest2| |] self2] tr2]; cbn [fst snd].
    + by rewrite <- app_assoc.
    + by rewrite <- app_assoc.
    + done.
  - done.
  - done.
Qed.

Lemma chunk_boundaries_do_not_matter_witness :
  decode_utf8 [x7b] = Some (text "{")
  /\ decode_utf8 (x22 :: tail (tail (line_bytes key_line)))
     = Some (tail (text key_line) ++ [NEWLINE])
  /\ event_loop_from scenario_loads []
       [{| os := desktop_up; recv := RecvData [x7b] |};
        {| os := desktop_up;
           recv := RecvData (x22 :: tail (tail (line_bytes key_line))) |}] router
     = event_loop_from scenario_loads []
         [{| os := desktop_up;
             recv := RecvData ([x7b] ++ x22 :: tail (tail (line_bytes key_line))) |}]
         router.
Proof.
  split; [vm_compute; reflexivity|]. split; [vm_compute; reflexivity|].
  apply (chunk_boundaries_do_not_matter scenario_loads desktop_up
           x7b x22 [] (tail (tail (line_bytes key_line)))
           (text "{") (tail (text key_line) ++ [NEWLINE]) [] [] router).
  - vm_compute; reflexivity.
  - vm_compute; reflexivity.
Defined.

(** ** Blank lines and unfinished records *)

Lemma blank_line_skipped (json_loads : pystr -> loads_result)
    (e : Env) (blank rest : pystr) (lines : list pystr) :
  NEWLINE ∉ blank ->
  strip_truthy blank = false ->
  Forall (fun line => NEWLINE ∉ line) lines ->
  forall (self : InputRouter) (fuel fuel' : nat),
    (length (lines_text lines ++ blank ++ NEWLINE :: rest) <= fuel)%nat ->
    (length (lines_text lines ++ rest) <= fuel')%nat ->
    process_buffer json_loads fuel (lines_text lines ++ blank ++ NEWLINE :: rest) e self
    = process_buffer json_loads fuel' (lines_text lines ++ rest) e self.
Proof.
  intros Hnl Hb Hlines. induction Hlines as [|line lines Hline _ IH];
    intros self fuel fuel' Hf Hf'.
  - change (lines_text []) with (@nil N) in *. cbn [app] in *.
    pose proof (split_newline_app blank rest Hnl) as Hs.
    pose proof (split_newline_shorter _ _ _ Hs) as Hlen.
    destruct fuel as [|fuel]; [lia|].
    rewrite (process_buffer_blank _ _ _ _ _ _ _ Hs Hb).
    by destruct (process_buffer_fuel json_loads fuel fuel' rest e self) as [-> _];
      [lia|lia|].
  - rewrite !lines_text_cons_app in *.
    pose proof (split_newline_app line
                  (lines_text lines ++ blank ++ NEWLINE :: rest) Hline) as Hs.
    pose proof (split_newline_app line (lines_text lines ++ rest) Hline) as Hs'.
    pose proof (split_newline_shorter _ _ _ Hs) as Hlen.
    pose proof (split_newline_shorter _ _ _ Hs') as Hlen'.
    destruct fuel as [|fuel]; [lia|]. destruct fuel' as [|fuel']; [lia|].
    destruct (strip_truthy line) eqn:Hbl.
    2:{ rewrite (process_buffer_blank _ _ _ _ _ _ _ Hs Hbl),
                (process_buffer_blank _ _ _ _ _ _ _ Hs' Hbl).
        apply IH; lia. }
    destruct (json_loads line) as [|event|] eqn:Hjl.
    + rewrite (process_buffer_error _ _ _ _ _ _ _ Hs Hbl Hjl),
              (process_buffer_error _ _ _ _ _ _ _ Hs' Hbl Hjl).
      cbn zeta. by rewrite (IH self fuel fuel') by lia.
    + rewrite (process_buffer_object _ _ _ _ _ _ _ _ Hs Hbl Hjl),
              (process_buffer_object _ _ _ _ _ _ _ _ Hs' Hbl Hjl).
      cbn zeta. by rewrite (IH (state_of (route_event event e self)) fuel fuel') by lia.
    + by rewrite (process_buffer_other _ _ _ _ _ _ _ Hs Hbl Hjl),
                 (process_buffer_other _ _ _ _ _ _ _ Hs' Hbl Hjl).
Qed.

(** A line that holds white space only (an empty line, or the carriage
    return left by a CRLF line end) is skipped without being parsed: the
    receive loop behaves exactly as on the stream without that line, with
    the same exit, state and trace, and no record in the log. *)
Theorem blank_lines_are_ignored (json_loads : pystr -> loads_result)
    (e : Env) (self : InputRouter) (blank rest : pystr) (lines : list pystr)
    (buffer buffer' text text' : pystr) (b b' : byte) (data data' : list byte)
    (stream : list arrival) :
  NEWLINE ∉ blank ->
  strip_truthy blank = false ->
  Forall (fun line => NEWLINE ∉ line) lines ->
  decode_utf8 (b :: data) = Some text ->
  decode_utf8 (b' :: data') = Some text' ->
  buffer ++ text = lines_text lines ++ blank ++ NEWLINE :: rest ->
  buffer' ++ text' = lines_text lines ++ rest ->
  event_loop_from json_loads buffer
    ({| os := e; recv := RecvData (b :: data) |} :: stream) self
  = event_loop_from json_loads buffer'
      ({| os := e; recv := RecvData (b' :: data') |} :: stream) self.
Proof.
  intros Hnl Hb Hlines Hdec Hdec' Htext Htext'.
  cbn [event_loop_from recv os]. destruct (running self); [|done]. cbn [negb].
  rewrite Hdec, Hdec', Htext, Htext'. cbn zeta.
  by rewrite (blank_line_skipped json_loads e blank rest lines Hnl Hb Hlines self
                (length (lines_text lines ++ blank ++ NEWLINE :: rest))
                (length (lines_text lines ++ rest))).
Qed.

Lemma blank_lines_are_ignored_witness :
  (NEWLINE ∉ text (String (Ascii.ascii_of_byte x0d) EmptyString))
  /\ strip_truthy (text (String (Ascii.ascii_of_byte x0d) EmptyString)) = false
  /\ event_loop_from scenario_loads []
       (one_chunk ([x0d; x0a] ++ line_bytes key_line)) router
     = event_loop_from scenario_loads [] (one_chunk (line_bytes key_line)) router.
Proof.
  assert (Hnl : NEWLINE ∉ text (String (Ascii.ascii_of_byte x0d) EmptyString)).
  { apply (proj1 (bool_decide_eq_false _)). vm_compute. reflexivity. }
  split; [exact Hnl|]. split; [reflexivity|].
  apply (blank_lines_are_ignored scenario_loads desktop_up router
           (text (String (Ascii.ascii_of_byte x0d) EmptyString))
           (text key_line ++ [NEWLINE]) []
           [] [] (13%N :: NEWLINE :: text key_line ++ [NEWLINE])
           (text key_line ++ [NEWLINE])
           x0d x7b (x0a :: line_bytes key_line) (tail (line_bytes key_line)) [] Hnl).
  - reflexivity.
  - constructor.
  - vm_compute; reflexivity.
  - vm_compute; reflexivity.
  - vm_compute; reflexivity.
  - vm_compute; reflexivity.
Defined.

(** A record whose newline has not arrived is held in the buffer and not
    routed; if the server then closes the connection, the loop ends and the
    record is dropped without having been routed. *)
Theorem unfinished_record_is_not_routed (json_loads : pystr -> loads_result)
    (e e' : Env) (self : InputRouter) (buffer text : pystr)
    (b : byte) (data : list byte) (stream : list arrival) :
  running self = true ->
  decode_utf8 (b :: data) = Some text ->
  split_newline (buffer ++ text) = None ->
  event_loop_from json_loads buffer [{| os := e; recv := RecvData (b :: data) |}] self
  = (AwaitingData (buffer ++ text), self, [])
  /\ event_loop_from json_loads buffer
       ({| os := e; recv := RecvData (b :: data) |}
          :: {| os := e'; recv := RecvData [] |} :: stream) self
     = (ServerDisconnected, self, [Log WARNING]).
Proof.
  intros Hrun Hdec Hs.
  cbn [event_loop_from recv os]. rewrite Hrun. cbn [negb]. rewrite Hdec. cbn zeta.
  rewrite process_buffer_no_newline by done.
  unfold result_of, state_of, trace_of. cbn [fst snd]. by rewrite Hrun.
Qed.

Lemma unfinished_record_is_not_routed_witness :
  running router = true
  /\ decode_utf8 (String.list_byte_of_string key_line) = Some (text key_line)
  /\ split_newline ([] ++ text key_line) = None
  /\ event_loop_from scenario_loads []
       ({| os := desktop_up; recv := RecvData (String.list_byte_of_string key_line) |}
          :: one_chunk []) router
     = (ServerDisconnected, router, [Log WARNING]).
Proof.
  split; [reflexivity|]. split; [vm_compute; reflexivity|].
  split; [vm_compute; reflexivity|].
  assert (exists b data, String.list_byte_of_string key_line = b :: data)
    as (b & data & Hbytes).
  { vm_compute. eauto. }
  rewrite Hbytes.
  apply (unfinished_record_is_not_routed scenario_loads desktop_up desktop_up router
           [] (text key_line) b data []).
  - reflexivity.
  - rewrite <- Hbytes. vm_compute; reflexivity.
  - vm_compute; reflexivity.
Defined.

(** Between two reads the buffer never holds a complete line: when the
    loop waits for data, what it has buffered contains no newline. *)
Theorem waiting_buffer_has_no_complete_line (json_loads : pystr -> loads_result)
    (stream : list arrival) (buffer rest : pystr) (self : InputRouter) :
  split_newline buffer = None ->
  result_of (event_loop_from json_loads buffer stream self) = AwaitingData rest ->
  split_newline rest = None.
Proof.
  revert buffer self. induction stream as [|a stream IH]; intros buffer self Hbuf.
  { cbn. destruct (running self); [|done]. by intros [= <-]. }
  cbn [event_loop_from]. destruct (running self); [|done]. cbn [negb].
  destruct (recv a) as [data| |]; [|by apply IH|by destruct (running self)].
  destruct data as [|b data]; [done|].
  destruct (decode_utf8 (b :: data)) as [text|]; [|done].
  cbn zeta.
  pose proof (process_buffer_remaining json_loads (os a) (length (buffer ++ text))
                (buffer ++ text)) as Hrem.
  destruct (result_of (process_buffer json_loads (length (buffer ++ text))
                         (buffer ++ text) (os a) self)) as [buffer'| |] eqn:Hres;
    [|done|done].
  unfold result_of at 1. cbn [fst]. apply IH.
  by apply (Hrem buffer' self).
Qed.

Lemma waiting_buffer_has_no_complete_line_witness :
  split_newline [] = None
  /\ result_of (event_loop_from scenario_loads []
                  (one_chunk (line_bytes key_line
                              ++ String.list_byte_of_string malformed_line)) router)
     = AwaitingData (text malformed_line)
  /\ split_newline (text malformed_line) = None.
Proof.
  split; [reflexivity|].
  assert (result_of (event_loop_from scenario_loads []
            (one_chunk (line_bytes key_line
                        ++ String.list_byte_of_string malformed_line)) router)
          = AwaitingData (text malformed_line)) as Hres.
  { vm_compute. reflexivity. }
  split; [exact Hres|].
  exact (waiting_buffer_has_no_complete_line scenario_loads _ [] _ router eq_refl Hres).
Defined.

(** ** More on the injected values *)

Lemma testbit_scan_high (sc n : Z) : 0 <= sc < 256 -> 8 <= n -> Z.testbit sc n = false.
Proof. apply testbit_byte_high. Qed.

(** The key messages never carry the extended-key flag: with a byte-sized
    scan code, bits 24 to 29 of the event parameter of every message posted
    for a key press are clear, for every key. *)
Theorem key_messages_never_flag_extended_keys
    (e : Env) (self : InputRouter) (event : Event) (c : os_call) :
  type event = keyboard ->
  0 <= MapVirtualKeyW e (vkey event) MAPVK_VK_TO_VSC < 256 ->
  c ∈ os_calls (trace_of (route_event event e self)) ->
  exists h msg wparam lparam,
    c = PostMessageW h msg wparam lparam
    /\ forall n, 24 <= n <= 29 -> Z.testbit lparam n = false.
Proof.
  intros Hk Hsc Hc.
  destruct (route_event_calls e self event) as [Hn|[[_ [h Hkm]]|[Hm _]]].
  - rewrite Hn in Hc. by apply elem_of_nil in Hc.
  - rewrite Hkm in Hc. unfold key_messages in Hc.
    set (sc := MapVirtualKeyW e (vkey event) MAPVK_VK_TO_VSC) in *.
    assert (forall n, 24 <= n <= 29 -> Z.testbit (lparam_down sc) n = false) as Hdown.
    { intros n Hn. rewrite testbit_lparam_down by lia.
      rewrite testbit_scan_high by lia.
      replace (n =? 0) with false by (symmetry; apply Z.eqb_neq; lia). done. }
    assert (forall n, 24 <= n <= 29 -> Z.testbit (lparam_up sc) n = false) as Hup.
    { intros n Hn. rewrite testbit_lparam_up by lia.
      rewrite testbit_scan_high by lia.
      replace (n =? 0) with false by (symmetry; apply Z.eqb_neq; lia).
      replace (n =? 30) with false by (symmetry; apply Z.eqb_neq; lia).
      replace (n =? 31) with false by (symmetry; apply Z.eqb_neq; lia). done. }
    rewrite !elem_of_app in Hc.
    destruct Hc as [Hc|[Hc|Hc]].
    + apply list_elem_of_singleton in Hc as ->. eauto 10.
    + destruct (0 <? MapVirtualKeyW e (vkey event) MAPVK_VK_TO_CHAR).
      * apply list_elem_of_singleton in Hc as ->. eauto 10.
      * by apply elem_of_nil in Hc.
    + apply list_elem_of_singleton in Hc as ->. eauto 10.
  - rewrite Hk in Hm. discriminate.
Qed.

Lemma key_messages_never_flag_extended_keys_witness :
  type (key_event dev_1 13) = keyboard
  /\ 0 <= MapVirtualKeyW desktop_up (vkey (key_event dev_1 13)) MAPVK_VK_TO_VSC < 256
  /\ (PostMessageW 4660 WM_KEYUP 13 0xC01C0001
        ∈ os_calls (trace_of (route_event (key_event dev_1 13) desktop_up router)))
  /\ exists h msg wparam lparam,
       PostMessageW 4660 WM_KEYUP 13 0xC01C0001 = PostMessageW h msg wparam lparam
       /\ forall n, 24 <= n <= 29 -> Z.testbit lparam n = false.
Proof.
  assert (Hin : PostMessageW 4660 WM_KEYUP 13 0xC01C0001
                  ∈ os_calls (trace_of (route_event (key_event dev_1 13) desktop_up router))).
  { vm_compute. do 2 apply list_elem_of_further. apply list_elem_of_here. }
  split; [reflexivity|]. split; [vm_compute; split; [discriminate|reflexivity]|].
  split; [exact Hin|].
  apply (key_messages_never_flag_extended_keys desktop_up router (key_event dev_1 13)).
  - reflexivity.
  - vm_compute; split; [discriminate|reflexivity].
  - exact Hin.
Defined.

Lemma button_flags_low_six (b : Z) : button_flags (Z.land b 63) = button_flags b.
Proof.
  rewrite !button_flags_shift. f_equal.
  by rewrite <- Z.land_assoc, Z.land_diag.
Qed.

Lemma mouse_inputs_low_six (x y b : Z) :
  mouse_inputs x y (Z.land b 63) = mouse_inputs x y b.
Proof.
  unfold mouse_inputs. rewrite button_flags_low_six. f_equal.
  assert (forall z, z = 0 -> button_flags z = 0) as Hz by (by intros z ->).
  destruct (Z.eqb_spec (button_flags b) 0) as [H0|H0].
  - by rewrite !andb_false_r.
  - rewrite !andb_true_r.
    destruct (Z.eqb_spec (Z.land b 63) 0) as [Heq|_].
    { apply Hz in Heq. by rewrite button_flags_low_six in Heq. }
    destruct (Z.eqb_spec b 0) as [Heq|_]; [by apply Hz in Heq|done].
Qed.

(** Only the six button bits count: every other bit of [buttons] (wheel,
    fourth and fifth button) is ignored, so an event injects what the same
    event with [buttons & 0x3F] injects, and an event whose [buttons] has
    none of the six bits injects no button input at all. *)
Theorem other_button_bits_are_ignored (e : Env) (self : InputRouter) (event : Event) :
  type event = mouse ->
  result_of (route_event event e self) = Delivered ->
  os_calls (trace_of (route_event event e self))
  = mouse_inputs (dx event) (dy event) (Z.land (buttons event) 63)
  /\ (Z.land (buttons event) 63 = 0 ->
      os_calls (trace_of (route_event event e self))
      = if negb (dx event =? 0) || negb (dy event =? 0)
        then [SendInput (motion_input (dx event) (dy event))] else []).
Proof.
  intros Hm Hres.
  destruct (route_event_shape e self event)
    as [[_ Hn]|(uid & session & pre & _ & _ & _ & Hpre & _ & Htr)]; [done|].
  destruct (dispatch_mouse e session event Hm) as [_ Hcalls].
  assert (os_calls (trace_of (route_event event e self))
          = mouse_inputs (dx event) (dy event) (Z.land (buttons event) 63)) as Hall.
  { by rewrite Htr, os_calls_app, Hpre, Hcalls, mouse_inputs_low_six. }
  split; [done|]. intros Hz. rewrite Hall, Hz. unfold mouse_inputs. cbn.
  by rewrite app_nil_r.
Qed.

Lemma other_button_bits_are_ignored_witness :
  type (mouse_event dev_1 0 0 0x400) = mouse
  /\ result_of (route_event (mouse_event dev_1 0 0 0x400) desktop_up router) = Delivered
  /\ Z.land (buttons (mouse_event dev_1 0 0 0x400)) 63 = 0
  /\ os_calls (trace_of (route_event (mouse_event dev_1 0 0 0x400) desktop_up router)) = [].
Proof.
  split; [reflexivity|]. split; [vm_compute; reflexivity|]. split; [reflexivity|].
  destruct (other_button_bits_are_ignored desktop_up router (mouse_event dev_1 0 0 0x400))
    as [_ Hnone].
  - reflexivity.
  - vm_compute; reflexivity.
  - apply Hnone. reflexivity.
Defined.

Lemma LONG_periodic (z k : Z) : LONG (z + k * 2 ^ 32) = LONG z.
Proof.
  unfold LONG. replace (z + k * 2 ^ 32 + 2 ^ 31) with (z + 2 ^ 31 + k * 2 ^ 32) by lia.
  by rewrite Z.mod_add by lia.
Qed.

(** The motion fields are 32-bit: a displacement is injected modulo 2^32,
    as a signed 32-bit value. In particular an event whose [dx] is a
    nonzero multiple of 2^32, with no [dy] and no buttons, passes the test
    for motion and injects a motion of zero. *)
Theorem motion_is_injected_modulo_32_bits
    (e : Env) (self : InputRouter) (event : Event) (k : Z) :
  type event = mouse ->
  result_of (route_event event e self) = Delivered ->
  (forall x y j i, motion_input (x + j * 2 ^ 32) (y + i * 2 ^ 32) = motion_input x y)
  /\ (forall x y, exists x' y',
        - 2 ^ 31 <= x' < 2 ^ 31 /\ - 2 ^ 31 <= y' < 2 ^ 31
        /\ motion_input x y = motion_input x' y')
  /\ (dx event = k * 2 ^ 32 -> k <> 0 -> dy event = 0 -> buttons event = 0 ->
      os_calls (trace_of (route_event event e self)) = [SendInput (motion_input 0 0)]).
Proof.
  intros Hm Hres. split; [|split].
  - intros x y j i. unfold motion_input. by rewrite !LONG_periodic.
  - intros x y. exists (LONG x), (LONG y).
    assert (forall z, - 2 ^ 31 <= LONG z < 2 ^ 31) as Hr.
    { intros z. unfold LONG. pose proof (Z.mod_pos_bound (z + 2 ^ 31) (2 ^ 32)). lia. }
    split; [apply Hr|]. split; [apply Hr|].
    unfold motion_input.
    by rewrite (LONG_small (LONG x)), (LONG_small (LONG y)) by apply Hr.
  - intros Hx Hk Hy Hb.
    destruct (route_event_shape e self event)
      as [[_ Hn]|(uid & session & pre & _ & _ & _ & Hpre & _ & Htr)]; [done|].
    destruct (dispatch_mouse e session event Hm) as [_ Hcalls].
    rewrite Htr, os_calls_app, Hpre, Hcalls, Hy, Hb.
    rewrite mouse_inputs_motion by (left; lia).
    rewrite Hx. cbn [app]. do 2 f_equal.
    unfold motion_input. do 2 f_equal. exact (LONG_periodic 0 k).
Qed.

Lemma motion_is_injected_modulo_32_bits_witness :
  type (mouse_event dev_1 (2 ^ 32) 0 0) = mouse
  /\ result_of (route_event (mouse_event dev_1 (2 ^ 32) 0 0) desktop_up router) = Delivered
  /\ os_calls (trace_of (route_event (mouse_event dev_1 (2 ^ 32) 0 0) desktop_up router))
     = [SendInput (motion_input 0 0)].
Proof.
  split; [reflexivity|]. split; [vm_compute; reflexivity|].
  destruct (motion_is_injected_modulo_32_bits desktop_up router
              (mouse_event dev_1 (2 ^ 32) 0 0) 1) as (_ & _ & Hzero).
  - reflexivity.
  - vm_compute; reflexivity.
  - apply Hzero; [reflexivity|discriminate|reflexivity|reflexivity].
Defined.

(** ** The legacy path: focus, then synthetic key *)





(** ** Configuration that cannot be saved *)

(** When the configuration file cannot be written, [_save_config] logs the
    error and nothing more: the mapping is added to, or removed from, the
    table in memory all the same, the confirmation is still logged and the
    lock is released, so the next event of the device is looked up in the
    changed table. *)
Theorem failed_save_keeps_the_mapping
    (e : Env) (self : InputRouter) (d u : string) :
  config_writable e = false ->
  add_device_mapping d u e self
  = (tt, with_mappings (<[d := u]> (device_mappings self)) self,
     [Mem LockAcquire; Mem MappingsWrite; Mem MappingsRead;
      Log ERROR; Log INFO; Mem LockRelease])
  /\ (is_Some (device_mappings self !! d) ->
      remove_device_mapping d e self
      = (tt, with_mappings (delete d (device_mappings self)) self,
         [Mem LockAcquire; Mem MappingsRead; Mem MappingsWrite; Mem MappingsRead;
          Log ERROR; Log INFO; Mem LockRelease])).
Proof.
  intros Hw. split.
  - rewrite add_device_mapping_unfold. unfold _save_config. run. by rewrite Hw.
  - intros Hd. rewrite remove_device_mapping_unfold. unfold _save_config. run.
    rewrite bool_decide_eq_true_2 by done. run. by rewrite Hw.
Qed.

Lemma failed_save_keeps_the_mapping_witness :
  config_writable read_only_config = false
  /\ is_Some (device_mappings router !! dev_1)
  /\ device_mappings (state_of (add_device_mapping dev_9 alice read_only_config router))
       !! dev_9 = Some alice
  /\ device_mappings (state_of (remove_device_mapping dev_1 read_only_config router))
       !! dev_1 = None.
Proof.
  assert (Hd : is_Some (device_mappings router !! dev_1)) by (vm_compute; eauto).
  split; [reflexivity|]. split; [exact Hd|].
  destruct (failed_save_keeps_the_mapping read_only_config router dev_9 alice)
    as [-> _]; [reflexivity|].
  destruct (failed_save_keeps_the_mapping read_only_config router dev_1 alice)
    as [_ Hrm]; [reflexivity|].
  rewrite (Hrm Hd). unfold state_of, with_mappings. cbn [fst snd device_mappings].
  split; [apply lookup_insert_eq|apply lookup_delete_eq].
Defined.
